(** * The deinterlace video filter of vlc (modules/video_filter/deinterlace/deinterlace.c)

    A shallow embedding of [Create], [Init], [Render], [RenderBob],
    [RenderLinear], [RenderMean], [RenderBlend] and [Merge], and the
    properties of the filter's row logic, timestamping and cancellation.

    Conventions of the embedding:
    - a pixel buffer is a [list Z] of byte values; a pointer into it is a
      [Z] offset from its first byte;
    - an access outside a buffer (undefined behaviour in C) is the outcome
      [Fault]; a loop that exhausts its iteration budget, or a wait for a
      picture that the sink never answers, is the outcome [Starved];
    - [mtime_t] is a signed 64-bit integer: its arithmetic is wrapped by
      [wrap64], and [/] on it is C's truncating division ([Z.quot]). *)

From Stdlib Require Import Ascii String.
From Stdlib Require Import ZArith List Bool Lia Sorted.
Import ListNotations.
Local Open Scope Z_scope.

(** ** Outcomes of a computation *)

Inductive outcome (A : Type) : Type :=
| Done (a : A)
| Fault
| Starved.

Arguments Done {A} a.
Arguments Fault {A}.
Arguments Starved {A}.

Definition bind {A B : Type} (m : outcome A) (k : A -> outcome B) : outcome B :=
  match m with
  | Done a => k a
  | Fault => Fault
  | Starved => Starved
  end.

Notation "x <- m ;; k" := (bind m (fun x => k))
  (at level 61, m at next level, right associativity).

(** [while fuel cond body s] runs [while (cond) body] from state [s], for at
    most [fuel] iterations. *)
Fixpoint while {S : Type} (fuel : nat) (cond : S -> bool)
         (body : S -> outcome S) (s : S) : outcome S :=
  match fuel with
  | O => if cond s then Starved else Done s
  | Datatypes.S fuel' =>
      if cond s then s' <- body s ;; while fuel' cond body s' else Done s
  end.

(** [steps k body s] runs [body] exactly [k] times. *)
Fixpoint steps {S : Type} (k : nat) (body : S -> outcome S) (s : S) : outcome S :=
  match k with
  | O => Done s
  | Datatypes.S k' => s' <- body s ;; steps k' body s'
  end.

(** ** Byte buffers *)

Definition len (buf : list Z) : Z := Z.of_nat (List.length buf).

Definition u8 (x : Z) : Z := x mod 256.
Definition u16 (x : Z) : Z := x mod 65536.

Definition is_byte (x : Z) : Prop := 0 <= x < 256.

(** [in_range buf off n]: the [n] bytes at offset [off] lie inside [buf]. *)
Definition in_range (buf : list Z) (off n : Z) : bool :=
  (0 <=? off) && (0 <=? n) && (off + n <=? len buf).

(** The [n] bytes of [buf] from offset [off]. *)
Definition sub (buf : list Z) (off n : Z) : list Z :=
  firstn (Z.to_nat n) (skipn (Z.to_nat off) buf).

(** [buf] with [data] written at offset [off]. *)
Definition blit (buf : list Z) (off : Z) (data : list Z) : list Z :=
  firstn (Z.to_nat off) buf ++ data
    ++ skipn (Z.to_nat off + List.length data) buf.

(** The byte of [buf] at offset [i]. *)
Definition get (buf : list Z) (i : Z) : Z := nth (Z.to_nat i) buf 0.

Definition load (buf : list Z) (i : Z) : outcome Z :=
  if in_range buf i 1 then Done (get buf i) else Fault.

Definition store (buf : list Z) (i : Z) (v : Z) : outcome (list Z) :=
  if in_range buf i 1 then Done (blit buf i [u8 v]) else Fault.

(** [p_vout->p_vlc->pf_memcpy( p_out, p_in, n )], the destination being the
    bytes of [dst] at [p_out] and the source those of [src] at [p_in]. *)
Definition memcpy (dst : list Z) (p_out : Z) (src : list Z) (p_in : Z) (n : Z)
  : outcome (list Z) :=
  if in_range dst p_out n && in_range src p_in n
  then Done (blit dst p_out (sub src p_in n))
  else Fault.

(** ** Merge *)

(** The three pointers of [Merge] and the destination memory. *)
Record merge_state : Type := {
  p_dest : Z;
  p_s1 : Z;
  p_s2 : Z;
  dest_mem : list Z
}.

(** [( (u16)a + (u16)b ) >> 1] as stored into a [u8]. *)
Definition merge_byte (a b : Z) : Z := u8 (Z.shiftr (u16 a + u16 b) 1).

(** One statement of [Merge]: the byte at [p_dest] receives the sum of the
    bytes at [p_s1] and [p_s2], each cast to [u16], shifted right by one; the
    three pointers advance by one. *)
Definition merge_one (s1 s2 : list Z) (st : merge_state) : outcome merge_state :=
  a <- load s1 (p_s1 st) ;;
  b <- load s2 (p_s2 st) ;;
  d <- store (dest_mem st) (p_dest st) (Z.shiftr (u16 a + u16 b) 1) ;;
  Done {| p_dest := p_dest st + 1; p_s1 := p_s1 st + 1;
          p_s2 := p_s2 st + 1; dest_mem := d |}.

(** The body of the first loop: the statement above, eight times. *)
Definition merge_eight (s1 s2 : list Z) (st : merge_state) : outcome merge_state :=
  st <- merge_one s1 s2 st ;;
  st <- merge_one s1 s2 st ;;
  st <- merge_one s1 s2 st ;;
  st <- merge_one s1 s2 st ;;
  st <- merge_one s1 s2 st ;;
  st <- merge_one s1 s2 st ;;
  st <- merge_one s1 s2 st ;;
  merge_one s1 s2 st.

Definition below (p_end : Z) (st : merge_state) : bool := p_dest st <? p_end.

(** The first loop: while [p_dest < p_end], eight bytes. *)
Definition Merge_unrolled (fuel : nat) (s1 s2 : list Z) (p_end : Z)
           (st : merge_state) : outcome merge_state :=
  while fuel (below p_end) (merge_eight s1 s2) st.

(** The second loop: while [p_dest < p_end], one byte. *)
Definition Merge_tail (fuel : nat) (s1 s2 : list Z) (p_end : Z)
           (st : merge_state) : outcome merge_state :=
  while fuel (below p_end) (merge_one s1 s2) st.

(** [Merge( p_dest, p_s1, p_s2, i_bytes )]: [dest] is the memory [p_dest]
    points into, [s1] and [s2] those of the two sources. *)
Definition Merge (dest : list Z) (p_dest0 : Z) (s1 : list Z) (p_s10 : Z)
           (s2 : list Z) (p_s20 : Z) (i_bytes : Z) : outcome (list Z) :=
  let fuel := Z.to_nat i_bytes in
  let p_end := p_dest0 + i_bytes - 8 in
  st <- Merge_unrolled fuel s1 s2 p_end
          {| p_dest := p_dest0; p_s1 := p_s10; p_s2 := p_s20; dest_mem := dest |} ;;
  let p_end := p_end + 8 in
  st <- Merge_tail fuel s1 s2 p_end st ;;
  Done (dest_mem st).

(** What [Merge] writes for the source runs [a] and [b]. *)
Fixpoint merge_bytes (a b : list Z) : list Z :=
  match a, b with
  | x :: a', y :: b' => merge_byte x y :: merge_bytes a' b'
  | _, _ => []
  end.

(** The bytewise mean [floor((a[i] + b[i]) / 2)]. *)
Fixpoint mean_bytes (a b : list Z) : list Z :=
  match a, b with
  | x :: a', y :: b' => (x + y) / 2 :: mean_bytes a' b'
  | _, _ => []
  end.

(** ** Planes and pictures *)

(** [plane_t]: the pixel buffer, the bytes per row and the number of rows.
    Plane geometry is kept as unbounded integers: pitches and line counts
    are far below the range of [int]. *)
Record plane_t : Type := {
  p_pixels : list Z;
  i_pitch : Z;
  i_lines : Z
}.

(** [picture_t]: the presentation date and the planes [p[0 .. i_planes-1]]. *)
Record picture_t : Type := {
  date : Z;
  p : list plane_t
}.

Definition i_planes (pic : picture_t) : Z := Z.of_nat (List.length (p pic)).

Definition with_pixels (pl : plane_t) (mem : list Z) : plane_t :=
  {| p_pixels := mem; i_pitch := i_pitch pl; i_lines := i_lines pl |}.

(** Row [k] of a buffer whose rows are [pitch] bytes apart. *)
Definition row (buf : list Z) (pitch k : Z) : list Z := sub buf (k * pitch) pitch.

(** The rows of a plane, first to last. *)
Definition rows (pl : plane_t) : list (list Z) :=
  map (fun k => row (p_pixels pl) (i_pitch pl) (Z.of_nat k))
      (seq 0 (Z.to_nat (i_lines pl))).

(** The [VLC_FOURCC( a, b, c, d )] tag of a chroma. The macro is declared in
    the vlc headers, which pack the four characters into a 32-bit integer;
    the filter only compares tags, so the tag is kept as its four
    characters. *)
Definition VLC_FOURCC (a b c d : Ascii.ascii) : String.string :=
  String.String a (String.String b (String.String c (String.String d String.EmptyString))).

Definition I420 : String.string := VLC_FOURCC "I"%char "4"%char "2"%char "0"%char.
Definition IYUV : String.string := VLC_FOURCC "I"%char "Y"%char "U"%char "V"%char.
Definition YV12 : String.string := VLC_FOURCC "Y"%char "V"%char "1"%char "2"%char.
Definition I422 : String.string := VLC_FOURCC "I"%char "4"%char "2"%char "2"%char.

(** The three case labels that share the 4:2:0 branch of each switch. *)
Definition is_420 (chroma : String.string) : bool :=
  String.eqb chroma I420 || String.eqb chroma IYUV || String.eqb chroma YV12.

(** Index of the luma plane ([Y_PLANE] of the vlc headers). *)
Definition Y_PLANE : Z := 0.

(** The pointers of a row loop and the destination memory. *)
Record row_state : Type := {
  p_in : Z;
  p_out : Z;
  out_mem : list Z
}.

Definition out_before (p_out_end : Z) (st : row_state) : bool :=
  p_out st <? p_out_end.

(** [for( i_plane = 0 ; i_plane < p_pic->i_planes ; i_plane++ )]: [body] is
    run on [p_outpic->p[i_plane]] and [p_pic->p[i_plane]]. *)
Fixpoint for_planes (body : Z -> plane_t -> plane_t -> outcome plane_t)
         (i_plane : Z) (outs ins : list plane_t) : outcome (list plane_t) :=
  match ins with
  | [] => Done outs
  | src :: ins' =>
      match outs with
      | [] => Fault
      | out :: outs' =>
          r <- body i_plane out src ;;
          rs <- for_planes body (i_plane + 1) outs' ins' ;;
          Done (r :: rs)
      end
  end.

(** ** RenderBob *)

(** Loop body of the 4:2:0 case, and of the chroma planes of 4:2:2. *)
Definition bob_body (src : plane_t) (i_increment : Z) (st : row_state)
  : outcome row_state :=
  m <- memcpy (out_mem st) (p_out st) (p_pixels src) (p_in st) (i_pitch src) ;;
  Done {| p_in := p_in st + i_increment;
          p_out := p_out st + i_pitch src;
          out_mem := m |}.

(** Loop body of the luma plane of 4:2:2: each source row is written twice. *)
Definition bob_body_422_luma (src : plane_t) (i_increment : Z) (st : row_state)
  : outcome row_state :=
  m <- memcpy (out_mem st) (p_out st) (p_pixels src) (p_in st) (i_pitch src) ;;
  let p_out1 := p_out st + i_pitch src in
  m <- memcpy m p_out1 (p_pixels src) (p_in st) (i_pitch src) ;;
  Done {| p_in := p_in st + i_increment;
          p_out := p_out1 + i_pitch src;
          out_mem := m |}.

(** One iteration of the plane loop of [RenderBob]. *)
Definition RenderBob_plane (i_chroma : String.string) (i_field : Z)
           (i_plane : Z) (out src : plane_t) : outcome plane_t :=
  let st0 := {| p_in := i_field * i_pitch src; p_out := 0;
                out_mem := p_pixels out |} in
  let p_out_end := 0 + i_pitch out * i_lines out in
  let fuel := Z.to_nat p_out_end in
  if is_420 i_chroma then
    st <- while fuel (out_before p_out_end)
            (bob_body src (2 * i_pitch src)) st0 ;;
    Done (with_pixels out (out_mem st))
  else if String.eqb i_chroma I422 then
    let i_increment := 2 * i_pitch src in
    if i_plane =? Y_PLANE then
      st <- while fuel (out_before p_out_end)
              (bob_body_422_luma src i_increment) st0 ;;
      Done (with_pixels out (out_mem st))
    else
      st <- while fuel (out_before p_out_end)
              (bob_body src i_increment) st0 ;;
      Done (with_pixels out (out_mem st))
  else Done out.

(** ** RenderLinear *)

Definition linear_body (src : plane_t) (st : row_state) : outcome row_state :=
  m <- memcpy (out_mem st) (p_out st) (p_pixels src) (p_in st) (i_pitch src) ;;
  let p_out1 := p_out st + i_pitch src in
  m <- Merge m p_out1 (p_pixels src) (p_in st)
             (p_pixels src) (p_in st + 2 * i_pitch src) (i_pitch src) ;;
  Done {| p_in := p_in st + 2 * i_pitch src;
          p_out := p_out1 + i_pitch src;
          out_mem := m |}.

(** One iteration of the plane loop of [RenderLinear]. *)
Definition RenderLinear_plane (i_field : Z) (i_plane : Z) (out src : plane_t)
  : outcome plane_t :=
  let st0 := {| p_in := 0; p_out := 0; out_mem := p_pixels out |} in
  let p_out_end := 0 + i_pitch out * i_lines out in
  let fuel := Z.to_nat p_out_end in
  (* For BOTTOM field we need to add the first line *)
  st <- (if i_field =? 1 then
           m <- memcpy (out_mem st0) (p_out st0) (p_pixels src) (p_in st0)
                       (i_pitch src) ;;
           Done {| p_in := p_in st0 + i_pitch src;
                   p_out := p_out st0 + i_pitch src;
                   out_mem := m |}
         else Done st0) ;;
  let p_out_end := p_out_end - 2 * i_pitch out in
  st <- while fuel (out_before p_out_end) (linear_body src) st ;;
  m <- memcpy (out_mem st) (p_out st) (p_pixels src) (p_in st) (i_pitch src) ;;
  (* For TOP field we need to add the last line *)
  m <- (if i_field =? 0 then
          memcpy m (p_out st + i_pitch src) (p_pixels src)
                 (p_in st + i_pitch src) (i_pitch src)
        else Done m) ;;
  Done (with_pixels out m).

(** ** RenderMean *)

Definition mean_body (src : plane_t) (st : row_state) : outcome row_state :=
  m <- Merge (out_mem st) (p_out st) (p_pixels src) (p_in st)
             (p_pixels src) (p_in st + i_pitch src) (i_pitch src) ;;
  Done {| p_in := p_in st + 2 * i_pitch src;
          p_out := p_out st + i_pitch src;
          out_mem := m |}.

(** One iteration of the plane loop of [RenderMean]. *)
Definition RenderMean_plane (i_plane : Z) (out src : plane_t) : outcome plane_t :=
  let st0 := {| p_in := 0; p_out := 0; out_mem := p_pixels out |} in
  let p_out_end := 0 + i_pitch out * i_lines out in
  st <- while (Z.to_nat p_out_end) (out_before p_out_end) (mean_body src) st0 ;;
  Done (with_pixels out (out_mem st)).

(** ** RenderBlend *)

Definition blend_body (src : plane_t) (st : row_state) : outcome row_state :=
  m <- Merge (out_mem st) (p_out st) (p_pixels src) (p_in st)
             (p_pixels src) (p_in st + i_pitch src) (i_pitch src) ;;
  Done {| p_in := p_in st + i_pitch src;
          p_out := p_out st + i_pitch src;
          out_mem := m |}.

(** One iteration of the plane loop of [RenderBlend]. *)
Definition RenderBlend_plane (i_plane : Z) (out src : plane_t) : outcome plane_t :=
  let p_out_end := 0 + i_pitch out * i_lines out in
  (* First line: simple copy *)
  m <- memcpy (p_pixels out) 0 (p_pixels src) 0 (i_pitch src) ;;
  let st0 := {| p_in := 0; p_out := 0 + i_pitch src; out_mem := m |} in
  (* Remaining lines: mean value *)
  st <- while (Z.to_nat p_out_end) (out_before p_out_end) (blend_body src) st0 ;;
  Done (with_pixels out (out_mem st)).

(** ** The filter's state *)

Definition DEINTERLACE_DISCARD : Z := 1.
Definition DEINTERLACE_MEAN : Z := 2.
Definition DEINTERLACE_BLEND : Z := 3.
Definition DEINTERLACE_BOB : Z := 4.
Definition DEINTERLACE_LINEAR : Z := 5.

(** [struct vout_sys_t]. The field [next_date] is never read or written and
    is left out; the handle [p_vout] of the real output is represented by
    the request that opened it (see [Init]). *)
Record vout_sys_t : Type := {
  i_mode : Z;
  b_double_rate : bool;
  last_date : Z
}.

(** The [render] and [output] geometry of [vout_thread_t], its count of
    output pictures and [p_sys]. [I_OUTPUTPICTURES] is a macro of the vlc
    headers for that count, a field of [p_vout]. *)
Record vout_thread_t : Type := {
  render_i_chroma : String.string;
  render_i_width : Z;
  render_i_height : Z;
  render_i_aspect : Z;
  output_i_chroma : String.string;
  output_i_width : Z;
  output_i_height : Z;
  output_i_aspect : Z;
  I_OUTPUTPICTURES : Z;
  p_sys : vout_sys_t
}.

Definition with_sys (v : vout_thread_t) (s : vout_sys_t) : vout_thread_t :=
  {| render_i_chroma := render_i_chroma v; render_i_width := render_i_width v;
     render_i_height := render_i_height v; render_i_aspect := render_i_aspect v;
     output_i_chroma := output_i_chroma v; output_i_width := output_i_width v;
     output_i_height := output_i_height v; output_i_aspect := output_i_aspect v;
     I_OUTPUTPICTURES := I_OUTPUTPICTURES v;
     p_sys := s |}.

(** [I_OUTPUTPICTURES = n;] *)
Definition with_pictures (v : vout_thread_t) (n : Z) : vout_thread_t :=
  {| render_i_chroma := render_i_chroma v; render_i_width := render_i_width v;
     render_i_height := render_i_height v; render_i_aspect := render_i_aspect v;
     output_i_chroma := output_i_chroma v; output_i_width := output_i_width v;
     output_i_height := output_i_height v; output_i_aspect := output_i_aspect v;
     I_OUTPUTPICTURES := n;
     p_sys := p_sys v |}.

(** Messages sent to the log. *)
Inductive message : Type :=
| msg_Err (text : String.string)
| msg_Dbg (text : String.string).

(** [s] between double quotes, as the messages print the mode name. *)
Definition quoted (s : String.string) : String.string :=
  (String.String "034"%char s ++ String.String "034"%char String.EmptyString)%string.

(** ** Create *)

(** [Create]: [malloc_ok] tells whether [malloc] returned a structure, and
    [psz_method] is the result of [config_GetPsz( p_vout, "deinterlace-mode" )],
    [None] for [NULL]. The result is the return value, the structure
    allocated (if any) and the messages logged. *)
Definition Create (malloc_ok : bool) (psz_method : option String.string)
  : Z * option vout_sys_t * list message :=
  (if negb malloc_ok then (1, None, [msg_Err "out of memory"])
  else
    let sys0 := {| i_mode := DEINTERLACE_DISCARD; b_double_rate := false;
                   last_date := 0 |} in
    match psz_method with
    | None =>
        (0, Some sys0,
         [msg_Err "configuration variable deinterlace-mode empty";
          msg_Err ("no deinterlace mode provided, using " ++ quoted "discard")])
    | Some m =>
        if String.eqb m "discard" then
          (0, Some {| i_mode := DEINTERLACE_DISCARD;
                      b_double_rate := b_double_rate sys0;
                      last_date := last_date sys0 |}, [])
        else if String.eqb m "mean" then
          (0, Some {| i_mode := DEINTERLACE_MEAN;
                      b_double_rate := b_double_rate sys0;
                      last_date := last_date sys0 |}, [])
        else if String.eqb m "blend" || String.eqb m "average"
                || String.eqb m "combine-fields" then
          (0, Some {| i_mode := DEINTERLACE_BLEND;
                      b_double_rate := b_double_rate sys0;
                      last_date := last_date sys0 |}, [])
        else if String.eqb m "bob" || String.eqb m "progressive-scan" then
          (0, Some {| i_mode := DEINTERLACE_BOB;
                      b_double_rate := true;
                      last_date := last_date sys0 |}, [])
        else if String.eqb m "linear" then
          (0, Some {| i_mode := DEINTERLACE_LINEAR;
                      b_double_rate := true;
                      last_date := last_date sys0 |}, [])
        else
          (0, Some sys0,
           [msg_Err ("no valid deinterlace mode provided, using " ++ quoted "discard")])
    end)%string.

(** ** Init *)

(** The arguments of a call to [vout_CreateThread]. *)
Record vout_request : Type := {
  req_width : Z;
  req_height : Z;
  req_chroma : String.string;
  req_aspect : Z
}.

(** The second switch of [Init]: the real video output that is asked for,
    if any. [/] on [int] truncates. *)
Definition Init_request (p_vout : vout_thread_t) : option vout_request :=
  let chroma := render_i_chroma p_vout in
  let mode := i_mode (p_sys p_vout) in
  if is_420 chroma then
    if (mode =? DEINTERLACE_BOB) || (mode =? DEINTERLACE_MEAN)
       || (mode =? DEINTERLACE_DISCARD) then
      Some {| req_width := output_i_width p_vout;
              req_height := Z.quot (output_i_height p_vout) 2;
              req_chroma := output_i_chroma p_vout;
              req_aspect := output_i_aspect p_vout |}
    else if (mode =? DEINTERLACE_BLEND) || (mode =? DEINTERLACE_LINEAR) then
      Some {| req_width := output_i_width p_vout;
              req_height := output_i_height p_vout;
              req_chroma := output_i_chroma p_vout;
              req_aspect := output_i_aspect p_vout |}
    else None
  else if String.eqb chroma I422 then
    Some {| req_width := output_i_width p_vout;
            req_height := output_i_height p_vout;
            req_chroma := I420;
            req_aspect := output_i_aspect p_vout |}
  else None.

(** [Init], up to the allocation of the direct buffers (a macro of
    filter_common.h). [created] tells whether [p_vout->p_sys->p_vout] holds
    an output when [Init] tests it: whether [vout_CreateThread] returned
    one or, in a mode outside the five, for which no request is made,
    whether the field held one before the call. The result is the return
    value, the updated [p_vout], the requests made to [vout_CreateThread]
    and the messages logged. *)
Definition Init (p_vout : vout_thread_t) (created : bool)
  : Z * vout_thread_t * list vout_request * list message :=
  let p_vout := with_pictures p_vout 0 in
  let chroma := render_i_chroma p_vout in
  if is_420 chroma || String.eqb chroma I422 then
    let p_vout :=
      {| render_i_chroma := render_i_chroma p_vout;
         render_i_width := render_i_width p_vout;
         render_i_height := render_i_height p_vout;
         render_i_aspect := render_i_aspect p_vout;
         output_i_chroma := render_i_chroma p_vout;
         output_i_width := render_i_width p_vout;
         output_i_height := render_i_height p_vout;
         output_i_aspect := render_i_aspect p_vout;
         I_OUTPUTPICTURES := I_OUTPUTPICTURES p_vout;
         p_sys := p_sys p_vout |} in
    match Init_request p_vout with
    | Some r =>
        if created
        then (0, p_vout, [r], [msg_Dbg "spawning the real video output"])
        else (0, p_vout, [r], [msg_Dbg "spawning the real video output";
                               msg_Err "cannot open vout, aborting"])
    | None =>
        if created
        then (0, p_vout, [], [msg_Dbg "spawning the real video output"])
        else (0, p_vout, [], [msg_Dbg "spawning the real video output";
                              msg_Err "cannot open vout, aborting"])
    end
  else (0, p_vout, [], []) (* unknown chroma *).

(** ** Render *)

(** [mtime_t] arithmetic: signed 64-bit wrap-around. *)
Definition wrap64 (x : Z) : Z := (x + 2 ^ 63) mod 2 ^ 64 - 2 ^ 63.

Definition is_mtime (x : Z) : Prop := - 2 ^ 63 <= x < 2 ^ 63.

(** What one evaluation of the condition of an acquisition loop meets:
    [vout_CreatePicture] returns a picture, or it returns [NULL] and the
    flags [p_vout->b_die] and [p_vout->b_error] are then read. *)
Inductive poll : Type :=
| picture_ready (pic : picture_t)
| no_picture (b_die b_error : bool).

(** The calls [Render] makes on the real output, and its sleeps. *)
Inductive event : Type :=
| msleep_OUTMEM
| vout_DisplayPicture (pic : picture_t)
| vout_DestroyPicture (pic : picture_t).

(** [vout_DatePicture( p_vout, p_pic, date )] *)
Definition vout_DatePicture (pic : picture_t) (d : Z) : picture_t :=
  {| date := d; p := p pic |}.

(** The acquisition loop
    [while( ( pic = vout_CreatePicture( ... ) ) == NULL )
       { if( b_die || b_error ) return; msleep( VOUT_OUTMEM_SLEEP ); }]
    against the polls [env]: the picture acquired ([None] when the loop
    returns from [Render]), the sleeps made and the polls left. *)
Fixpoint wait_picture (env : list poll)
  : outcome (option picture_t * list event * list poll) :=
  match env with
  | [] => Starved
  | picture_ready pic :: env' => Done (Some pic, [], env')
  | no_picture b_die b_error :: env' =>
      if b_die || b_error then Done (None, [], env')
      else
        r <- wait_picture env' ;;
        let '(pic, evs, rest) := r in
        Done (pic, msleep_OUTMEM :: evs, rest)
  end.

Definition RenderBob (p_vout : vout_thread_t) (p_outpic p_pic : picture_t)
           (i_field : Z) : outcome picture_t :=
  ps <- for_planes (RenderBob_plane (render_i_chroma p_vout) i_field) 0
          (p p_outpic) (p p_pic) ;;
  Done {| date := date p_outpic; p := ps |}.

Definition RenderLinear (p_vout : vout_thread_t) (p_outpic p_pic : picture_t)
           (i_field : Z) : outcome picture_t :=
  ps <- for_planes (RenderLinear_plane i_field) 0 (p p_outpic) (p p_pic) ;;
  Done {| date := date p_outpic; p := ps |}.

Definition RenderMean (p_vout : vout_thread_t) (p_outpic p_pic : picture_t)
  : outcome picture_t :=
  ps <- for_planes RenderMean_plane 0 (p p_outpic) (p p_pic) ;;
  Done {| date := date p_outpic; p := ps |}.

Definition RenderBlend (p_vout : vout_thread_t) (p_outpic p_pic : picture_t)
  : outcome picture_t :=
  ps <- for_planes RenderBlend_plane 0 (p p_outpic) (p p_pic) ;;
  Done {| date := date p_outpic; p := ps |}.

(** What a call of [Render] leaves: the filter's state, the events in the
    order they happened, and the polls not consumed. *)
Record rendered : Type := {
  sys_after : vout_sys_t;
  events : list event;
  polls_left : list poll
}.

(** A render function applied to [pp_outpic[1]], which holds a picture only
    on the double-rate path. *)
Definition on_second (second : option picture_t)
           (f : picture_t -> outcome picture_t) : outcome picture_t :=
  match second with
  | Some pic => f pic
  | None => Fault
  end.

(** The [switch( p_vout->p_sys->i_mode )] of [Render]: the pictures handed to
    [vout_DisplayPicture], in order. *)
Definition Render_switch (p_vout : vout_thread_t) (first : picture_t)
           (second : option picture_t) (p_pic : picture_t)
  : outcome (list event) :=
  let mode := i_mode (p_sys p_vout) in
  if mode =? DEINTERLACE_DISCARD then
    o0 <- RenderBob p_vout first p_pic 0 ;;
    Done [vout_DisplayPicture o0]
  else if mode =? DEINTERLACE_BOB then
    o0 <- RenderBob p_vout first p_pic 0 ;;
    o1 <- on_second second (fun pic => RenderBob p_vout pic p_pic 1) ;;
    Done [vout_DisplayPicture o0; vout_DisplayPicture o1]
  else if mode =? DEINTERLACE_LINEAR then
    o0 <- RenderLinear p_vout first p_pic 0 ;;
    o1 <- on_second second (fun pic => RenderLinear p_vout pic p_pic 1) ;;
    Done [vout_DisplayPicture o0; vout_DisplayPicture o1]
  else if mode =? DEINTERLACE_MEAN then
    o0 <- RenderMean p_vout first p_pic ;;
    Done [vout_DisplayPicture o0]
  else if mode =? DEINTERLACE_BLEND then
    o0 <- RenderBlend p_vout first p_pic ;;
    Done [vout_DisplayPicture o0]
  else Done [].

(** The date given to the second picture of a double-rate frame dated [c]
    when [p_sys->last_date] is [last]: [c + 20000] if [!last], else
    [(3 * c - last) / 2]. *)
Definition second_date_of (last c : Z) : Z :=
  if last =? 0
  then wrap64 (c + 20000)
  else Z.quot (wrap64 (wrap64 (3 * c) - last)) 2.

Definition second_date (sys : vout_sys_t) (p_pic : picture_t) : Z :=
  second_date_of (last_date sys) (date p_pic).

(** [Render( p_vout, p_pic )] against the polls [env]. *)
Definition Render (p_vout : vout_thread_t) (p_pic : picture_t) (env : list poll)
  : outcome rendered :=
  let sys := p_sys p_vout in
  (* Get a new picture *)
  r0 <- wait_picture env ;;
  let '(got0, evs0, env) := r0 in
  match got0 with
  | None => Done {| sys_after := sys; events := evs0; polls_left := env |}
  | Some out0 =>
      let out0 := vout_DatePicture out0 (date p_pic) in
      if b_double_rate sys then
        (* If we are using double rate, get an additional new picture *)
        r1 <- wait_picture env ;;
        let '(got1, evs1, env) := r1 in
        match got1 with
        | None =>
            Done {| sys_after := sys;
                    events := evs0 ++ evs1 ++ [vout_DestroyPicture out0];
                    polls_left := env |}
        | Some out1 =>
            let out1 := vout_DatePicture out1 (second_date sys p_pic) in
            let sys' := {| i_mode := i_mode sys;
                           b_double_rate := b_double_rate sys;
                           last_date := date p_pic |} in
            shown <- Render_switch (with_sys p_vout sys') out0 (Some out1) p_pic ;;
            Done {| sys_after := sys'; events := evs0 ++ evs1 ++ shown;
                    polls_left := env |}
        end
      else
        shown <- Render_switch p_vout out0 None p_pic ;;
        Done {| sys_after := sys; events := evs0 ++ shown; polls_left := env |}
  end.

(** The dates of the pictures handed to [vout_DisplayPicture], in order. *)
Fixpoint displayed_dates (evs : list event) : list Z :=
  match evs with
  | [] => []
  | vout_DisplayPicture pic :: evs' => date pic :: displayed_dates evs'
  | _ :: evs' => displayed_dates evs'
  end.

(** [Render] on the frames [pics] in turn, each against its own polls, from
    the state [p_sys p_vout]: the final state and all events. *)
Fixpoint Render_frames (p_vout : vout_thread_t)
         (frames : list (picture_t * list poll))
  : outcome (vout_sys_t * list event) :=
  match frames with
  | [] => Done (p_sys p_vout, [])
  | (p_pic, env) :: frames' =>
      r <- Render p_vout p_pic env ;;
      rest <- Render_frames (with_sys p_vout (sys_after r)) frames' ;;
      Done (fst rest, events r ++ snd rest)
  end.

(** ** Invariants and results of the row loops *)

(** The state of [Merge] after [c] bytes: the pointers have advanced by [c]
    and the first [c] destination bytes are written. *)
Definition merged (dest : list Z) (pd : Z) (s1 : list Z) (p1 : Z)
           (s2 : list Z) (p2 : Z) (c : Z) (st : merge_state) : Prop :=
  p_dest st = pd + c /\ p_s1 st = p1 + c /\ p_s2 st = p2 + c /\
  dest_mem st = blit dest pd (merge_bytes (sub s1 p1 c) (sub s2 p2 c)).

(** [r] is what [Merge] leaves in a destination of the length of [a] when
    given the source runs [a] and [b]. *)
Definition is_Merge_of (r a b : list Z) : Prop :=
  forall d, len d = len a -> Merge d 0 a 0 b 0 (len a) = Done r.

(** A plane whose geometry fits its buffer: [pitch * lines <= buffer length]. *)
Definition plane_ok (pl : plane_t) : Prop :=
  0 < i_pitch pl /\ 0 <= i_lines pl /\
  i_pitch pl * i_lines pl <= len (p_pixels pl).

(** The bytes of [buf] from offset [off] to its end. *)
Definition from (buf : list Z) (off : Z) : list Z := sub buf off (len buf - off).

(** The destination memory [mem] of a row loop that started from [out0],
    after the rows below [j] were written: row [k] holds [F k], and the
    bytes from row [j] on are those of [out0]. *)
Definition rows_written (out0 mem : list Z) (pitch j : Z) (F : Z -> list Z)
  : Prop :=
  len mem = len out0 /\
  (forall k, 0 <= k < j -> row mem pitch k = F k) /\
  from mem (j * pitch) = from out0 (j * pitch).

(** Destination and source planes as [RenderBob] meets them in a 4:2:0
    picture: same pitch, and two source rows for each destination row. *)
Definition half_height (out src : plane_t) : Prop :=
  plane_ok out /\ plane_ok src /\ i_pitch out = i_pitch src /\
  2 * i_lines out <= i_lines src.

(** What [RenderBob] leaves in a plane of a 4:2:0 picture: the geometry of
    the destination [out], row [k] of the field [i_field] of [src] in row
    [k], and the bytes after the last row as they were. *)
Definition bob_plane (i_field : Z) (out src r : plane_t) : Prop :=
  i_pitch r = i_pitch out /\ i_lines r = i_lines out /\
  (forall k, 0 <= k < i_lines out ->
     row (p_pixels r) (i_pitch r) k =
     row (p_pixels src) (i_pitch src) (2 * k + i_field)) /\
  from (p_pixels r) (i_lines out * i_pitch out) =
  from (p_pixels out) (i_lines out * i_pitch out).

(** Destination and source planes of a full-height output: same pitch, and
    at least one row, none beyond the source's. *)
Definition full_height (out src : plane_t) : Prop :=
  plane_ok out /\ plane_ok src /\ i_pitch out = i_pitch src /\
  1 <= i_lines out <= i_lines src.

(** The content [RenderBlend] gives row [k]. *)
Definition blend_row (src : plane_t) (k : Z) : list Z :=
  if k =? 0 then row (p_pixels src) (i_pitch src) 0
  else merge_bytes (row (p_pixels src) (i_pitch src) (k - 1))
                   (row (p_pixels src) (i_pitch src) k).

(** What [RenderBlend] leaves in a plane. *)
Definition blend_plane (out src r : plane_t) : Prop :=
  i_pitch r = i_pitch out /\ i_lines r = i_lines out /\
  row (p_pixels r) (i_pitch r) 0 = row (p_pixels src) (i_pitch src) 0 /\
  (forall i, 1 <= i < i_lines out ->
     is_Merge_of (row (p_pixels r) (i_pitch r) i)
                 (row (p_pixels src) (i_pitch src) (i - 1))
                 (row (p_pixels src) (i_pitch src) i)) /\
  from (p_pixels r) (i_lines out * i_pitch out) =
  from (p_pixels out) (i_lines out * i_pitch out).

(** Destination and source planes of an interlaced frame rendered at full
    height: same pitch, the same even number of rows, at least two. *)
Definition frame_height (out src : plane_t) : Prop :=
  plane_ok out /\ plane_ok src /\ i_pitch out = i_pitch src /\
  i_lines out = i_lines src /\ 2 <= i_lines src /\ Z.even (i_lines src) = true.

(** The content [RenderLinear] gives row [k], for the top field... *)
Definition linear_top_row (src : plane_t) (k : Z) : list Z :=
  if (k =? i_lines src - 1) || Z.even k
  then row (p_pixels src) (i_pitch src) k
  else merge_bytes (row (p_pixels src) (i_pitch src) (k - 1))
                   (row (p_pixels src) (i_pitch src) (k + 1)).

(** ... and for the bottom field. *)
Definition linear_bottom_row (src : plane_t) (k : Z) : list Z :=
  if (k =? 0) || Z.odd k
  then row (p_pixels src) (i_pitch src) k
  else merge_bytes (row (p_pixels src) (i_pitch src) (k - 1))
                   (row (p_pixels src) (i_pitch src) (k + 1)).

(** What [RenderLinear] leaves in a plane for the top field ([i_field = 0]):
    row 0 is source row 0; each pair of rows [2k], [2k+1] before the last
    two is source row [2k] and the [Merge] of source rows [2k] and [2k+2];
    the last two rows are the last two source rows. *)
Definition linear_top (out src r : plane_t) : Prop :=
  i_pitch r = i_pitch out /\ i_lines r = i_lines out /\
  row (p_pixels r) (i_pitch r) 0 = row (p_pixels src) (i_pitch src) 0 /\
  (forall k, 0 <= k -> 2 * k + 2 < i_lines src ->
     row (p_pixels r) (i_pitch r) (2 * k) =
     row (p_pixels src) (i_pitch src) (2 * k) /\
     is_Merge_of (row (p_pixels r) (i_pitch r) (2 * k + 1))
                 (row (p_pixels src) (i_pitch src) (2 * k))
                 (row (p_pixels src) (i_pitch src) (2 * k + 2))) /\
  row (p_pixels r) (i_pitch r) (i_lines src - 2) =
  row (p_pixels src) (i_pitch src) (i_lines src - 2) /\
  row (p_pixels r) (i_pitch r) (i_lines src - 1) =
  row (p_pixels src) (i_pitch src) (i_lines src - 1) /\
  from (p_pixels r) (i_lines out * i_pitch out) =
  from (p_pixels out) (i_lines out * i_pitch out).

(** What [RenderLinear] leaves in a plane for the bottom field
    ([i_field = 1]): row 0 is source row 0; each pair of rows [2k+1],
    [2k+2] before the last row is source row [2k+1] and the [Merge] of
    source rows [2k+1] and [2k+3]; the last row is the last source row. *)
Definition linear_bottom (out src r : plane_t) : Prop :=
  i_pitch r = i_pitch out /\ i_lines r = i_lines out /\
  row (p_pixels r) (i_pitch r) 0 = row (p_pixels src) (i_pitch src) 0 /\
  (forall k, 0 <= k -> 2 * k + 3 < i_lines src ->
     row (p_pixels r) (i_pitch r) (2 * k + 1) =
     row (p_pixels src) (i_pitch src) (2 * k + 1) /\
     is_Merge_of (row (p_pixels r) (i_pitch r) (2 * k + 2))
                 (row (p_pixels src) (i_pitch src) (2 * k + 1))
                 (row (p_pixels src) (i_pitch src) (2 * k + 3))) /\
  row (p_pixels r) (i_pitch r) (i_lines src - 1) =
  row (p_pixels src) (i_pitch src) (i_lines src - 1) /\
  from (p_pixels r) (i_lines out * i_pitch out) =
  from (p_pixels out) (i_lines out * i_pitch out).

(** The planes of [shown] are those of [p_outpic] rendered from [p_pic],
    each as [Q] tells. *)
Definition each_plane (Q : plane_t -> plane_t -> plane_t -> Prop)
           (p_outpic p_pic shown : picture_t) : Prop :=
  date shown = date p_outpic /\
  List.length (p shown) = List.length (p p_pic) /\
  forall (n : nat) (out src : plane_t),
    nth_error (p p_outpic) n = Some out ->
    nth_error (p p_pic) n = Some src ->
    exists r, nth_error (p shown) n = Some r /\ Q out src r.

(** The rows of the planes of a rendered picture. *)
Definition rendered_rows (r : outcome picture_t) : list (list (list Z)) :=
  match r with
  | Done pic => map rows (p pic)
  | _ => []
  end.

(** ** Modes and requests *)

(** The state with mode [mode], double-rate flag [double] and stored date
    [last]. *)
Definition filter_state (mode : Z) (double : bool) (last : Z) : vout_sys_t :=
  {| i_mode := mode; b_double_rate := double; last_date := last |}.

(** The mode names [Create] knows. *)
Definition mode_names : list String.string :=
  ["discard"; "mean"; "blend"; "average"; "combine-fields"; "bob";
   "progressive-scan"; "linear"]%string.

(** The requests [Init] makes to [vout_CreateThread]. *)
Definition Init_requests (p_vout : vout_thread_t) (created : bool)
  : list vout_request :=
  snd (fst (Init p_vout created)).

(** ** Double-rate frames *)

(** The output picture [p_outpic] has the geometry the double-rate mode of
    [p_vout] needs to render [p_pic]: half height for Bob on a 4:2:0
    picture, the frame's height for Linear. *)
Definition renderable (p_vout : vout_thread_t) (p_outpic p_pic : picture_t)
  : Prop :=
  (i_mode (p_sys p_vout) = DEINTERLACE_BOB /\
   is_420 (render_i_chroma p_vout) = true /\
   Forall2 half_height (p p_outpic) (p p_pic))
  \/ (i_mode (p_sys p_vout) = DEINTERLACE_LINEAR /\
      Forall2 frame_height (p p_outpic) (p p_pic)).

(** The polls of a frame for which the two output pictures come, each
    after some unanswered polls. *)
Definition two_pictures (k0 : nat) (out0 : picture_t) (k1 : nat)
           (out1 : picture_t) (rest : list poll) : list poll :=
  repeat (no_picture false false) k0 ++ picture_ready out0
    :: repeat (no_picture false false) k1 ++ picture_ready out1 :: rest.

(** A frame and polls that bring it two output pictures it can be rendered
    into. *)
Definition frame_ready (p_vout : vout_thread_t) (f : picture_t * list poll)
  : Prop :=
  exists k0 out0 k1 out1,
    snd f = two_pictures k0 out0 k1 out1 [] /\
    renderable p_vout out0 (fst f) /\ renderable p_vout out1 (fst f).

Definition frame_dates (frames : list (picture_t * list poll)) : list Z :=
  map (fun f => date (fst f)) frames.

(** The dates of the output pictures of double-rate frames dated [cs], as
    [Render] gives them from the stored date [last]. *)
Fixpoint scheduled (last : Z) (cs : list Z) : list Z :=
  match cs with
  | [] => []
  | c :: cs' => c :: second_date_of last c :: scheduled c cs'
  end.

(** The dates of the output pictures of double-rate frames dated [cs], the
    second picture of the first frame being [offset] after the first. *)
Fixpoint dates_from (offset : Z) (cs : list Z) : list Z :=
  match cs with
  | [] => []
  | c :: cs' =>
      c :: c + offset
        :: match cs' with
           | [] => []
           | c' :: _ => dates_from ((c' - c) / 2) cs'
           end
  end.

(** Input dates [c :: cs] that leave room for the second picture of each
    frame, the one of the frame dated [c] being [offset] after it: the next
    frame comes more than [offset] after [c]. *)
Fixpoint paced (offset : Z) (c : Z) (cs : list Z) : Prop :=
  match cs with
  | [] => True
  | c' :: cs' => offset < c' - c /\ paced ((c' - c) / 2) c' cs'
  end.

(** ** Sample pictures *)

(** A plane of [lines] rows of [pitch] bytes holding [fill 0], [fill 1], ... *)
Definition sample_plane (pitch lines : Z) (fill : nat -> Z) : plane_t :=
  {| p_pixels := map fill (seq 0 (Z.to_nat (pitch * lines)));
     i_pitch := pitch; i_lines := lines |}.

(** A frame of four rows of two bytes, dated [d]. *)
Definition sample_frame (d : Z) : picture_t :=
  {| date := d; p := [sample_plane 2 4 (fun i => Z.of_nat (i * i))] |}.

(** Free output pictures of half and of full height. *)
Definition sample_half : picture_t :=
  {| date := 0; p := [sample_plane 2 2 (fun _ => 0)] |}.

Definition sample_full : picture_t :=
  {| date := 0; p := [sample_plane 2 4 (fun _ => 0)] |}.

(** The filter on I420 pictures, in the state [sys]. *)
Definition sample_vout (sys : vout_sys_t) : vout_thread_t :=
  {| render_i_chroma := I420; render_i_width := 2; render_i_height := 4;
     render_i_aspect := 1; output_i_chroma := I420; output_i_width := 2;
     output_i_height := 4; output_i_aspect := 1; I_OUTPUTPICTURES := 0;
     p_sys := sys |}.

(** The filter in Bob mode on I420 pictures, with [last] as stored date. *)
Definition sample_bob (last : Z) : vout_thread_t :=
  sample_vout (filter_state DEINTERLACE_BOB true last).

(** The sample frame dated [d], with two free half-height pictures. *)
Definition sample_ready (d : Z) : picture_t * list poll :=
  (sample_frame d, two_pictures 0 sample_half 0 sample_half []).

(** The filter on I422 pictures of height 4, in the mode [mode]. *)
Definition sample_422 (mode : Z) : vout_thread_t :=
  {| render_i_chroma := I422; render_i_width := 2; render_i_height := 4;
     render_i_aspect := 1; output_i_chroma := I422; output_i_width := 2;
     output_i_height := 4; output_i_aspect := 1; I_OUTPUTPICTURES := 0;
     p_sys := filter_state mode false 0 |}.

(** ** Further definitions: states, geometry and results *)

(** The state of [Merge] with the two source pointers exchanged. *)
Definition swap_sources (st : merge_state) : merge_state :=
  {| p_dest := p_dest st; p_s1 := p_s2 st; p_s2 := p_s1 st;
     dest_mem := dest_mem st |}.

(** [f] applied to the result of a computation. *)
Definition omap {A B : Type} (f : A -> B) (m : outcome A) : outcome B :=
  match m with
  | Done a => Done (f a)
  | Fault => Fault
  | Starved => Starved
  end.

(** The content [RenderMean] gives row [k]. *)
Definition mean_row (src : plane_t) (k : Z) : list Z :=
  merge_bytes (row (p_pixels src) (i_pitch src) (2 * k))
              (row (p_pixels src) (i_pitch src) (2 * k + 1)).

(** What [RenderMean] leaves in a plane: the geometry of the destination
    [out], in row [k] the [Merge] of source rows [2k] and [2k+1], and the
    bytes after the last row as they were. *)
Definition mean_plane (out src r : plane_t) : Prop :=
  i_pitch r = i_pitch out /\ i_lines r = i_lines out /\
  len (p_pixels r) = len (p_pixels out) /\
  (forall k, 0 <= k < i_lines out ->
     is_Merge_of (row (p_pixels r) (i_pitch r) k)
                 (row (p_pixels src) (i_pitch src) (2 * k))
                 (row (p_pixels src) (i_pitch src) (2 * k + 1))) /\
  from (p_pixels r) (i_lines out * i_pitch out) =
  from (p_pixels out) (i_lines out * i_pitch out).

(** Destination and source luma planes as [RenderBob] meets them in an I422
    picture: same pitch, an even number of destination rows, none beyond
    the source's. *)
Definition doubled_height (out src : plane_t) : Prop :=
  plane_ok out /\ plane_ok src /\ i_pitch out = i_pitch src /\
  Z.even (i_lines out) = true /\ i_lines out <= i_lines src.

(** The content [RenderBob] gives row [k] of the luma plane of an I422
    picture: row [k / 2] of the field. *)
Definition doubled_row (i_field : Z) (src : plane_t) (k : Z) : list Z :=
  row (p_pixels src) (i_pitch src) (2 * (k / 2) + i_field).

(** What [RenderBob] leaves in the luma plane of an I422 picture: rows [2j]
    and [2j+1] both hold row [j] of the field [i_field] of [src]. *)
Definition doubled_plane (i_field : Z) (out src r : plane_t) : Prop :=
  i_pitch r = i_pitch out /\ i_lines r = i_lines out /\
  len (p_pixels r) = len (p_pixels out) /\
  (forall j, 0 <= j -> 2 * j + 1 < i_lines out ->
     row (p_pixels r) (i_pitch r) (2 * j) =
     row (p_pixels src) (i_pitch src) (2 * j + i_field) /\
     row (p_pixels r) (i_pitch r) (2 * j + 1) =
     row (p_pixels src) (i_pitch src) (2 * j + i_field)) /\
  from (p_pixels r) (i_lines out * i_pitch out) =
  from (p_pixels out) (i_lines out * i_pitch out).

(** The states [Create] can build, with any stored date: a single-rate mode
    without the double-rate flag, or a double-rate mode with it. *)
Definition created_state (sys : vout_sys_t) : Prop :=
  (b_double_rate sys = false /\
   (i_mode sys = DEINTERLACE_DISCARD \/ i_mode sys = DEINTERLACE_MEAN \/
    i_mode sys = DEINTERLACE_BLEND))
  \/ (b_double_rate sys = true /\
      (i_mode sys = DEINTERLACE_BOB \/ i_mode sys = DEINTERLACE_LINEAR)).



(** The output picture [p_outpic] has the geometry the single-rate mode of
    [p_vout] needs to render [p_pic]. *)
Definition renderable_single (p_vout : vout_thread_t)
           (p_outpic p_pic : picture_t) : Prop :=
  (i_mode (p_sys p_vout) = DEINTERLACE_MEAN /\
   Forall2 half_height (p p_outpic) (p p_pic))
  \/ (i_mode (p_sys p_vout) = DEINTERLACE_BLEND /\
      Forall2 full_height (p p_outpic) (p p_pic)).

(** ** End *)

(** The index of the loop of [End] and the output pictures whose
    [p_data_orig] it has freed, in order. *)
Record end_state : Type := {
  i_index : Z;
  freed : list Z
}.

(** [End]: the loop starts from [I_OUTPUTPICTURES], a macro of the vlc
    headers for the number of output pictures, here the argument; the
    result lists the indices [i] of the calls
    [free( PP_OUTPUTPICTURE[ i ]->p_data_orig )], in order. *)
Definition End (i_outputpictures : Z) : outcome (list Z) :=
  st <- while (Z.to_nat i_outputpictures)
          (fun st => negb (i_index st =? 0))
          (fun st =>
             let i := i_index st - 1 in
             Done {| i_index := i; freed := freed st ++ [i] |})
          {| i_index := i_outputpictures; freed := [] |} ;;
  Done (freed st).

(** The indices [n - 1], ..., 1, 0. *)
Fixpoint countdown (n : nat) : list Z :=
  match n with
  | O => []
  | Datatypes.S n' => Z.of_nat n' :: countdown n'
  end.

(** [p_vout] with the output geometry [Init] copies from the render
    geometry. *)
Definition with_output_of_render (v : vout_thread_t) : vout_thread_t :=
  {| render_i_chroma := render_i_chroma v; render_i_width := render_i_width v;
     render_i_height := render_i_height v; render_i_aspect := render_i_aspect v;
     output_i_chroma := render_i_chroma v; output_i_width := render_i_width v;
     output_i_height := render_i_height v; output_i_aspect := render_i_aspect v;
     I_OUTPUTPICTURES := I_OUTPUTPICTURES v;
     p_sys := p_sys v |}.

(** The chromas [Init] accepts. *)
Definition supported (chroma : String.string) : bool :=
  is_420 chroma || String.eqb chroma I422.

(** The filter on pictures of a chroma [Init] does not know, RV16, with
    three output pictures counted from an earlier run. *)
Definition sample_rv16 : vout_thread_t :=
  {| render_i_chroma := VLC_FOURCC "R"%char "V"%char "1"%char "6"%char;
     render_i_width := 2; render_i_height := 4; render_i_aspect := 1;
     output_i_chroma := I420; output_i_width := 0; output_i_height := 0;
     output_i_aspect := 0; I_OUTPUTPICTURES := 3;
     p_sys := filter_state DEINTERLACE_BOB true 0 |}.

(** Destination and source planes with the same pitch and the same number
    of rows, odd or even. *)
Definition same_height (out src : plane_t) : Prop :=
  plane_ok out /\ plane_ok src /\ i_pitch out = i_pitch src /\
  i_lines out = i_lines src.

(** The bytes of the buffer of [r] after the last row of the destination
    [out] are those of [out], and the buffer has kept its length. *)
Definition stays_in_plane (out r : plane_t) : Prop :=
  len (p_pixels r) = len (p_pixels out) /\
  forall i, i_lines out * i_pitch out <= i < len (p_pixels out) ->
    get (p_pixels r) i = get (p_pixels out) i.

(** A plane of three rows of two bytes in a buffer with room for a fourth
    row. *)
Definition sample_odd_roomy (fill : nat -> Z) : plane_t :=
  {| p_pixels := map fill (seq 0 8); i_pitch := 2; i_lines := 3 |}.

(** An I422 frame: a luma plane of four rows of two bytes and a chroma
    plane of four rows of one byte; and a free I420 picture of the same
    height for it. *)
Definition sample_422_frame : picture_t :=
  {| date := 7;
     p := [sample_plane 2 4 (fun i => Z.of_nat (i * i));
           sample_plane 1 4 (fun i => 100 + Z.of_nat i)] |}.

Definition sample_422_out : picture_t :=
  {| date := 0;
     p := [sample_plane 2 4 (fun _ => 0); sample_plane 1 2 (fun _ => 0)] |}.

(** An I420 frame of height 6: a luma plane of six rows of two bytes and
    two chroma planes of three rows of one byte; and a free picture of the
    same geometry for it, as Linear mode asks of the real output. *)
Definition sample_odd_frame : picture_t :=
  {| date := 7;
     p := [sample_plane 2 6 (fun i => Z.of_nat (i * i));
           sample_plane 1 3 (fun i => 100 + Z.of_nat i);
           sample_plane 1 3 (fun i => 200 + Z.of_nat i)] |}.

Definition sample_odd_out : picture_t :=
  {| date := 0;
     p := [sample_plane 2 6 (fun _ => 0); sample_plane 1 3 (fun _ => 0);
           sample_plane 1 3 (fun _ => 0)] |}.

(** * Properties *)

(** ** Loops *)

Section WhileRule.
Context {S : Type}.
Variable cond : S -> bool.
Variable body : S -> outcome S.
Variable Inv : S -> Prop.
Variable measure : S -> nat.
Hypothesis body_ok : forall s, Inv s -> cond s = true ->
  exists s', body s = Done s' /\ Inv s' /\ (measure s' < measure s)%nat.

(** A loop whose body keeps [Inv] and decreases [measure] ends within
    [measure s] iterations, in a state where [Inv] holds and the condition
    does not. *)
Lemma while_rule (fuel : nat) (s : S) :
  Inv s -> (measure s <= fuel)%nat ->
  exists s', while fuel cond body s = Done s' /\ Inv s' /\ cond s' = false.
Proof.
  revert s. induction fuel as [|fuel IH]; intros s Hinv Hm; simpl.
  - destruct (cond s) eqn:Hc.
    + destruct (body_ok s Hinv Hc) as (s' & _ & _ & Hlt). lia.
    + eauto.
  - destruct (cond s) eqn:Hc.
    + destruct (body_ok s Hinv Hc) as (s' & Hb & Hinv' & Hlt).
      rewrite Hb. simpl. apply IH; [assumption | lia].
    + eauto.
Qed.
End WhileRule.

(** A loop that ends has run its body some number of times. *)
Lemma while_steps {S : Type} (cond : S -> bool) (body : S -> outcome S)
      (fuel : nat) (s s' : S) :
  while fuel cond body s = Done s' ->
  exists k, steps k body s = Done s' /\ (k <= fuel)%nat.
Proof.
  revert s. induction fuel as [|fuel IH]; intros s H; simpl in H.
  - destruct (cond s); [discriminate|]. exists O. split; [assumption | lia].
  - destruct (cond s).
    + destruct (body s) as [s1| |] eqn:Hb; simpl in H; try discriminate.
      destruct (IH _ H) as (k & Hk & Hle). exists (Datatypes.S k).
      simpl. rewrite Hb. simpl. split; [assumption | lia].
    + exists O. split; [assumption | lia].
Qed.

(** ** Buffers *)

Ltac cases_cmp :=
  repeat match goal with
         | |- context [?a <=? ?b] => destruct (Z.leb_spec a b)
         | |- context [?a <? ?b] => destruct (Z.ltb_spec a b)
         end; simpl.

Lemma in_range_iff (buf : list Z) (off n : Z) :
  in_range buf off n = true <-> 0 <= off /\ 0 <= n /\ off + n <= len buf.
Proof. unfold in_range. rewrite !andb_true_iff, !Z.leb_le. tauto. Qed.

Lemma in_range_true (buf : list Z) (off n : Z) :
  0 <= off -> 0 <= n -> off + n <= len buf -> in_range buf off n = true.
Proof. intros. apply in_range_iff. auto. Qed.

Lemma buf_ext (a b : list Z) :
  len a = len b ->
  (forall i, 0 <= i < len a -> get a i = get b i) ->
  a = b.
Proof.
  unfold len, get. intros Hl H. apply (nth_ext a b 0 0); [lia|].
  intros n Hn. specialize (H (Z.of_nat n)).
  rewrite Nat2Z.id in H. apply H. lia.
Qed.

Lemma len_sub (buf : list Z) (off n : Z) :
  0 <= off -> 0 <= n -> off + n <= len buf -> len (sub buf off n) = n.
Proof.
  unfold len, sub. intros. rewrite length_firstn, length_skipn. lia.
Qed.

Lemma get_sub (buf : list Z) (off n i : Z) :
  0 <= off -> 0 <= i < n -> get (sub buf off n) i = get buf (off + i).
Proof.
  unfold get, sub. intros. rewrite nth_firstn, nth_skipn.
  destruct (Nat.ltb_spec (Z.to_nat i) (Z.to_nat n)); [|lia].
  f_equal. lia.
Qed.

Lemma len_blit (buf : list Z) (off : Z) (data : list Z) :
  0 <= off -> off + len data <= len buf -> len (blit buf off data) = len buf.
Proof.
  unfold len, blit. intros.
  rewrite !length_app, length_firstn, length_skipn. lia.
Qed.

Lemma get_blit (buf : list Z) (off : Z) (data : list Z) (i : Z) :
  0 <= off -> off + len data <= len buf -> 0 <= i ->
  get (blit buf off data) i =
  if (off <=? i) && (i <? off + len data) then get data (i - off) else get buf i.
Proof.
  unfold len, get, blit. intros Hoff Hlen Hi.
  destruct (Z.leb_spec off i) as [Hle|Hlt]; simpl.
  - rewrite app_nth2 by (rewrite length_firstn; lia).
    rewrite length_firstn.
    replace (Init.Nat.min (Z.to_nat off) (List.length buf)) with (Z.to_nat off) by lia.
    destruct (Z.ltb_spec i (off + Z.of_nat (List.length data))).
    + rewrite app_nth1 by lia. f_equal. lia.
    + rewrite app_nth2 by lia. rewrite nth_skipn. f_equal. lia.
  - rewrite app_nth1 by (rewrite length_firstn; lia).
    rewrite nth_firstn.
    destruct (Nat.ltb_spec (Z.to_nat i) (Z.to_nat off)); [reflexivity | lia].
Qed.

(** Reading back what was written. *)
Lemma sub_blit_same (buf : list Z) (off : Z) (data : list Z) :
  0 <= off -> off + len data <= len buf ->
  sub (blit buf off data) off (len data) = data.
Proof.
  intros Hoff Hlen.
  assert (Hl : len (blit buf off data) = len buf) by (apply len_blit; assumption).
  assert (H0 : 0 <= len data) by (unfold len; lia).
  apply buf_ext.
  - apply len_sub; lia.
  - intros i Hi. rewrite len_sub in Hi by lia.
    rewrite get_sub by lia. rewrite get_blit by lia.
    destruct (Z.leb_spec off (off + i)); [|lia].
    destruct (Z.ltb_spec (off + i) (off + len data)); [|lia].
    simpl. f_equal. lia.
Qed.

(** A write leaves the bytes outside its range. *)
Lemma sub_blit_other (buf : list Z) (off : Z) (data : list Z) (o n : Z) :
  0 <= off -> off + len data <= len buf ->
  0 <= o -> 0 <= n -> o + n <= len buf ->
  o + n <= off \/ off + len data <= o ->
  sub (blit buf off data) o n = sub buf o n.
Proof.
  intros Hoff Hlen Ho Hn Hon Hdis.
  assert (Hl : len (blit buf off data) = len buf) by (apply len_blit; assumption).
  apply buf_ext.
  - rewrite !len_sub; lia.
  - intros i Hi. rewrite len_sub in Hi by lia.
    rewrite !get_sub by lia. rewrite get_blit by lia.
    destruct (Z.leb_spec off (o + i)); simpl; [|reflexivity].
    destruct (Z.ltb_spec (o + i) (off + len data)); [lia | reflexivity].
Qed.

(** Two adjacent writes are one. *)
Lemma blit_snoc (buf : list Z) (off : Z) (data : list Z) (v : Z) :
  0 <= off -> off + len data + 1 <= len buf ->
  blit (blit buf off data) (off + len data) [v] = blit buf off (data ++ [v]).
Proof.
  intros Hoff Hlen.
  assert (H0 : 0 <= len data) by (unfold len; lia).
  assert (Hl1 : len (data ++ [v]) = len data + 1)
    by (unfold len; rewrite length_app; simpl; lia).
  assert (Hl : len (blit buf off data) = len buf) by (apply len_blit; lia).
  assert (Hv : len [v] = 1) by reflexivity.
  apply buf_ext.
  - rewrite !len_blit; lia.
  - intros i Hi. rewrite len_blit in Hi by lia. rewrite Hl in Hi.
    rewrite (get_blit (blit buf off data)) by lia.
    rewrite (get_blit buf off (data ++ [v])) by lia.
    rewrite (get_blit buf off data) by lia.
    rewrite Hl1, Hv. unfold get, len in *.
    cases_cmp; try lia; try reflexivity.
    + replace (Z.to_nat (i - off)) with (List.length data + 0)%nat by lia.
      replace (Z.to_nat (i - (off + Z.of_nat (List.length data)))) with O by lia.
      rewrite app_nth2_plus. reflexivity.
    + rewrite app_nth1 by lia. reflexivity.
Qed.

Lemma sub_snoc (buf : list Z) (off n : Z) :
  0 <= off -> 0 <= n -> off + n + 1 <= len buf ->
  sub buf off (n + 1) = sub buf off n ++ [get buf (off + n)].
Proof.
  intros Hoff Hn Hlen.
  assert (Hl : len (sub buf off n) = n) by (apply len_sub; lia).
  apply buf_ext.
  - rewrite len_sub by lia. unfold len in *. rewrite length_app. simpl. lia.
  - intros i Hi. rewrite len_sub in Hi by lia.
    rewrite get_sub by lia.
    destruct (Z.ltb_spec i n).
    + unfold get at 2. rewrite app_nth1 by (unfold len in Hl; lia).
      fold (get (sub buf off n) i). rewrite get_sub by lia. reflexivity.
    + replace i with n by lia. unfold get at 2.
      rewrite app_nth2 by (unfold len in Hl; lia).
      replace (Z.to_nat n - List.length (sub buf off n))%nat with O
        by (unfold len in Hl; lia).
      reflexivity.
Qed.

Lemma sub_zero (buf : list Z) (off : Z) : sub buf off 0 = [].
Proof. reflexivity. Qed.

Lemma blit_nil (buf : list Z) (off : Z) : blit buf off [] = buf.
Proof.
  unfold blit. simpl. rewrite Nat.add_0_r. apply firstn_skipn.
Qed.

Lemma sub_all (buf : list Z) : sub buf 0 (len buf) = buf.
Proof.
  unfold sub, len. simpl. rewrite Nat2Z.id. apply firstn_all.
Qed.

Lemma blit_all (buf data : list Z) :
  len data = len buf -> blit buf 0 data = data.
Proof.
  unfold blit, len. intros H. simpl.
  rewrite skipn_all2 by lia. apply app_nil_r.
Qed.

(** ** Merge *)

Lemma len_merge_bytes (a b : list Z) :
  len a = len b -> len (merge_bytes a b) = len a.
Proof.
  unfold len. revert b. induction a as [|x a IH]; intros [|y b] H;
    simpl in *; try lia.
  specialize (IH b). lia.
Qed.

Lemma merge_bytes_snoc (a b : list Z) (x y : Z) :
  len a = len b ->
  merge_bytes (a ++ [x]) (b ++ [y]) = merge_bytes a b ++ [merge_byte x y].
Proof.
  unfold len. revert b. induction a as [|x' a IH]; intros [|y' b] H;
    simpl in *; try lia; [reflexivity|].
  f_equal. apply IH. lia.
Qed.

Section MergeLoops.
Variables (dest : list Z) (pd : Z) (s1 : list Z) (p1 : Z)
          (s2 : list Z) (p2 : Z) (n : Z).
Hypothesis Hn : 0 <= n.
Hypothesis Hd : 0 <= pd /\ pd + n <= len dest.
Hypothesis H1 : 0 <= p1 /\ p1 + n <= len s1.
Hypothesis H2 : 0 <= p2 /\ p2 + n <= len s2.

Let at_byte := merged dest pd s1 p1 s2 p2.

Lemma merged_len (c : Z) :
  0 <= c <= n ->
  len (merge_bytes (sub s1 p1 c) (sub s2 p2 c)) = c.
Proof.
  intros Hc. rewrite len_merge_bytes; rewrite !len_sub; lia.
Qed.

(** One statement of [Merge] writes the next byte. *)
Lemma merge_one_next (c : Z) (st : merge_state) :
  0 <= c < n -> at_byte c st ->
  exists st', merge_one s1 s2 st = Done st' /\ at_byte (c + 1) st'.
Proof.
  intros Hc (Ed & E1 & E2 & Em).
  pose proof (merged_len c ltac:(lia)) as Hl.
  unfold merge_one, load, store. rewrite E1, E2, Ed, Em.
  rewrite !in_range_true by (rewrite ?len_blit; lia).
  simpl. eexists. split; [reflexivity|].
  unfold at_byte, merged; simpl. repeat split; try lia.
  replace (pd + c) with
    (pd + len (merge_bytes (sub s1 p1 c) (sub s2 p2 c))) by lia.
  rewrite blit_snoc by lia.
  rewrite !(sub_snoc _ _ c) by lia.
  rewrite merge_bytes_snoc by (rewrite !len_sub; lia).
  reflexivity.
Qed.

Lemma merge_eight_next (c : Z) (st : merge_state) :
  0 <= c -> c + 8 <= n -> at_byte c st ->
  exists st', merge_eight s1 s2 st = Done st' /\ at_byte (c + 8) st'.
Proof.
  intros Hc Hc8 H. unfold merge_eight.
  destruct (merge_one_next c st ltac:(lia) H) as (t1 & E1 & I1).
  destruct (merge_one_next (c + 1) t1 ltac:(lia) I1) as (t2 & E2 & I2).
  destruct (merge_one_next (c + 1 + 1) t2 ltac:(lia) I2) as (t3 & E3 & I3).
  destruct (merge_one_next (c + 1 + 1 + 1) t3 ltac:(lia) I3) as (t4 & E4 & I4).
  destruct (merge_one_next (c + 1 + 1 + 1 + 1) t4 ltac:(lia) I4)
    as (t5 & E5 & I5).
  destruct (merge_one_next (c + 1 + 1 + 1 + 1 + 1) t5 ltac:(lia) I5)
    as (t6 & E6 & I6).
  destruct (merge_one_next (c + 1 + 1 + 1 + 1 + 1 + 1) t6 ltac:(lia) I6)
    as (t7 & E7 & I7).
  destruct (merge_one_next (c + 1 + 1 + 1 + 1 + 1 + 1 + 1) t7 ltac:(lia) I7)
    as (t8 & E8 & I8).
  rewrite E1; simpl. rewrite E2; simpl. rewrite E3; simpl. rewrite E4; simpl.
  rewrite E5; simpl. rewrite E6; simpl. rewrite E7; simpl.
  exists t8. split; [assumption|].
  replace (c + 8) with (c + 1 + 1 + 1 + 1 + 1 + 1 + 1 + 1) by lia. assumption.
Qed.

(** The first loop stops at the last multiple of eight strictly below [n]. *)
Lemma Merge_unrolled_end (fuel : nat) (c : Z) (st : merge_state) :
  0 <= c <= n -> c mod 8 = 0 -> c = 0 \/ c < n -> at_byte c st ->
  (Z.to_nat (n - c) <= fuel)%nat ->
  exists c' st', Merge_unrolled fuel s1 s2 (pd + n - 8) st = Done st' /\
                 at_byte c' st' /\ c <= c' <= n /\ c' mod 8 = 0 /\
                 (c' = 0 \/ c' < n) /\ n - 8 <= c'.
Proof.
  intros Hc Hmod Hlt Hat Hfuel.
  destruct (while_rule (below (pd + n - 8)) (merge_eight s1 s2)
              (fun s => exists k, at_byte k s /\ c <= k <= n /\ k mod 8 = 0 /\
                                  (k = 0 \/ k < n))
              (fun s => Z.to_nat (pd + n - p_dest s))) with (fuel := fuel) (s := st)
    as (st' & E & (k & Hk & Hr & Hm & Hl) & Hcond).
  - intros s (k & Hk & Hr & Hm & Hl) Hb.
    pose proof Hk as (Ed & _).
    unfold below in Hb. apply Z.ltb_lt in Hb.
    destruct (merge_eight_next k s ltac:(lia) ltac:(lia) Hk) as (s' & E & Hk').
    exists s'. split; [assumption|]. split.
    + exists (k + 8). split; [assumption|]. repeat split; try lia.
      rewrite <- Z.add_mod_idemp_l, Hm by lia. reflexivity.
    + destruct Hk' as (Ed' & _). lia.
  - exists c. split; [assumption|]. repeat split; try assumption; lia.
  - destruct Hat as (Ed & _). lia.
  - exists k, st'. unfold Merge_unrolled. split; [assumption|].
    unfold below in Hcond. apply Z.ltb_ge in Hcond.
    pose proof Hk as (Ed & _).
    split; [assumption|]. repeat split; try assumption; lia.
Qed.

(** The second loop writes the bytes left, one per iteration. *)
Lemma Merge_tail_end (fuel : nat) (c : Z) (st : merge_state) :
  0 <= c <= n -> at_byte c st -> (Z.to_nat (n - c) <= fuel)%nat ->
  exists st', Merge_tail fuel s1 s2 (pd + n - 8 + 8) st = Done st' /\
              at_byte n st'.
Proof.
  intros Hc Hat Hfuel.
  destruct (while_rule (below (pd + n - 8 + 8)) (merge_one s1 s2)
              (fun s => exists k, at_byte k s /\ c <= k <= n)
              (fun s => Z.to_nat (pd + n - p_dest s))) with (fuel := fuel) (s := st)
    as (st' & E & (k & Hk & Hr) & Hcond).
  - intros s (k & Hk & Hr) Hb.
    pose proof Hk as (Ed & _).
    unfold below in Hb. apply Z.ltb_lt in Hb.
    destruct (merge_one_next k s ltac:(lia) Hk) as (s' & E & Hk').
    exists s'. split; [assumption|]. split.
    + exists (k + 1). split; [assumption | lia].
    + destruct Hk' as (Ed' & _). lia.
  - exists c. split; [assumption | lia].
  - destruct Hat as (Ed & _). lia.
  - exists st'. unfold Merge_tail. split; [assumption|].
    unfold below in Hcond. apply Z.ltb_ge in Hcond.
    pose proof Hk as (Ed & _).
    replace n with k by lia. assumption.
Qed.

Lemma at_byte_start :
  at_byte 0 {| p_dest := pd; p_s1 := p1; p_s2 := p2; dest_mem := dest |}.
Proof.
  unfold at_byte, merged; simpl. rewrite blit_nil.
  repeat split; lia.
Qed.

(** [Merge] writes the merged bytes of the two runs, and nothing else. *)
Lemma Merge_spec :
  Merge dest pd s1 p1 s2 p2 n =
  Done (blit dest pd (merge_bytes (sub s1 p1 n) (sub s2 p2 n))).
Proof.
  unfold Merge.
  destruct (Merge_unrolled_end (Z.to_nat n) 0 _ ltac:(lia) eq_refl
              (or_introl eq_refl) at_byte_start ltac:(lia))
    as (c & st1 & E1 & Hat1 & Hc & _).
  rewrite E1. simpl.
  destruct (Merge_tail_end (Z.to_nat n) c st1 ltac:(lia) Hat1 ltac:(lia))
    as (st2 & E2 & Hat2).
  rewrite E2. simpl. destruct Hat2 as (_ & _ & _ & Em). rewrite Em. reflexivity.
Qed.
End MergeLoops.

(** Each statement of [Merge] moves [p_dest] by one. *)
Lemma steps_merge_one_p_dest (s1 s2 : list Z) (k : nat) (st st' : merge_state) :
  steps k (merge_one s1 s2) st = Done st' ->
  p_dest st' = p_dest st + Z.of_nat k.
Proof.
  revert st. induction k as [|k IH]; intros st H; simpl in H.
  - injection H as <-. lia.
  - destruct (merge_one s1 s2 st) as [t| |] eqn:E; simpl in H; try discriminate.
    apply IH in H. rewrite H.
    unfold merge_one in E.
    destruct (load s1 (p_s1 st)); simpl in E; try discriminate.
    destruct (load s2 (p_s2 st)); simpl in E; try discriminate.
    destruct (store _ _ _); simpl in E; try discriminate.
    injection E as <-. simpl. lia.
Qed.

Lemma merge_byte_mean (x y : Z) :
  is_byte x -> is_byte y ->
  u16 x + u16 y = x + y /\ x + y < 65536 /\ merge_byte x y = (x + y) / 2.
Proof.
  unfold is_byte, merge_byte, u8, u16. intros Hx Hy.
  rewrite !(Z.mod_small _ 65536) by lia.
  rewrite Z.shiftr_div_pow2 by lia. change (2 ^ 1) with 2.
  repeat split; try lia.
  apply Z.mod_small. split.
  - apply Z.div_pos; lia.
  - apply Z.div_lt_upper_bound; lia.
Qed.

Lemma merge_bytes_mean (a b : list Z) :
  Forall is_byte a -> Forall is_byte b -> merge_bytes a b = mean_bytes a b.
Proof.
  intros Ha. revert b. induction Ha as [|x a Hx Ha IH]; intros b Hb; [reflexivity|].
  destruct Hb as [|y b Hy Hb]; [reflexivity|]. simpl.
  f_equal; [apply merge_byte_mean; assumption | apply IH; assumption].
Qed.

Lemma get_mean_bytes (a b : list Z) (i : Z) :
  len a = len b -> 0 <= i < len a ->
  get (mean_bytes a b) i = (get a i + get b i) / 2.
Proof.
  unfold len, get. intros Hl Hi.
  assert (Hnat : (Z.to_nat i < List.length a)%nat) by lia.
  clear Hi. revert b Hl Hnat. generalize (Z.to_nat i) as k.
  induction a as [|x a IH]; intros k [|y b] Hl Hk; simpl in *; try lia.
  destruct k as [|k]; [reflexivity|]. apply IH; lia.
Qed.

Lemma Forall_get (P : Z -> Prop) (a : list Z) (i : Z) :
  Forall P a -> 0 <= i < len a -> P (get a i).
Proof.
  unfold len, get. intros H Hi. rewrite Forall_forall in H.
  apply H, nth_In. lia.
Qed.

Lemma merge_bytes_is_Merge (a b : list Z) :
  len a = len b -> is_Merge_of (merge_bytes a b) a b.
Proof.
  intros Hl d Hd.
  rewrite (Merge_spec d 0 a 0 b 0 (len a)) by (unfold len in *; lia).
  rewrite Hl at 2. rewrite !sub_all, blit_all; [reflexivity|].
  rewrite len_merge_bytes; congruence.
Qed.

Lemma bytes_checked (l : list Z) :
  forallb (fun x => (0 <=? x) && (x <? 256)) l = true -> Forall is_byte l.
Proof.
  intros H. apply Forall_forall. intros x Hx.
  rewrite forallb_forall in H. specialize (H x Hx).
  apply andb_true_iff in H. destruct H as [H1 H2].
  apply Z.leb_le in H1. apply Z.ltb_lt in H2. split; assumption.
Qed.

(** C1. For byte runs [a] and [b] of length [n] and a destination of length
    [n], [Merge] returns the destination holding [floor((a[i] + b[i]) / 2)]
    at every [i] in [[0, n)]. Each sum is formed on values cast to [u16]:
    it is below [2^16], so the cast and the store into a [u8] lose nothing.
    The unrolled loop stops at the last multiple of eight strictly below
    [n], and the bytes left (between one and eight of them when [n] is
    positive, whether or not eight divides [n]) are written by the second
    loop one byte per iteration. *)
Theorem Merge_writes_mean (dest a b : list Z) (n : Z) :
  len a = n -> len b = n -> len dest = n ->
  Forall is_byte a -> Forall is_byte b ->
  Merge dest 0 a 0 b 0 n = Done (mean_bytes a b)
  /\ (forall i, 0 <= i < n ->
        get (mean_bytes a b) i = (get a i + get b i) / 2
        /\ u16 (get a i) + u16 (get b i) = get a i + get b i
        /\ get a i + get b i < 65536
        /\ merge_byte (get a i) (get b i) = (get a i + get b i) / 2)
  /\ exists st1 st2,
       Merge_unrolled (Z.to_nat n) a b (0 + n - 8)
         {| p_dest := 0; p_s1 := 0; p_s2 := 0; dest_mem := dest |} = Done st1
       /\ p_dest st1 = 8 * Z.max 0 ((n - 1) / 8)
       /\ (0 < n -> 1 <= n - p_dest st1 <= 8)
       /\ Merge_tail (Z.to_nat n) a b (0 + n - 8 + 8) st1 = Done st2
       /\ steps (Z.to_nat (n - p_dest st1)) (merge_one a b) st1 = Done st2
       /\ p_dest st2 = n
       /\ dest_mem st2 = mean_bytes a b.
Proof.
  intros Ha Hb Hd Fa Fb.
  assert (Hn : 0 <= n) by (unfold len in Ha; lia).
  assert (Hres : blit dest 0 (merge_bytes (sub a 0 n) (sub b 0 n)) = mean_bytes a b).
  { rewrite <- Ha at 1. rewrite <- Hb. rewrite !sub_all.
    rewrite blit_all by (rewrite len_merge_bytes; congruence).
    apply merge_bytes_mean; assumption. }
  split; [|split].
  - rewrite Merge_spec by lia. rewrite Hres. reflexivity.
  - intros i Hi.
    pose proof (Forall_get _ a i Fa ltac:(lia)) as Hx.
    pose proof (Forall_get _ b i Fb ltac:(lia)) as Hy.
    split; [apply get_mean_bytes; lia|]. apply merge_byte_mean; assumption.
  - destruct (Merge_unrolled_end dest 0 a 0 b 0 n ltac:(lia) ltac:(lia)
                ltac:(lia) (Z.to_nat n) 0 _ ltac:(lia) eq_refl
                (or_introl eq_refl)
                (at_byte_start dest 0 a 0 b 0) ltac:(lia))
      as (c & st1 & E1 & Hat1 & Hc & Hmod & Hlt & Hge).
    destruct (Merge_tail_end dest 0 a 0 b 0 n ltac:(lia) ltac:(lia)
                ltac:(lia) (Z.to_nat n) c st1 ltac:(lia) Hat1 ltac:(lia))
      as (st2 & E2 & Hat2).
    pose proof Hat1 as (Ed1 & _). pose proof Hat2 as (Ed2 & _ & _ & Em2).
    exists st1, st2.
    assert (Hc8 : c = 8 * Z.max 0 ((n - 1) / 8)).
    { pose proof (Z.div_mod c 8 ltac:(lia)) as Hdm. rewrite Hmod in Hdm.
      assert (Hq : c / 8 = Z.max 0 ((n - 1) / 8)); [|lia].
      destruct (Z.eq_dec n 0) as [->|Hn0].
      - assert (c = 0) by lia. subst c. reflexivity.
      - rewrite Z.max_r by (apply Z.div_pos; lia).
        apply (Z.div_unique (n - 1) 8 (c / 8) (n - 1 - c)); lia. }
    split; [exact E1|]. split; [lia|]. split; [lia|]. split; [exact E2|].
    split; [|split; [lia|]].
    + unfold Merge_tail in E2. apply while_steps in E2.
      destruct E2 as (k & Hk & _).
      pose proof (steps_merge_one_p_dest _ _ _ _ _ Hk) as Hp.
      replace (Z.to_nat (n - p_dest st1)) with k by lia. exact Hk.
    + rewrite Em2. exact Hres.
Qed.

Lemma Merge_writes_mean_witness :
  Merge (repeat 0 11) 0 [255; 254; 0; 1; 16; 17; 100; 200; 9; 8; 7] 0
        [255; 255; 0; 2; 16; 18; 50; 250; 0; 1; 250] 0 11
  = Done [255; 254; 0; 1; 16; 17; 75; 225; 4; 4; 128].
Proof.
  exact (proj1 (Merge_writes_mean (repeat 0 11)
                  [255; 254; 0; 1; 16; 17; 100; 200; 9; 8; 7]
                  [255; 255; 0; 2; 16; 18; 50; 250; 0; 1; 250] 11
                  eq_refl eq_refl eq_refl
                  (bytes_checked [255; 254; 0; 1; 16; 17; 100; 200; 9; 8; 7] eq_refl)
                  (bytes_checked [255; 255; 0; 2; 16; 18; 50; 250; 0; 1; 250] eq_refl))).
Defined.

(** ** Rows *)

Lemma sub_inside (a b : list Z) (o n o' n' : Z) :
  sub a o n = sub b o n ->
  0 <= o <= o' -> 0 <= n' -> o' + n' <= o + n ->
  o + n <= len a -> o + n <= len b ->
  sub a o' n' = sub b o' n'.
Proof.
  intros E Ho Hn' Hin Ha Hb. apply buf_ext.
  - rewrite !len_sub; lia.
  - intros i Hi. rewrite len_sub in Hi by lia. rewrite !get_sub by lia.
    replace (o' + i) with (o + (o' - o + i)) by lia.
    rewrite <- !(get_sub _ o n) by lia. rewrite E. reflexivity.
Qed.

Lemma sub_blit_same_len (buf : list Z) (off : Z) (data : list Z) (n : Z) :
  len data = n -> 0 <= off -> off + n <= len buf ->
  sub (blit buf off data) off n = data.
Proof. intros <- ? ?. apply sub_blit_same; assumption. Qed.

Section Rows.
Variable pitch : Z.
Hypothesis pitch_pos : 0 < pitch.

Lemma row_bounds (buf : list Z) (k lines : Z) :
  0 <= k < lines -> pitch * lines <= len buf ->
  0 <= k * pitch /\ k * pitch + pitch <= len buf.
Proof. intros. nia. Qed.

Lemma len_row (buf : list Z) (k : Z) :
  0 <= k -> k * pitch + pitch <= len buf -> len (row buf pitch k) = pitch.
Proof. intros. unfold row. apply len_sub; nia. Qed.

Lemma memcpy_row (dst src : list Z) (ko ki : Z) :
  0 <= ko -> ko * pitch + pitch <= len dst ->
  0 <= ki -> ki * pitch + pitch <= len src ->
  memcpy dst (ko * pitch) src (ki * pitch) pitch =
  Done (blit dst (ko * pitch) (row src pitch ki)).
Proof.
  intros. unfold memcpy. rewrite !in_range_true by nia. reflexivity.
Qed.

Lemma Merge_rows (dst src : list Z) (ko k1 k2 : Z) :
  0 <= ko -> ko * pitch + pitch <= len dst ->
  0 <= k1 -> k1 * pitch + pitch <= len src ->
  0 <= k2 -> k2 * pitch + pitch <= len src ->
  Merge dst (ko * pitch) src (k1 * pitch) src (k2 * pitch) pitch =
  Done (blit dst (ko * pitch)
             (merge_bytes (row src pitch k1) (row src pitch k2))).
Proof. intros. apply Merge_spec; nia. Qed.

Lemma len_merged_rows (src : list Z) (k1 k2 : Z) :
  0 <= k1 -> k1 * pitch + pitch <= len src ->
  0 <= k2 -> k2 * pitch + pitch <= len src ->
  len (merge_bytes (row src pitch k1) (row src pitch k2)) = pitch.
Proof. intros. rewrite len_merge_bytes; rewrite !len_row; lia. Qed.

Lemma rows_written_start (out0 : list Z) (F : Z -> list Z) :
  rows_written out0 out0 pitch 0 F.
Proof. repeat split. intros k Hk. lia. Qed.

(** Writing row [j] extends the rows written by one. *)
Lemma rows_written_next (out0 mem : list Z) (j : Z) (F : Z -> list Z)
      (data : list Z) :
  0 <= j -> j * pitch + pitch <= len out0 ->
  len data = pitch -> data = F j ->
  rows_written out0 mem pitch j F ->
  rows_written out0 (blit mem (j * pitch) data) pitch (j + 1) F.
Proof.
  intros Hj Hfit Hd HF (Hl & Hrows & Hsuf).
  assert (Hlb : len (blit mem (j * pitch) data) = len out0)
    by (rewrite len_blit; nia).
  split; [assumption|]. split.
  - intros k Hk. destruct (Z.eq_dec k j) as [->|Hne].
    + unfold row. rewrite sub_blit_same_len by nia. assumption.
    + unfold row. rewrite sub_blit_other by nia. apply Hrows. lia.
  - unfold from in *. rewrite Hlb.
    rewrite sub_blit_other by nia.
    apply (sub_inside mem out0 (j * pitch) (len out0 - j * pitch)); try nia.
    rewrite <- Hl at 1. exact Hsuf.
Qed.

Lemma rows_written_upto (out0 mem : list Z) (j j' : Z) (F : Z -> list Z)
      (data : list Z) :
  j' = j + 1 ->
  0 <= j -> j * pitch + pitch <= len out0 ->
  len data = pitch -> data = F j ->
  rows_written out0 mem pitch j F ->
  rows_written out0 (blit mem (j * pitch) data) pitch j' F.
Proof. intros ->. apply rows_written_next. Qed.

(** Rows written are kept when the loop writes further rows. *)
Lemma rows_written_le (out0 mem : list Z) (j : Z) (F : Z -> list Z) (k : Z) :
  rows_written out0 mem pitch j F -> 0 <= k < j -> row mem pitch k = F k.
Proof. intros (_ & H & _). apply H. Qed.
End Rows.

(** ** The loop over the planes *)

Lemma for_planes_each (body : Z -> plane_t -> plane_t -> outcome plane_t)
      (R : plane_t -> plane_t -> Prop) (Q : plane_t -> plane_t -> plane_t -> Prop) :
  (forall i out src, R out src -> exists r, body i out src = Done r /\ Q out src r) ->
  forall outs ins i, Forall2 R outs ins ->
  exists rs, for_planes body i outs ins = Done rs /\
             List.length rs = List.length ins /\
             forall (n : nat) out src,
               nth_error outs n = Some out -> nth_error ins n = Some src ->
               exists r, nth_error rs n = Some r /\ Q out src r.
Proof.
  intros Hbody outs ins i H. revert i.
  induction H as [|out src outs ins HR _ IH]; intros i; simpl.
  - exists []. split; [reflexivity|]. split; [reflexivity|].
    intros [|n] out src E; discriminate.
  - destruct (Hbody i out src HR) as (r & Er & Qr). rewrite Er. simpl.
    destruct (IH (i + 1)) as (rs & Ers & Hlen & Hrs). rewrite Ers. simpl.
    exists (r :: rs). split; [reflexivity|]. split; [simpl; congruence|].
    intros [|n] out' src' Eo Ei; simpl in *.
    + injection Eo as <-. injection Ei as <-. eauto.
    + eauto.
Qed.

(** ** RenderBob *)

Section BobPlane.
Variables (out src : plane_t) (i_field : Z).
Hypothesis Hgeom : half_height out src.
Hypothesis Hfield : i_field = 0 \/ i_field = 1.

Let pitch := i_pitch src.
Let F := fun k => row (p_pixels src) pitch (2 * k + i_field).

Lemma bob_loop :
  exists st,
    while (Z.to_nat (0 + i_pitch out * i_lines out))
          (out_before (0 + i_pitch out * i_lines out))
          (bob_body src (2 * i_pitch src))
          {| p_in := i_field * i_pitch src; p_out := 0;
             out_mem := p_pixels out |} = Done st /\
    rows_written (p_pixels out) (out_mem st) pitch (i_lines out) F.
Proof.
  destruct Hgeom as ((Hp & Hlo & Hfo) & (_ & Hli & Hfi) & Epitch & Hhalf).
  rewrite Epitch in *. fold pitch in Hp, Hfo, Hfi |- *.
  destruct (while_rule (out_before (0 + pitch * i_lines out))
              (bob_body src (2 * pitch))
              (fun s => exists j, 0 <= j <= i_lines out /\
                                  p_out s = j * pitch /\
                                  p_in s = (2 * j + i_field) * pitch /\
                                  rows_written (p_pixels out) (out_mem s) pitch j F)
              (fun s => Z.to_nat (pitch * i_lines out - p_out s)))
    with (fuel := Z.to_nat (0 + pitch * i_lines out))
         (s := {| p_in := i_field * pitch; p_out := 0; out_mem := p_pixels out |})
    as (st & E & (j & Hj & Eo & Ei & Hw) & Hcond).
  - intros s (j & Hj & Eo & Ei & Hw) Hb.
    unfold out_before in Hb. apply Z.ltb_lt in Hb. rewrite Eo in Hb.
    assert (Hjl : j < i_lines out) by nia.
    pose proof Hw as (Hl & _).
    unfold bob_body. fold pitch. rewrite Eo, Ei.
    rewrite memcpy_row by nia. cbn [bind].
    eexists. split; [reflexivity|]. split.
    + exists (j + 1). cbn [p_in p_out out_mem]. split; [lia|]. split; [lia|]. split; [lia|].
      apply rows_written_next;
        [assumption | lia | nia | apply len_row; nia | reflexivity | assumption].
    + cbn [p_in p_out out_mem]. nia.
  - exists 0. cbn [p_in p_out out_mem]. split; [lia|]. split; [lia|]. split; [lia|].
    apply rows_written_start.
  - cbn [p_in p_out out_mem]. lia.
  - exists st. split; [assumption|].
    unfold out_before in Hcond. apply Z.ltb_ge in Hcond. rewrite Eo in Hcond.
    assert (j = i_lines out) by nia. subst j. assumption.
Qed.

(** One plane of a 4:2:0 picture through [RenderBob]. *)
Lemma RenderBob_plane_420 (i_chroma : String.string) (i_plane : Z) :
  is_420 i_chroma = true ->
  exists r, RenderBob_plane i_chroma i_field i_plane out src = Done r /\
            bob_plane i_field out src r.
Proof.
  intros Hc. unfold RenderBob_plane. rewrite Hc.
  destruct bob_loop as (st & E & Hl & Hrows & Hsuf).
  rewrite E. simpl. eexists. split; [reflexivity|].
  destruct Hgeom as (_ & _ & Epitch & _).
  unfold bob_plane; simpl. repeat split.
  - intros k Hk. rewrite Epitch. apply Hrows. assumption.
  - rewrite Epitch. exact Hsuf.
Qed.
End BobPlane.

(** ** RenderBlend *)

Section BlendPlane.
Variables (out src : plane_t).
Hypothesis Hgeom : full_height out src.

Let pitch := i_pitch src.

Lemma blend_loop :
  exists m st,
    memcpy (p_pixels out) 0 (p_pixels src) 0 (i_pitch src) = Done m /\
    while (Z.to_nat (0 + i_pitch out * i_lines out))
          (out_before (0 + i_pitch out * i_lines out))
          (blend_body src)
          {| p_in := 0; p_out := 0 + i_pitch src; out_mem := m |} = Done st /\
    rows_written (p_pixels out) (out_mem st) pitch (i_lines out) (blend_row src).
Proof.
  destruct Hgeom as ((Hp & Hlo & Hfo) & (_ & Hli & Hfi) & Epitch & Hlines).
  rewrite Epitch in *. fold pitch in Hp, Hfo, Hfi |- *.
  pose proof (memcpy_row pitch Hp (p_pixels out) (p_pixels src) 0 0
                ltac:(lia) ltac:(nia) ltac:(lia) ltac:(nia)) as Hm.
  pose proof (rows_written_next pitch Hp (p_pixels out) (p_pixels out) 0
                (blend_row src) (row (p_pixels src) pitch 0)
                ltac:(lia) ltac:(nia) ltac:(apply len_row; nia) eq_refl
                (rows_written_start pitch _ _)) as Hw0.
  rewrite Z.mul_0_l in Hm, Hw0.
  eexists. 
  destruct (while_rule (out_before (0 + pitch * i_lines out))
              (blend_body src)
              (fun s => exists j, 1 <= j <= i_lines out /\
                                  p_out s = j * pitch /\
                                  p_in s = (j - 1) * pitch /\
                                  rows_written (p_pixels out) (out_mem s) pitch j
                                               (blend_row src))
              (fun s => Z.to_nat (pitch * i_lines out - p_out s)))
    with (fuel := Z.to_nat (0 + pitch * i_lines out))
         (s := {| p_in := 0; p_out := 0 + pitch;
                  out_mem := blit (p_pixels out) 0 (row (p_pixels src) pitch 0) |})
    as (st & E & (j & Hj & Eo & Ei & Hw) & Hcond).
  - intros s (j & Hj & Eo & Ei & Hw) Hb.
    unfold out_before in Hb. apply Z.ltb_lt in Hb. rewrite Eo in Hb.
    assert (Hjl : j < i_lines out) by nia.
    pose proof Hw as (Hl & _).
    unfold blend_body. fold pitch. rewrite Eo, Ei.
    replace ((j - 1) * pitch + pitch) with (j * pitch) by lia.
    rewrite Merge_rows by nia. cbn [bind].
    eexists. split; [reflexivity|]. split.
    + exists (j + 1). cbn [p_in p_out out_mem].
      split; [lia|]. split; [lia|]. split; [lia|].
      apply rows_written_next;
        [assumption | lia | nia | apply len_merged_rows; nia | | assumption].
      unfold blend_row. fold pitch.
      destruct (Z.eqb_spec j 0); [lia | reflexivity].
    + cbn [p_in p_out out_mem]. nia.
  - exists 1. cbn [p_in p_out out_mem].
    split; [lia|]. split; [lia|]. split; [lia|]. exact Hw0.
  - cbn [p_in p_out out_mem]. lia.
  - exists st. split; [exact Hm|]. split; [assumption|].
    unfold out_before in Hcond. apply Z.ltb_ge in Hcond. rewrite Eo in Hcond.
    assert (j = i_lines out) by nia. subst j. assumption.
Qed.

(** One plane through [RenderBlend]. *)
Lemma RenderBlend_plane_rows (i_plane : Z) :
  exists r, RenderBlend_plane i_plane out src = Done r /\ blend_plane out src r.
Proof.
  unfold RenderBlend_plane.
  destruct blend_loop as (m & st & Em & E & Hl & Hrows & Hsuf).
  rewrite Em. cbn [bind]. rewrite E. cbn [bind].
  eexists. split; [reflexivity|].
  destruct Hgeom as ((Hp & _ & _) & (_ & _ & Hfi) & Epitch & Hlines).
  rewrite Epitch in *. fold pitch in Hp, Hfi.
  unfold blend_plane; cbn [with_pixels p_pixels i_pitch i_lines].
  rewrite Epitch. fold pitch.
  split; [reflexivity|]. split; [reflexivity|]. split; [|split].
  - rewrite Hrows by lia. reflexivity.
  - intros i Hi. rewrite Hrows by lia. unfold blend_row. fold pitch.
    destruct (Z.eqb_spec i 0); [lia|].
    apply merge_bytes_is_Merge.
    rewrite !len_row; try assumption; nia.
  - exact Hsuf.
Qed.
End BlendPlane.

(** ** RenderLinear *)

Lemma even_double (m : Z) : Z.even (2 * m) = true.
Proof. replace (2 * m) with (0 + 2 * m) by lia. apply Z.even_add_mul_2. Qed.

Lemma even_double_succ (m : Z) : Z.even (2 * m + 1) = false.
Proof. rewrite Z.add_comm. apply Z.even_add_mul_2. Qed.

Lemma odd_double (m : Z) : Z.odd (2 * m) = false.
Proof. replace (2 * m) with (0 + 2 * m) by lia. apply Z.odd_add_mul_2. Qed.

Lemma odd_double_succ (m : Z) : Z.odd (2 * m + 1) = true.
Proof. rewrite Z.add_comm. apply Z.odd_add_mul_2. Qed.

Section LinearPlane.
Variables (out src : plane_t).
Hypothesis Hgeom : frame_height out src.

Let pitch := i_pitch src.
Let lines := i_lines src.

Lemma frame_height_facts :
  0 < pitch /\ i_pitch out = pitch /\ i_lines out = lines /\
  pitch * lines <= len (p_pixels out) /\ pitch * lines <= len (p_pixels src) /\
  exists h, lines = 2 * h /\ 1 <= h.
Proof.
  destruct Hgeom as ((Hp & Hlo & Hfo) & (_ & Hli & Hfi) & Epitch & Elines & H2 & Hev).
  rewrite Epitch, Elines in *. fold pitch lines in Hp, Hfo, Hfi, H2, Hev |- *.
  apply Z.even_spec in Hev. destruct Hev as (h & Hh).
  repeat split; try assumption. exists h. lia.
Qed.

(** One iteration of the loop of [RenderLinear] writes rows [j] and
    [j + 1]: a copy of source row [j] and the merge of source rows [j]
    and [j + 2]. *)
Lemma linear_body_next (F : Z -> list Z) (s : row_state) (j : Z) :
  0 <= j -> j + 2 < lines ->
  p_out s = j * pitch -> p_in s = j * pitch ->
  F j = row (p_pixels src) pitch j ->
  F (j + 1) = merge_bytes (row (p_pixels src) pitch j)
                          (row (p_pixels src) pitch (j + 2)) ->
  rows_written (p_pixels out) (out_mem s) pitch j F ->
  exists s', linear_body src s = Done s' /\
             p_out s' = (j + 2) * pitch /\ p_in s' = (j + 2) * pitch /\
             rows_written (p_pixels out) (out_mem s') pitch (j + 2) F.
Proof.
  intros Hj Hj2 Eo Ei HFj HFj1 Hw.
  destruct frame_height_facts as (Hp & _ & _ & Hfo & Hfi & _).
  pose proof Hw as (Hl & _).
  unfold linear_body. fold pitch. rewrite Eo, Ei.
  rewrite memcpy_row by nia. cbn [bind].
  assert (Hlb : len (blit (out_mem s) (j * pitch) (row (p_pixels src) pitch j))
                = len (p_pixels out))
    by (rewrite len_blit; rewrite ?len_row; nia).
  replace (j * pitch + pitch) with ((j + 1) * pitch) by lia.
  replace (j * pitch + 2 * pitch) with ((j + 2) * pitch) by lia.
  rewrite Merge_rows by nia. cbn [bind].
  eexists. split; [reflexivity|]. cbn [p_in p_out out_mem].
  split; [lia|]. split; [lia|].
  replace (j + 2) with (j + 1 + 1) by lia.
  apply rows_written_next;
    [assumption | lia | nia | apply len_merged_rows; nia | | ].
  - rewrite HFj1. replace (j + 1 + 1) with (j + 2) by lia. reflexivity.
  - apply rows_written_next;
      [assumption | lia | nia | apply len_row; nia | | assumption].
    symmetry. exact HFj.
Qed.

(** The loop, entered at row [j0], ends at row [j1] when the rows between
    are pairs of the kind above. *)
Lemma linear_loop (F : Z -> list Z) (j0 j1 : Z) (s : row_state) :
  0 <= j0 <= j1 -> j1 = lines - 2 \/ j1 = lines - 1 ->
  (exists d, j1 - j0 = 2 * d) ->
  (forall j, j0 <= j -> j + 2 < lines -> (exists d, j - j0 = 2 * d) ->
     F j = row (p_pixels src) pitch j /\
     F (j + 1) = merge_bytes (row (p_pixels src) pitch j)
                             (row (p_pixels src) pitch (j + 2))) ->
  p_out s = j0 * pitch -> p_in s = j0 * pitch ->
  rows_written (p_pixels out) (out_mem s) pitch j0 F ->
  exists s', while (Z.to_nat (0 + i_pitch out * i_lines out))
               (out_before (0 + i_pitch out * i_lines out - 2 * i_pitch out))
               (linear_body src) s = Done s' /\
             p_out s' = j1 * pitch /\ p_in s' = j1 * pitch /\
             rows_written (p_pixels out) (out_mem s') pitch j1 F.
Proof.
  intros Hj Hend Hpar HF Eo Ei Hw.
  destruct frame_height_facts as (Hp & Epitch & Elines & Hfo & Hfi & h & Hh & Hh1).
  rewrite Epitch, Elines.
  destruct (while_rule (out_before (0 + pitch * lines - 2 * pitch))
              (linear_body src)
              (fun t => exists j, j0 <= j <= j1 /\ (exists d, j - j0 = 2 * d) /\
                                  p_out t = j * pitch /\ p_in t = j * pitch /\
                                  rows_written (p_pixels out) (out_mem t) pitch j F)
              (fun t => Z.to_nat (pitch * lines - p_out t)))
    with (fuel := Z.to_nat (0 + pitch * lines)) (s := s)
    as (s' & E & (j & Hjr & Hjp & Eo' & Ei' & Hw') & Hcond).
  - intros t (j & Hjr & (d & Hd) & Eo' & Ei' & Hw') Hb.
    unfold out_before in Hb. apply Z.ltb_lt in Hb. rewrite Eo' in Hb.
    assert (Hj2 : j + 2 < lines) by nia.
    destruct (HF j ltac:(lia) Hj2 (ex_intro _ d Hd)) as (HFj & HFj1).
    destruct (linear_body_next F t j ltac:(lia) Hj2 Eo' Ei' HFj HFj1 Hw')
      as (t' & Et & Eo2 & Ei2 & Hw2).
    exists t'. split; [assumption|]. split.
    + exists (j + 2). split.
      * destruct Hpar as (d1 & Hd1). lia.
      * split; [exists (d + 1); lia|]. auto.
    + rewrite Eo2, Eo'. nia.
  - exists j0. split; [lia|]. split; [exists 0; lia|]. auto.
  - rewrite Eo. nia.
  - exists s'. split; [assumption|].
    unfold out_before in Hcond. apply Z.ltb_ge in Hcond. rewrite Eo' in Hcond.
    assert (Hge : lines - 2 <= j) by nia.
    destruct Hjp as (d & Hd). destruct Hpar as (d1 & Hd1).
    assert (j = j1) by lia. subst j. auto.
Qed.

(** Top field: one plane through [RenderLinear]. *)
Lemma RenderLinear_plane_top (i_plane : Z) :
  exists r, RenderLinear_plane 0 i_plane out src = Done r /\
            linear_top out src r.
Proof.
  destruct frame_height_facts as (Hp & Epitch & Elines & Hfo & Hfi & h & Hh & Hh1).
  assert (Hev2 : Z.even (lines - 2) = true)
    by (replace (lines - 2) with (2 * (h - 1)) by lia; apply even_double).
  unfold RenderLinear_plane. cbn [Z.eqb bind].
  destruct (linear_loop (linear_top_row src) 0 (lines - 2)
              {| p_in := 0; p_out := 0; out_mem := p_pixels out |})
    as (s & E & Eo & Ei & Hw).
  - lia.
  - left; reflexivity.
  - exists (h - 1). lia.
  - intros j Hj0 Hj2 (d & Hd). unfold linear_top_row. fold pitch lines.
    replace j with (2 * d) by lia. rewrite even_double, orb_true_r.
    rewrite even_double_succ.
    destruct (Z.eqb_spec (2 * d + 1) (lines - 1)); [lia|]. cbn [orb].
    replace (2 * d + 1 - 1) with (2 * d) by lia.
    replace (2 * d + 1 + 1) with (2 * d + 2) by lia. split; reflexivity.
  - reflexivity.
  - reflexivity.
  - apply rows_written_start.
  - rewrite E. cbn [bind]. fold pitch. rewrite Eo, Ei.
    pose proof Hw as (Hl & _).
    rewrite memcpy_row by nia. cbn [bind].
    assert (Hlb : len (blit (out_mem s) ((lines - 2) * pitch)
                            (row (p_pixels src) pitch (lines - 2)))
                  = len (p_pixels out))
      by (rewrite len_blit; rewrite ?len_row; nia).
    replace ((lines - 2) * pitch + pitch) with ((lines - 1) * pitch) by lia.
    rewrite memcpy_row by nia. cbn [bind].
    eexists. split; [reflexivity|].
    assert (Hall : rows_written (p_pixels out)
                     (blit (blit (out_mem s) ((lines - 2) * pitch)
                                 (row (p_pixels src) pitch (lines - 2)))
                           ((lines - 1) * pitch)
                           (row (p_pixels src) pitch (lines - 1)))
                     pitch lines (linear_top_row src)).
    { apply rows_written_upto;
        [assumption | lia | lia | nia | apply len_row; nia | | ].
      - unfold linear_top_row. fold pitch lines. rewrite Z.eqb_refl. reflexivity.
      - apply rows_written_upto;
          [assumption | lia | lia | nia | apply len_row; nia | | assumption].
        unfold linear_top_row. fold pitch lines.
        rewrite Hev2, orb_true_r. reflexivity. }
    destruct Hall as (_ & Hrows & Hsuf).
    unfold linear_top. cbn [with_pixels p_pixels i_pitch i_lines].
    rewrite Epitch, Elines. fold pitch lines.
    split; [reflexivity|]. split; [reflexivity|]. split; [|split; [|split; [|split]]].
    + rewrite Hrows by lia. unfold linear_top_row.
      change (Z.even 0) with true. rewrite orb_true_r. reflexivity.
    + intros k Hk Hk2. rewrite !Hrows by lia. unfold linear_top_row.
      fold pitch lines. rewrite even_double, orb_true_r, even_double_succ.
      destruct (Z.eqb_spec (2 * k + 1) (lines - 1)); [lia|]. cbn [orb].
      split; [reflexivity|].
      replace (2 * k + 1 - 1) with (2 * k) by lia.
      replace (2 * k + 1 + 1) with (2 * k + 2) by lia.
      apply merge_bytes_is_Merge. rewrite !len_row; try assumption; nia.
    + rewrite Hrows by lia. unfold linear_top_row. fold pitch lines.
      rewrite Hev2, orb_true_r. reflexivity.
    + rewrite Hrows by lia. unfold linear_top_row. fold pitch lines.
      rewrite Z.eqb_refl. reflexivity.
    + exact Hsuf.
Qed.

(** Bottom field: one plane through [RenderLinear]. *)
Lemma RenderLinear_plane_bottom (i_plane : Z) :
  exists r, RenderLinear_plane 1 i_plane out src = Done r /\
            linear_bottom out src r.
Proof.
  destruct frame_height_facts as (Hp & Epitch & Elines & Hfo & Hfi & h & Hh & Hh1).
  assert (Hodd1 : Z.odd (lines - 1) = true)
    by (replace (lines - 1) with (2 * (h - 1) + 1) by lia; apply odd_double_succ).
  unfold RenderLinear_plane. cbn [Z.eqb Pos.eqb bind p_in p_out out_mem].
  fold pitch.
  pose proof (memcpy_row pitch Hp (p_pixels out) (p_pixels src) 0 0
                ltac:(lia) ltac:(nia) ltac:(lia) ltac:(nia)) as Hm.
  pose proof (rows_written_next pitch Hp (p_pixels out) (p_pixels out) 0
                (linear_bottom_row src) (row (p_pixels src) pitch 0)
                ltac:(lia) ltac:(nia) ltac:(apply len_row; nia) eq_refl
                (rows_written_start pitch _ _)) as Hw0.
  rewrite Z.mul_0_l in Hm, Hw0. rewrite Hm. cbn [bind].
  destruct (linear_loop (linear_bottom_row src) 1 (lines - 1)
              {| p_in := 0 + pitch; p_out := 0 + pitch;
                 out_mem := blit (p_pixels out) 0 (row (p_pixels src) pitch 0) |})
    as (s & E & Eo & Ei & Hw).
  - lia.
  - right; reflexivity.
  - exists (h - 1). lia.
  - intros j Hj0 Hj2 (d & Hd). unfold linear_bottom_row. fold pitch lines.
    replace j with (2 * d + 1) by lia. rewrite odd_double_succ, orb_true_r.
    replace (2 * d + 1 + 1) with (2 * (d + 1)) by lia. rewrite odd_double.
    destruct (Z.eqb_spec (2 * (d + 1)) 0); [lia|]. cbn [orb].
    replace (2 * (d + 1) - 1) with (2 * d + 1) by lia.
    replace (2 * (d + 1) + 1) with (2 * d + 1 + 2) by lia. split; reflexivity.
  - cbn [p_out]. lia.
  - cbn [p_in]. lia.
  - exact Hw0.
  - rewrite E. cbn [bind]. rewrite Eo, Ei.
    pose proof Hw as (Hl & _).
    rewrite memcpy_row by nia. cbn [bind].
    eexists. split; [reflexivity|].
    assert (Hall : rows_written (p_pixels out)
                     (blit (out_mem s) ((lines - 1) * pitch)
                           (row (p_pixels src) pitch (lines - 1)))
                     pitch lines (linear_bottom_row src)).
    { apply rows_written_upto;
        [assumption | lia | lia | nia | apply len_row; nia | | assumption].
      unfold linear_bottom_row. fold pitch lines.
      rewrite Hodd1, orb_true_r. reflexivity. }
    destruct Hall as (_ & Hrows & Hsuf).
    unfold linear_bottom. cbn [with_pixels p_pixels i_pitch i_lines].
    rewrite Epitch, Elines. fold pitch lines.
    split; [reflexivity|]. split; [reflexivity|]. split; [|split; [|split]].
    + rewrite Hrows by lia. reflexivity.
    + intros k Hk Hk2. rewrite !Hrows by lia. unfold linear_bottom_row.
      fold pitch lines. rewrite odd_double_succ, orb_true_r.
      replace (2 * k + 2) with (2 * (k + 1)) by lia. rewrite odd_double.
      destruct (Z.eqb_spec (2 * (k + 1)) 0); [lia|]. cbn [orb].
      split; [reflexivity|].
      replace (2 * (k + 1) - 1) with (2 * k + 1) by lia.
      replace (2 * (k + 1) + 1) with (2 * k + 3) by lia.
      apply merge_bytes_is_Merge. rewrite !len_row; try assumption; nia.
    + rewrite Hrows by lia. unfold linear_bottom_row. fold pitch lines.
      rewrite Hodd1, orb_true_r. reflexivity.
    + exact Hsuf.
Qed.
End LinearPlane.

(** ** Whole pictures *)

Lemma RenderBob_420 (p_vout : vout_thread_t) (p_outpic p_pic : picture_t)
      (i_field : Z) :
  is_420 (render_i_chroma p_vout) = true ->
  Forall2 half_height (p p_outpic) (p p_pic) ->
  i_field = 0 \/ i_field = 1 ->
  exists shown, RenderBob p_vout p_outpic p_pic i_field = Done shown /\
                each_plane (bob_plane i_field) p_outpic p_pic shown.
Proof.
  intros Hc Hg Hf. unfold RenderBob.
  destruct (for_planes_each
              (RenderBob_plane (render_i_chroma p_vout) i_field)
              half_height (bob_plane i_field)) with
    (outs := p p_outpic) (ins := p p_pic) (i := 0)
    as (rs & E & Hlen & Hrs).
  - intros i out src Hh. apply RenderBob_plane_420; assumption.
  - assumption.
  - rewrite E. cbn [bind]. eexists. split; [reflexivity|].
    unfold each_plane; cbn [date p]. auto.
Qed.

Lemma RenderBlend_each (p_vout : vout_thread_t) (p_outpic p_pic : picture_t) :
  Forall2 full_height (p p_outpic) (p p_pic) ->
  exists shown, RenderBlend p_vout p_outpic p_pic = Done shown /\
                each_plane blend_plane p_outpic p_pic shown.
Proof.
  intros Hg. unfold RenderBlend.
  destruct (for_planes_each RenderBlend_plane full_height blend_plane) with
    (outs := p p_outpic) (ins := p p_pic) (i := 0)
    as (rs & E & Hlen & Hrs).
  - intros i out src Hh. apply RenderBlend_plane_rows; assumption.
  - assumption.
  - rewrite E. cbn [bind]. eexists. split; [reflexivity|].
    unfold each_plane; cbn [date p]. auto.
Qed.

Lemma RenderLinear_top (p_vout : vout_thread_t) (p_outpic p_pic : picture_t) :
  Forall2 frame_height (p p_outpic) (p p_pic) ->
  exists shown, RenderLinear p_vout p_outpic p_pic 0 = Done shown /\
                each_plane linear_top p_outpic p_pic shown.
Proof.
  intros Hg. unfold RenderLinear.
  destruct (for_planes_each (RenderLinear_plane 0) frame_height linear_top) with
    (outs := p p_outpic) (ins := p p_pic) (i := 0)
    as (rs & E & Hlen & Hrs).
  - intros i out src Hh. apply RenderLinear_plane_top; assumption.
  - assumption.
  - rewrite E. cbn [bind]. eexists. split; [reflexivity|].
    unfold each_plane; cbn [date p]. auto.
Qed.

Lemma RenderLinear_bottom (p_vout : vout_thread_t) (p_outpic p_pic : picture_t) :
  Forall2 frame_height (p p_outpic) (p p_pic) ->
  exists shown, RenderLinear p_vout p_outpic p_pic 1 = Done shown /\
                each_plane linear_bottom p_outpic p_pic shown.
Proof.
  intros Hg. unfold RenderLinear.
  destruct (for_planes_each (RenderLinear_plane 1) frame_height linear_bottom) with
    (outs := p p_outpic) (ins := p p_pic) (i := 0)
    as (rs & E & Hlen & Hrs).
  - intros i out src Hh. apply RenderLinear_plane_bottom; assumption.
  - assumption.
  - rewrite E. cbn [bind]. eexists. split; [reflexivity|].
    unfold each_plane; cbn [date p]. auto.
Qed.

(** ** Waiting for a picture *)

Lemma wait_picture_ready (k : nat) (pic : picture_t) (rest : list poll) :
  wait_picture (repeat (no_picture false false) k ++ picture_ready pic :: rest)
  = Done (Some pic, repeat msleep_OUTMEM k, rest).
Proof.
  induction k as [|k IH]; simpl; [reflexivity|]. rewrite IH. reflexivity.
Qed.

Lemma wait_picture_cancelled (k : nat) (b_die b_error : bool) (rest : list poll) :
  b_die || b_error = true ->
  wait_picture (repeat (no_picture false false) k
                  ++ no_picture b_die b_error :: rest)
  = Done (None, repeat msleep_OUTMEM k, rest).
Proof.
  intros H. induction k as [|k IH]; simpl.
  - rewrite H. reflexivity.
  - rewrite IH. reflexivity.
Qed.

Lemma displayed_dates_app (a b : list event) :
  displayed_dates (a ++ b) = displayed_dates a ++ displayed_dates b.
Proof.
  induction a as [|[| pic | pic] a IH]; simpl;
    [reflexivity | assumption | f_equal; assumption | assumption].
Qed.

Lemma displayed_dates_sleeps (k : nat) :
  displayed_dates (repeat msleep_OUTMEM k) = [].
Proof. induction k; simpl; auto. Qed.

Lemma sample_half_height : Forall2 half_height (p sample_half) (p (sample_frame 0)).
Proof.
  cbn. constructor; [|constructor].
  unfold half_height, plane_ok, len; cbn. repeat split; try lia; reflexivity.
Qed.

Lemma sample_full_height : Forall2 full_height (p sample_full) (p (sample_frame 0)).
Proof.
  cbn. constructor; [|constructor].
  unfold full_height, plane_ok, len; cbn. repeat split; try lia; reflexivity.
Qed.

Lemma sample_frame_height : Forall2 frame_height (p sample_full) (p (sample_frame 0)).
Proof.
  cbn. constructor; [|constructor].
  unfold frame_height, plane_ok, len; cbn. repeat split; try lia; reflexivity.
Qed.

(** ** The row logic of the three algorithms *)

(** C2. On a 4:2:0 picture (I420, IYUV or YV12) whose planes have two rows
    for each row of the destination, [RenderBob] with field 0 leaves source
    rows 0, 2, 4, ... in the consecutive rows of the destination, and with
    field 1 source rows 1, 3, 5, ... In Discard mode [Render] displays one
    picture, rendered by [RenderBob] with field 0; in Bob mode it displays
    two, the first rendered with field 0 and the second, on a second output
    picture, with field 1. *)
Theorem RenderBob_fields (p_vout : vout_thread_t) (p_pic : picture_t) :
  is_420 (render_i_chroma p_vout) = true ->
  (forall p_outpic i_field,
      Forall2 half_height (p p_outpic) (p p_pic) ->
      i_field = 0 \/ i_field = 1 ->
      exists shown,
        RenderBob p_vout p_outpic p_pic i_field = Done shown /\
        date shown = date p_outpic /\
        List.length (p shown) = List.length (p p_pic) /\
        forall (n : nat) (out src : plane_t),
          nth_error (p p_outpic) n = Some out ->
          nth_error (p p_pic) n = Some src ->
          exists r, nth_error (p shown) n = Some r /\
                    i_pitch r = i_pitch out /\ i_lines r = i_lines out /\
                    forall k, 0 <= k < i_lines out ->
                      row (p_pixels r) (i_pitch r) k =
                      row (p_pixels src) (i_pitch src) (2 * k + i_field))
  /\ (forall out0 k rest,
        i_mode (p_sys p_vout) = DEINTERLACE_DISCARD ->
        b_double_rate (p_sys p_vout) = false ->
        Forall2 half_height (p out0) (p p_pic) ->
        exists o0,
          Render p_vout p_pic
                 (repeat (no_picture false false) k ++ picture_ready out0 :: rest)
          = Done {| sys_after := p_sys p_vout;
                    events := repeat msleep_OUTMEM k ++ [vout_DisplayPicture o0];
                    polls_left := rest |} /\
          RenderBob p_vout (vout_DatePicture out0 (date p_pic)) p_pic 0 = Done o0 /\
          each_plane (bob_plane 0) (vout_DatePicture out0 (date p_pic)) p_pic o0)
  /\ (forall out0 out1 k0 k1 rest,
        i_mode (p_sys p_vout) = DEINTERLACE_BOB ->
        b_double_rate (p_sys p_vout) = true ->
        Forall2 half_height (p out0) (p p_pic) ->
        Forall2 half_height (p out1) (p p_pic) ->
        exists o0 o1,
          Render p_vout p_pic
                 (repeat (no_picture false false) k0 ++ picture_ready out0
                    :: repeat (no_picture false false) k1 ++ picture_ready out1
                    :: rest)
          = Done {| sys_after := {| i_mode := DEINTERLACE_BOB;
                                    b_double_rate := true;
                                    last_date := date p_pic |};
                    events := repeat msleep_OUTMEM k0 ++ repeat msleep_OUTMEM k1
                                ++ [vout_DisplayPicture o0; vout_DisplayPicture o1];
                    polls_left := rest |} /\
          RenderBob p_vout (vout_DatePicture out0 (date p_pic)) p_pic 0 = Done o0 /\
          RenderBob p_vout
                    (vout_DatePicture out1 (second_date (p_sys p_vout) p_pic))
                    p_pic 1 = Done o1 /\
          each_plane (bob_plane 0) (vout_DatePicture out0 (date p_pic)) p_pic o0 /\
          each_plane (bob_plane 1)
                     (vout_DatePicture out1 (second_date (p_sys p_vout) p_pic))
                     p_pic o1).
Proof.
  intros Hc. split; [|split].
  - intros p_outpic i_field Hg Hf.
    destruct (RenderBob_420 p_vout p_outpic p_pic i_field Hc Hg Hf)
      as (shown & E & Hd & Hl & Hp).
    exists shown. split; [assumption|]. split; [assumption|]. split; [assumption|].
    intros n out src Eo Ei. destruct (Hp n out src Eo Ei) as (r & Er & H1 & H2 & H3 & _).
    exists r. auto.
  - intros out0 k rest Hm Hd Hg.
    destruct (RenderBob_420 p_vout (vout_DatePicture out0 (date p_pic)) p_pic 0
                Hc Hg (or_introl eq_refl)) as (o0 & E & Hp).
    exists o0. split; [|split; assumption].
    unfold Render. rewrite wait_picture_ready. cbn [bind]. rewrite Hd.
    unfold Render_switch. rewrite Hm. cbn [Z.eqb Pos.eqb DEINTERLACE_DISCARD].
    rewrite E. reflexivity.
  - intros out0 out1 k0 k1 rest Hm Hd Hg0 Hg1.
    destruct (RenderBob_420 p_vout (vout_DatePicture out0 (date p_pic)) p_pic 0
                Hc Hg0 (or_introl eq_refl)) as (o0 & E0 & Hp0).
    destruct (RenderBob_420 p_vout
                (vout_DatePicture out1 (second_date (p_sys p_vout) p_pic)) p_pic 1
                Hc Hg1 (or_intror eq_refl)) as (o1 & E1 & Hp1).
    exists o0, o1.
    split; [|split; [assumption|split; [assumption|split; assumption]]].
    unfold Render. rewrite wait_picture_ready. cbn [bind]. rewrite Hd.
    rewrite wait_picture_ready. cbn [bind].
    unfold Render_switch. cbn [p_sys with_sys i_mode]. rewrite Hm.
    cbn [Z.eqb Pos.eqb DEINTERLACE_DISCARD DEINTERLACE_BOB].
    change (RenderBob (with_sys p_vout ?s)) with (RenderBob p_vout).
    rewrite E0. cbn [bind on_second]. 
    change (RenderBob (with_sys p_vout ?s)) with (RenderBob p_vout).
    rewrite E1. cbn [bind]. rewrite ?Hd, ?Hm. reflexivity.
Qed.

Lemma RenderBob_fields_witness :
  is_420 I420 = true
  /\ (exists shown,
        RenderBob (sample_vout (filter_state DEINTERLACE_BOB true 0))
                  sample_half (sample_frame 7) 1 = Done shown /\
        date shown = 0)
  /\ (exists o0,
        Render (sample_vout (filter_state DEINTERLACE_DISCARD false 0))
               (sample_frame 7)
               (repeat (no_picture false false) 1 ++ picture_ready sample_half :: [])
        = Done {| sys_after := filter_state DEINTERLACE_DISCARD false 0;
                  events := repeat msleep_OUTMEM 1 ++ [vout_DisplayPicture o0];
                  polls_left := [] |})
  /\ (exists o0 o1,
        Render (sample_vout (filter_state DEINTERLACE_BOB true 0))
               (sample_frame 7)
               (repeat (no_picture false false) 0 ++ picture_ready sample_half
                  :: repeat (no_picture false false) 2 ++ picture_ready sample_half
                  :: [])
        = Done {| sys_after := filter_state DEINTERLACE_BOB true 7;
                  events := repeat msleep_OUTMEM 0 ++ repeat msleep_OUTMEM 2
                              ++ [vout_DisplayPicture o0; vout_DisplayPicture o1];
                  polls_left := [] |}).
Proof.
  split; [reflexivity|].
  destruct (RenderBob_fields (sample_vout (filter_state DEINTERLACE_BOB true 0))
              (sample_frame 7) eq_refl) as (Hfield & _ & Hbob).
  destruct (RenderBob_fields (sample_vout (filter_state DEINTERLACE_DISCARD false 0))
              (sample_frame 7) eq_refl) as (_ & Hdiscard & _).
  split; [|split].
  - destruct (Hfield sample_half 1 sample_half_height (or_intror eq_refl))
      as (shown & E & Hd & _).
    exists shown. split; assumption.
  - destruct (Hdiscard sample_half 1%nat [] eq_refl eq_refl sample_half_height)
      as (o0 & E & _).
    exists o0. exact E.
  - destruct (Hbob sample_half sample_half 0%nat 2%nat [] eq_refl eq_refl
                sample_half_height sample_half_height)
      as (o0 & o1 & E & _).
    exists o0, o1. exact E.
Defined.

(** C7. On every plane whose destination has the source's pitch and no more
    rows than the source, [RenderBlend] leaves source row 0 in row 0 of the
    destination, unmerged, and in every later row [i] what [Merge] makes of
    source rows [i - 1] and [i]; it writes every row of the destination,
    which has the full height of the input: that is the height [Init] asks
    of the real output in Blend mode. *)
Theorem RenderBlend_rows (p_vout : vout_thread_t) (p_outpic p_pic : picture_t) :
  Forall2 full_height (p p_outpic) (p p_pic) ->
  (exists shown,
     RenderBlend p_vout p_outpic p_pic = Done shown /\
     date shown = date p_outpic /\
     List.length (p shown) = List.length (p p_pic) /\
     forall (n : nat) (out src : plane_t),
       nth_error (p p_outpic) n = Some out ->
       nth_error (p p_pic) n = Some src ->
       exists r, nth_error (p shown) n = Some r /\
                 i_pitch r = i_pitch out /\ i_lines r = i_lines out /\
                 row (p_pixels r) (i_pitch r) 0 =
                 row (p_pixels src) (i_pitch src) 0 /\
                 forall i, 1 <= i < i_lines out ->
                   is_Merge_of (row (p_pixels r) (i_pitch r) i)
                               (row (p_pixels src) (i_pitch src) (i - 1))
                               (row (p_pixels src) (i_pitch src) i))
  /\ (forall created r,
        i_mode (p_sys p_vout) = DEINTERLACE_BLEND ->
        In r (snd (fst (Init p_vout created))) ->
        req_height r = render_i_height p_vout).
Proof.
  intros Hg. split.
  - destruct (RenderBlend_each p_vout p_outpic p_pic Hg) as (shown & E & Hd & Hl & Hp).
    exists shown. split; [assumption|]. split; [assumption|]. split; [assumption|].
    intros n out src Eo Ei.
    destruct (Hp n out src Eo Ei) as (r & Er & H1 & H2 & H3 & H4 & _).
    exists r. auto.
  - intros created r Hm. unfold Init, Init_request, with_pictures.
    cbn [p_sys render_i_chroma output_i_height output_i_width output_i_chroma
         output_i_aspect]. rewrite Hm.
    cbn [Z.eqb Pos.eqb DEINTERLACE_BLEND DEINTERLACE_BOB DEINTERLACE_MEAN
         DEINTERLACE_DISCARD DEINTERLACE_LINEAR orb].
    destruct (is_420 (render_i_chroma p_vout));
      [|destruct (String.eqb (render_i_chroma p_vout) I422)];
      cbn [orb]; destruct created; cbn [fst snd In];
      intros H; try contradiction; destruct H as [<-|[]]; reflexivity.
Qed.

Lemma RenderBlend_rows_witness :
  (exists shown,
     RenderBlend (sample_vout (filter_state DEINTERLACE_BLEND false 0))
                 sample_full (sample_frame 7) = Done shown /\
     date shown = 0)
  /\ req_height {| req_width := 2; req_height := 4; req_chroma := I420;
                   req_aspect := 1 |}
     = render_i_height (sample_vout (filter_state DEINTERLACE_BLEND false 0)).
Proof.
  destruct (RenderBlend_rows (sample_vout (filter_state DEINTERLACE_BLEND false 0))
              sample_full (sample_frame 7) sample_full_height)
    as ((shown & E & Hd & _) & Hinit).
  split.
  - exists shown. split; assumption.
  - apply (Hinit true); [reflexivity | left; reflexivity].
Defined.

(** C6 (amended). On every plane with an even number of rows, at least
    two, whose destination has the same pitch and height, [RenderLinear] with
    field 0 leaves source row 0 in row 0, then in each pair of rows [2k],
    [2k+1] before the last two a copy of source row [2k] and the [Merge] of
    source rows [2k] and [2k+2], and last the source's last two rows, the
    final one written by the extra step of the top field. With field 1 it
    first copies source row 0 to row 0, leaves in each pair of rows [2k+1],
    [2k+2] a copy of source row [2k+1] and the [Merge] of source rows
    [2k+1] and [2k+3], and ends with the copy of the last source row, with
    no further step: the bytes after the last row are untouched. *)
Theorem RenderLinear_rows (p_vout : vout_thread_t) (p_outpic p_pic : picture_t) :
  Forall2 frame_height (p p_outpic) (p p_pic) ->
  (exists top,
     RenderLinear p_vout p_outpic p_pic 0 = Done top /\
     each_plane linear_top p_outpic p_pic top)
  /\ (exists bottom,
        RenderLinear p_vout p_outpic p_pic 1 = Done bottom /\
        each_plane linear_bottom p_outpic p_pic bottom).
Proof.
  intros Hg. split.
  - apply RenderLinear_top; assumption.
  - apply RenderLinear_bottom; assumption.
Qed.

Lemma RenderLinear_rows_witness :
  (exists top,
     RenderLinear (sample_vout (filter_state DEINTERLACE_LINEAR true 0))
                  sample_full (sample_frame 7) 0 = Done top /\
     each_plane linear_top sample_full (sample_frame 7) top)
  /\ (exists bottom,
        RenderLinear (sample_vout (filter_state DEINTERLACE_LINEAR true 0))
                     sample_full (sample_frame 7) 1 = Done bottom /\
        each_plane linear_bottom sample_full (sample_frame 7) bottom).
Proof.
  exact (RenderLinear_rows (sample_vout (filter_state DEINTERLACE_LINEAR true 0))
           sample_full (sample_frame 7) sample_frame_height).
Defined.

(** C6, as stated for every source plane, fails on two kinds of planes.
    On the I420 frame of height 6, whose chroma planes have three rows,
    field 0 does not leave the last source row as the final step: its last
    copy is on the row after the last of the chroma planes, outside them,
    and [Render] in Linear mode meets it; field 1 leaves the last chroma
    row as the destination held it, 0, where the source has 102 and 202.
    On the I422 frame, rendered into the I420 picture [Init] asks for, the
    chroma destination has two rows for the four of the source, and its
    final row is source row 1, not the last source row. *)
Lemma RenderLinear_not_every_plane :
  RenderLinear (sample_vout (filter_state DEINTERLACE_LINEAR true 0))
               sample_odd_out sample_odd_frame 0 = Fault
  /\ Render (sample_vout (filter_state DEINTERLACE_LINEAR true 0))
            sample_odd_frame
            (two_pictures 0 sample_odd_out 0 sample_odd_out []) = Fault
  /\ map rows (p sample_odd_frame)
     = [[[0; 1]; [4; 9]; [16; 25]; [36; 49]; [64; 81]; [100; 121]];
        [[100]; [101]; [102]]; [[200]; [201]; [202]]]
  /\ rendered_rows
       (RenderLinear (sample_vout (filter_state DEINTERLACE_LINEAR true 0))
                     sample_odd_out sample_odd_frame 1)
     = [[[0; 1]; [4; 9]; [20; 29]; [36; 49]; [68; 85]; [100; 121]];
        [[100]; [101]; [0]]; [[200]; [201]; [0]]]
  /\ map rows (p sample_422_frame)
     = [[[0; 1]; [4; 9]; [16; 25]; [36; 49]]; [[100]; [101]; [102]; [103]]]
  /\ rendered_rows
       (RenderLinear (sample_422 DEINTERLACE_LINEAR) sample_422_out
                     sample_422_frame 0)
     = [[[0; 1]; [8; 13]; [16; 25]; [36; 49]]; [[100]; [101]]]
  /\ ~ (exists top,
          RenderLinear (sample_422 DEINTERLACE_LINEAR) sample_422_out
                       sample_422_frame 0 = Done top /\
          each_plane linear_top sample_422_out sample_422_frame top).
Proof.
  repeat (split; [reflexivity|]).
  intros (top & E & _ & _ & Hplanes).
  destruct (Hplanes 1%nat (sample_plane 1 2 (fun _ => 0))
              (sample_plane 1 4 (fun i => 100 + Z.of_nat i))
              eq_refl eq_refl)
    as (r & Er & _ & _ & _ & _ & _ & Hlast & _).
  injection E as <-. injection Er as <-. discriminate Hlast.
Qed.

(** ** Dates *)

Lemma wrap64_id (x : Z) : is_mtime x -> wrap64 x = x.
Proof.
  unfold is_mtime, wrap64. intros H.
  rewrite Z.mod_small; lia.
Qed.

Lemma second_date_unset (sys : vout_sys_t) (p_pic : picture_t) :
  last_date sys = 0 -> is_mtime (date p_pic + 20000) ->
  second_date sys p_pic = date p_pic + 20000.
Proof.
  intros H0 Hr. unfold second_date, second_date_of. rewrite H0. cbn [Z.eqb].
  apply wrap64_id. assumption.
Qed.

Lemma second_date_set (sys : vout_sys_t) (p_pic : picture_t) :
  last_date sys <> 0 ->
  is_mtime (3 * date p_pic) -> is_mtime (3 * date p_pic - last_date sys) ->
  second_date sys p_pic = Z.quot (3 * date p_pic - last_date sys) 2.
Proof.
  intros H0 H3 Hr. unfold second_date, second_date_of.
  destruct (Z.eqb_spec (last_date sys) 0); [contradiction|].
  rewrite (wrap64_id (3 * date p_pic)) by assumption.
  rewrite wrap64_id by assumption. reflexivity.
Qed.

Lemma renderable_with_sys (p_vout : vout_thread_t) (sys : vout_sys_t)
      (p_outpic p_pic : picture_t) (d : Z) :
  i_mode sys = i_mode (p_sys p_vout) ->
  renderable p_vout p_outpic p_pic ->
  renderable (with_sys p_vout sys) (vout_DatePicture p_outpic d) p_pic.
Proof.
  unfold renderable. cbn [with_sys p_sys render_i_chroma vout_DatePicture p].
  intros ->. tauto.
Qed.

(** The switch of [Render] in a double-rate mode displays the two pictures,
    in order, with the dates they were given. *)
Lemma Render_switch_double (p_vout : vout_thread_t) (out0 out1 p_pic : picture_t) :
  renderable p_vout out0 p_pic -> renderable p_vout out1 p_pic ->
  exists o0 o1,
    Render_switch p_vout out0 (Some out1) p_pic
    = Done [vout_DisplayPicture o0; vout_DisplayPicture o1] /\
    date o0 = date out0 /\ date o1 = date out1.
Proof.
  intros [(Hm & Hc & Hg0)|(Hm & Hg0)] [(Hm' & _ & Hg1)|(Hm' & Hg1)];
    try (rewrite Hm in Hm'; discriminate); unfold Render_switch; rewrite Hm;
    cbn [Z.eqb Pos.eqb DEINTERLACE_DISCARD DEINTERLACE_BOB DEINTERLACE_LINEAR].
  - destruct (RenderBob_420 p_vout out0 p_pic 0 Hc Hg0 (or_introl eq_refl))
      as (o0 & E0 & Hd0 & _).
    destruct (RenderBob_420 p_vout out1 p_pic 1 Hc Hg1 (or_intror eq_refl))
      as (o1 & E1 & Hd1 & _).
    rewrite E0. cbn [bind on_second]. rewrite E1. cbn [bind].
    exists o0, o1. auto.
  - destruct (RenderLinear_top p_vout out0 p_pic Hg0) as (o0 & E0 & Hd0 & _).
    destruct (RenderLinear_bottom p_vout out1 p_pic Hg1) as (o1 & E1 & Hd1 & _).
    rewrite E0. cbn [bind on_second]. rewrite E1. cbn [bind].
    exists o0, o1. auto.
Qed.

(** [Render] on a double-rate frame that gets its two pictures. *)
Lemma Render_double (p_vout : vout_thread_t) (p_pic : picture_t)
      (k0 : nat) (out0 : picture_t) (k1 : nat) (out1 : picture_t)
      (rest : list poll) :
  b_double_rate (p_sys p_vout) = true ->
  renderable p_vout out0 p_pic -> renderable p_vout out1 p_pic ->
  exists o0 o1,
    Render p_vout p_pic (two_pictures k0 out0 k1 out1 rest)
    = Done {| sys_after := {| i_mode := i_mode (p_sys p_vout);
                              b_double_rate := true;
                              last_date := date p_pic |};
              events := repeat msleep_OUTMEM k0 ++ repeat msleep_OUTMEM k1
                          ++ [vout_DisplayPicture o0; vout_DisplayPicture o1];
              polls_left := rest |} /\
    date o0 = date p_pic /\
    date o1 = second_date (p_sys p_vout) p_pic.
Proof.
  intros Hd H0 H1. unfold Render, two_pictures.
  rewrite wait_picture_ready. cbn [bind]. rewrite Hd.
  rewrite wait_picture_ready. cbn [bind].
  destruct (Render_switch_double
              (with_sys p_vout {| i_mode := i_mode (p_sys p_vout);
                                  b_double_rate := true;
                                  last_date := date p_pic |})
              (vout_DatePicture out0 (date p_pic))
              (vout_DatePicture out1 (second_date (p_sys p_vout) p_pic)) p_pic)
    as (o0 & o1 & E & Hd0 & Hd1).
  - apply renderable_with_sys; [reflexivity | assumption].
  - apply renderable_with_sys; [reflexivity | assumption].
  - rewrite E. cbn [bind]. exists o0, o1. auto.
Qed.

Lemma displayed_dates_double (k0 k1 : nat) (o0 o1 : picture_t) :
  displayed_dates (repeat msleep_OUTMEM k0 ++ repeat msleep_OUTMEM k1
                     ++ [vout_DisplayPicture o0; vout_DisplayPicture o1])
  = [date o0; date o1].
Proof.
  rewrite !displayed_dates_app, !displayed_dates_sleeps. reflexivity.
Qed.

Lemma frame_ready_with_sys (p_vout : vout_thread_t) (sys : vout_sys_t)
      (f : picture_t * list poll) :
  i_mode sys = i_mode (p_sys p_vout) ->
  frame_ready p_vout f -> frame_ready (with_sys p_vout sys) f.
Proof.
  intros Hm (k0 & out0 & k1 & out1 & E & H0 & H1).
  exists k0, out0, k1, out1. split; [assumption|].
  unfold renderable in *.
  cbn [with_sys p_sys render_i_chroma]. rewrite Hm. auto.
Qed.

(** [Render] on a ready frame. *)
Lemma Render_ready (p_vout : vout_thread_t) (f : picture_t * list poll) :
  b_double_rate (p_sys p_vout) = true -> frame_ready p_vout f ->
  exists r, Render p_vout (fst f) (snd f) = Done r /\
            sys_after r = {| i_mode := i_mode (p_sys p_vout);
                             b_double_rate := true;
                             last_date := date (fst f) |} /\
            displayed_dates (events r)
            = [date (fst f); second_date (p_sys p_vout) (fst f)].
Proof.
  intros Hd (k0 & out0 & k1 & out1 & E & H0 & H1). rewrite E.
  destruct (Render_double p_vout (fst f) k0 out0 k1 out1 [] Hd H0 H1)
    as (o0 & o1 & Er & Hd0 & Hd1).
  eexists. split; [exact Er|]. cbn [sys_after events]. split; [reflexivity|].
  rewrite displayed_dates_double. congruence.
Qed.

(** A run of ready double-rate frames displays the scheduled dates. *)
Lemma Render_frames_scheduled (frames : list (picture_t * list poll)) :
  forall p_vout,
    b_double_rate (p_sys p_vout) = true ->
    Forall (frame_ready p_vout) frames ->
    exists sys evs,
      Render_frames p_vout frames = Done (sys, evs) /\
      displayed_dates evs
      = scheduled (last_date (p_sys p_vout)) (frame_dates frames).
Proof.
  induction frames as [|f frames IH]; intros p_vout Hd Hready.
  - exists (p_sys p_vout), []. split; reflexivity.
  - inversion Hready as [|f' frames' Hf Hrest]; subst.
    destruct (Render_ready p_vout f Hd Hf) as (r & Er & Hsys & Hdates).
    destruct (IH (with_sys p_vout (sys_after r))) as (sys & evs & E & Hevs).
    + rewrite Hsys. reflexivity.
    + eapply Forall_impl; [|exact Hrest].
      intros g Hg. apply frame_ready_with_sys; [|assumption].
      rewrite Hsys. reflexivity.
    + exists sys, (events r ++ evs). split.
      * destruct f as [p_pic env]. cbn [Render_frames].
        cbn [fst snd] in Er. rewrite Er. cbn [bind]. rewrite E. reflexivity.
      * rewrite displayed_dates_app, Hdates, Hevs.
        cbn [with_sys p_sys]. rewrite Hsys. cbn [last_date frame_dates map scheduled].
        reflexivity.
Qed.

Lemma second_date_of_next (last c : Z) :
  0 < last -> last <= c -> 3 * c < 2 ^ 63 ->
  second_date_of last c = c + (c - last) / 2.
Proof.
  intros Hl Hc Hr. unfold second_date_of.
  destruct (Z.eqb_spec last 0); [lia|].
  rewrite (wrap64_id (3 * c)) by (unfold is_mtime; lia).
  rewrite wrap64_id by (unfold is_mtime; lia).
  rewrite Z.quot_div_nonneg by lia.
  replace (3 * c - last) with (c * 2 + (c - last)) by lia.
  apply Z.div_add_l. lia.
Qed.

Lemma second_date_of_first (c : Z) :
  0 < c -> 3 * c < 2 ^ 63 -> second_date_of 0 c = c + 20000.
Proof.
  intros Hc Hr. unfold second_date_of. cbn [Z.eqb].
  apply wrap64_id. unfold is_mtime.
  change (2 ^ 63) with 9223372036854775808 in *. lia.
Qed.

Lemma scheduled_paced (cs : list Z) :
  forall last c offset,
    second_date_of last c = c + offset ->
    0 < c -> 0 < offset -> Forall (fun d => 3 * d < 2 ^ 63) (c :: cs) ->
    paced offset c cs ->
    scheduled last (c :: cs) = dates_from offset (c :: cs).
Proof.
  induction cs as [|c' cs IH]; intros last c offset Hs Hc Ho Hr Hp.
  - cbn [scheduled dates_from]. rewrite Hs. reflexivity.
  - destruct Hp as (Hoff & Hp).
    inversion Hr as [|? ? Hrc Hr']; subst.
    pose proof (Forall_inv Hr') as Hrc'. cbv beta in Hrc, Hrc'.
    change (scheduled last (c :: c' :: cs))
      with (c :: second_date_of last c :: scheduled c (c' :: cs)).
    change (dates_from offset (c :: c' :: cs))
      with (c :: c + offset :: dates_from ((c' - c) / 2) (c' :: cs)).
    rewrite Hs. f_equal. f_equal.
    apply IH; try assumption; try lia.
    + apply second_date_of_next; lia.
    + apply Z.div_str_pos; lia.
Qed.

Lemma dates_from_sorted (cs : list Z) :
  forall c offset,
    0 < offset -> paced offset c cs ->
    Sorted Z.lt (dates_from offset (c :: cs)).
Proof.
  induction cs as [|c' cs IH]; intros c offset Ho Hp.
  - cbn [dates_from]. repeat constructor. lia.
  - destruct Hp as (Hoff & Hp).
    change (dates_from offset (c :: c' :: cs))
      with (c :: c + offset :: dates_from ((c' - c) / 2) (c' :: cs)).
    assert (Hhalf : 0 < (c' - c) / 2)
      by (apply Z.div_str_pos; lia).
    specialize (IH c' ((c' - c) / 2) Hhalf Hp).
    constructor; [constructor|]; [assumption| |].
    + destruct cs; cbn [dates_from] in *; constructor; lia.
    + constructor. lia.
Qed.

Lemma sample_renderable (last d : Z) :
  renderable (sample_bob last) sample_half (sample_frame d).
Proof.
  left. split; [reflexivity|]. split; [reflexivity|]. exact sample_half_height.
Qed.

Lemma sample_frame_ready (last d : Z) :
  frame_ready (sample_bob last) (sample_ready d).
Proof.
  exists 0%nat, sample_half, 0%nat, sample_half.
  split; [reflexivity|]. split; apply sample_renderable.
Qed.

(** ** The dates of double-rate frames *)

(** C3 (amended). In double-rate mode, when the stored previous date [P] is
    not zero, [Render] dates the second output picture [(3*C - P) / 2] with
    C's division, which truncates toward zero: the floor quotient when
    [3*C - P >= 0]. When the stored date is zero it dates it [C + 20000].
    It then stores [C] as the previous date. The formulas are exact as long
    as [3*C], [3*C - P] and [C + 20000] are in the range of [mtime_t]. *)
Theorem Render_second_date (p_vout : vout_thread_t) (p_pic : picture_t)
        (k0 : nat) (out0 : picture_t) (k1 : nat) (out1 : picture_t)
        (rest : list poll) :
  b_double_rate (p_sys p_vout) = true ->
  renderable p_vout out0 p_pic -> renderable p_vout out1 p_pic ->
  exists o0 o1,
    Render p_vout p_pic (two_pictures k0 out0 k1 out1 rest)
    = Done {| sys_after := {| i_mode := i_mode (p_sys p_vout);
                              b_double_rate := true;
                              last_date := date p_pic |};
              events := repeat msleep_OUTMEM k0 ++ repeat msleep_OUTMEM k1
                          ++ [vout_DisplayPicture o0; vout_DisplayPicture o1];
              polls_left := rest |} /\
    date o0 = date p_pic /\
    (last_date (p_sys p_vout) <> 0 ->
     is_mtime (3 * date p_pic) ->
     is_mtime (3 * date p_pic - last_date (p_sys p_vout)) ->
     date o1 = Z.quot (3 * date p_pic - last_date (p_sys p_vout)) 2 /\
     (0 <= 3 * date p_pic - last_date (p_sys p_vout) ->
      date o1 = (3 * date p_pic - last_date (p_sys p_vout)) / 2)) /\
    (last_date (p_sys p_vout) = 0 ->
     is_mtime (date p_pic + 20000) ->
     date o1 = date p_pic + 20000).
Proof.
  intros Hd H0 H1.
  destruct (Render_double p_vout p_pic k0 out0 k1 out1 rest Hd H0 H1)
    as (o0 & o1 & E & Hd0 & Hd1).
  exists o0, o1. split; [exact E|]. split; [exact Hd0|]. split.
  - intros Hset H3 Hr. rewrite Hd1, second_date_set by assumption.
    split; [reflexivity|]. intros Hpos. apply Z.quot_div_nonneg; lia.
  - intros Hunset Hr. rewrite Hd1. apply second_date_unset; assumption.
Qed.

Lemma Render_second_date_witness :
  (exists o0 o1,
     Render (sample_bob 40000) (sample_frame 80000)
            (two_pictures 1 sample_half 2 sample_half [])
     = Done {| sys_after := filter_state DEINTERLACE_BOB true 80000;
               events := repeat msleep_OUTMEM 1 ++ repeat msleep_OUTMEM 2
                           ++ [vout_DisplayPicture o0; vout_DisplayPicture o1];
               polls_left := [] |} /\
     date o0 = 80000 /\ date o1 = 100000)
  /\ (exists o0 o1,
        Render (sample_bob 0) (sample_frame 80000)
               (two_pictures 0 sample_half 0 sample_half [])
        = Done {| sys_after := filter_state DEINTERLACE_BOB true 80000;
                  events := repeat msleep_OUTMEM 0 ++ repeat msleep_OUTMEM 0
                              ++ [vout_DisplayPicture o0; vout_DisplayPicture o1];
                  polls_left := [] |} /\
        date o0 = 80000 /\ date o1 = 100000).
Proof.
  split.
  - destruct (Render_second_date (sample_bob 40000) (sample_frame 80000)
                1 sample_half 2 sample_half [] eq_refl
                (sample_renderable 40000 80000) (sample_renderable 40000 80000))
      as (o0 & o1 & E & Hd0 & Hset & _).
    exists o0, o1. split; [exact E|]. split; [exact Hd0|].
    apply Hset; cbn; unfold is_mtime; lia.
  - destruct (Render_second_date (sample_bob 0) (sample_frame 80000)
                0 sample_half 0 sample_half [] eq_refl
                (sample_renderable 0 80000) (sample_renderable 0 80000))
      as (o0 & o1 & E & Hd0 & _ & Hunset).
    exists o0, o1. split; [exact E|]. split; [exact Hd0|].
    apply Hunset; cbn; unfold is_mtime; lia.
Defined.

(** C3, as stated, fails. After a frame dated 4, the second picture of a
    frame dated 1 is dated 0, not the floor quotient [(3*1 - 4) / 2 = -1];
    and after a frame dated 0, the second picture of a frame dated 100 is
    dated 20100, not [(3*100 - 0) / 2 = 150]. *)
Lemma Render_second_date_not_floor :
  (exists sys evs,
     Render_frames (sample_bob 0) [sample_ready 4; sample_ready 1]
     = Done (sys, evs) /\
     displayed_dates evs = [4; 20004; 1; 0] /\
     last_date sys = 1 /\
     nth 3 (displayed_dates evs) 0 <> (3 * 1 - 4) / 2)
  /\ (exists sys evs,
        Render_frames (sample_bob 0) [sample_ready 0; sample_ready 100]
        = Done (sys, evs) /\
        displayed_dates evs = [0; 20000; 100; 20100] /\
        nth 3 (displayed_dates evs) 0 <> (3 * 100 - 0) / 2).
Proof.
  split; eexists; eexists; (split; [vm_compute; reflexivity|]);
    repeat split; discriminate.
Qed.

(** C4 (amended). Take double-rate frames rendered from the initial state
    (stored date zero), with positive input dates below [2^63 / 3], where
    the second frame comes more than 20000 after the first and each later
    interval is longer than half (rounded down) of the interval before it.
    Then the dates of the pictures displayed, first then second picture of
    each frame in order, are strictly increasing, and the second picture
    of the first frame is dated that frame's date plus 20000. *)
Theorem double_rate_dates_increasing (p_vout : vout_thread_t)
        (frames : list (picture_t * list poll)) (c : Z) (cs : list Z) :
  b_double_rate (p_sys p_vout) = true ->
  last_date (p_sys p_vout) = 0 ->
  Forall (frame_ready p_vout) frames ->
  frame_dates frames = c :: cs ->
  0 < c -> Forall (fun d => 3 * d < 2 ^ 63) (c :: cs) ->
  paced 20000 c cs ->
  exists sys evs,
    Render_frames p_vout frames = Done (sys, evs) /\
    displayed_dates evs = dates_from 20000 (c :: cs) /\
    Sorted Z.lt (displayed_dates evs) /\
    nth 1 (displayed_dates evs) 0 = c + 20000.
Proof.
  intros Hd Hlast Hready Hdates Hc Hrange Hpaced.
  destruct (Render_frames_scheduled frames p_vout Hd Hready)
    as (sys & evs & E & Hevs).
  exists sys, evs. split; [exact E|].
  rewrite Hlast, Hdates in Hevs.
  rewrite (scheduled_paced cs 0 c 20000) in Hevs; try assumption; try lia.
  - rewrite Hevs. split; [reflexivity|]. split.
    + apply dates_from_sorted; [lia | assumption].
    + reflexivity.
  - apply second_date_of_first; [assumption|].
    apply (Forall_inv Hrange).
Qed.

Lemma double_rate_dates_increasing_witness :
  exists sys evs,
    Render_frames (sample_bob 0)
                  [sample_ready 100000; sample_ready 140000; sample_ready 180001]
    = Done (sys, evs) /\
    displayed_dates evs = [100000; 120000; 140000; 160000; 180001; 200001] /\
    Sorted Z.lt (displayed_dates evs) /\
    nth 1 (displayed_dates evs) 0 = 100000 + 20000.
Proof.
  apply (double_rate_dates_increasing (sample_bob 0)
           [sample_ready 100000; sample_ready 140000; sample_ready 180001]
           100000 [140000; 180001] eq_refl eq_refl).
  - repeat constructor; apply sample_frame_ready.
  - reflexivity.
  - lia.
  - repeat constructor; lia.
  - cbn. lia.
Defined.

(** C4, as stated, fails. Frames dated 1000 and 2000, strictly increasing,
    are displayed with the dates 1000, 21000, 2000, 2500; frames dated
    100000, 200000 and 240000 with the dates 100000, 120000, 200000,
    250000, 240000, 260000. *)
Lemma double_rate_dates_not_increasing :
  (exists sys evs,
     Render_frames (sample_bob 0) [sample_ready 1000; sample_ready 2000]
     = Done (sys, evs) /\
     Sorted Z.lt (frame_dates [sample_ready 1000; sample_ready 2000]) /\
     displayed_dates evs = [1000; 21000; 2000; 2500] /\
     ~ Sorted Z.lt (displayed_dates evs))
  /\ (exists sys evs,
        Render_frames (sample_bob 0)
                      [sample_ready 100000; sample_ready 200000;
                       sample_ready 240000]
        = Done (sys, evs) /\
        Sorted Z.lt (frame_dates [sample_ready 100000; sample_ready 200000;
                                  sample_ready 240000]) /\
        displayed_dates evs = [100000; 120000; 200000; 250000; 240000; 260000] /\
        ~ Sorted Z.lt (displayed_dates evs)).
Proof.
  split.
  - eexists; eexists. split; [vm_compute; reflexivity|]. split; [|split].
    + cbn. repeat constructor.
    + reflexivity.
    + cbn. intros H. inversion H as [|a l Hs Hh]; subst.
      inversion Hs as [|a' l' Hs' Hh']; subst.
      inversion Hh' as [|b l'' Hlt]; subst. lia.
  - eexists; eexists. split; [vm_compute; reflexivity|]. split; [|split].
    + cbn. repeat constructor.
    + reflexivity.
    + cbn. intros H. inversion H as [|a1 l1 Hs1 _]; subst.
      inversion Hs1 as [|a2 l2 Hs2 _]; subst.
      inversion Hs2 as [|a3 l3 Hs3 _]; subst.
      inversion Hs3 as [|a4 l4 _ Hh]; subst.
      inversion Hh as [|b l'' Hlt]; subst. lia.
Qed.

(** C10. The stored previous date is zero in the state [Create] builds, and
    [Render] takes a stored date for "no previous date" exactly when it is
    zero: a double-rate frame dated [C] rendered with the stored date [P]
    has its second picture dated [C + 20000] if [P = 0] and the
    extrapolation [(3*C - P) / 2] if [P <> 0]. A frame dated 0 leaves the
    stored date 0, the state of a filter that has seen no frame, so that
    the frame after it has its second picture dated [C + 20000], which is
    not the extrapolation [(3*C - 0) / 2] (unless [C] is 40000 or 40001).
    The formulas are exact as long as [C + 20000], [3*C] and [3*C - P] are
    in the range of [mtime_t]. *)
Theorem zero_date_reads_as_unset (p_vout : vout_thread_t)
        (f0 f1 : picture_t * list poll) :
  b_double_rate (p_sys p_vout) = true ->
  frame_ready p_vout f0 -> frame_ready p_vout f1 ->
  date (fst f0) = 0 ->
  is_mtime (date (fst f1) + 20000) ->
  (forall malloc_ok cfg code sys log,
      Create malloc_ok cfg = (code, Some sys, log) -> last_date sys = 0)
  /\ (exists r1,
        Render p_vout (fst f1) (snd f1) = Done r1 /\
        (last_date (p_sys p_vout) = 0 ->
         displayed_dates (events r1)
         = [date (fst f1); date (fst f1) + 20000]) /\
        (last_date (p_sys p_vout) <> 0 ->
         is_mtime (3 * date (fst f1)) ->
         is_mtime (3 * date (fst f1) - last_date (p_sys p_vout)) ->
         displayed_dates (events r1)
         = [date (fst f1);
            Z.quot (3 * date (fst f1) - last_date (p_sys p_vout)) 2]))
  /\ (exists r0,
        Render p_vout (fst f0) (snd f0) = Done r0 /\
        sys_after r0 = {| i_mode := i_mode (p_sys p_vout);
                          b_double_rate := true;
                          last_date := 0 |} /\
        (last_date (p_sys p_vout) = 0 -> sys_after r0 = p_sys p_vout))
  /\ (exists sys evs,
        Render_frames p_vout [f0; f1] = Done (sys, evs) /\
        displayed_dates evs
        = [0;
           if last_date (p_sys p_vout) =? 0 then 20000
           else Z.quot (wrap64 (- last_date (p_sys p_vout))) 2;
           date (fst f1); date (fst f1) + 20000])
  /\ (date (fst f1) <> 40000 -> date (fst f1) <> 40001 ->
      date (fst f1) + 20000 <> Z.quot (3 * date (fst f1) - 0) 2).
Proof.
  intros Hd Hf0 Hf1 Hzero Hr. split; [|split; [|split; [|split]]].
  - intros malloc_ok cfg code sys log. unfold Create.
    destruct malloc_ok; cbn [negb]; [|discriminate].
    destruct cfg as [m|]; [|intros [= _ <- _]; reflexivity].
    repeat match goal with
           | |- context [if ?b then _ else _] => destruct b
           end; intros [= _ <- _]; reflexivity.
  - destruct (Render_ready p_vout f1 Hd Hf1) as (r1 & E & _ & Hdates).
    exists r1. split; [exact E|]. rewrite Hdates. split.
    + intros Hunset. rewrite second_date_unset by assumption. reflexivity.
    + intros Hset H3 H3P. rewrite second_date_set by assumption. reflexivity.
  - destruct (Render_ready p_vout f0 Hd Hf0) as (r0 & E & Hsys & _).
    exists r0. split; [exact E|]. rewrite Hsys, Hzero. split; [reflexivity|].
    intros Hl. destruct (p_sys p_vout) as [m b l]. cbn in *. subst. reflexivity.
  - destruct (Render_frames_scheduled [f0; f1] p_vout Hd
                (Forall_cons _ Hf0 (Forall_cons _ Hf1 (Forall_nil _))))
      as (sys & evs & E & Hevs).
    exists sys, evs.
    split; [exact E|]. rewrite Hevs. cbn [frame_dates map scheduled].
    rewrite Hzero. unfold second_date_of. cbn [Z.eqb].
    rewrite (wrap64_id (date (fst f1) + 20000)) by assumption.
    replace (wrap64 (3 * 0)) with 0 by reflexivity.
    replace (wrap64 (0 + 20000)) with 20000 by reflexivity.
    reflexivity.
  - intros H1 H2 H. rewrite Z.sub_0_r in H.
    pose proof (Z.quot_rem' (3 * date (fst f1)) 2) as Hq.
    pose proof (Z.rem_bound_abs (3 * date (fst f1)) 2 ltac:(lia)) as Habs.
    destruct (Z.le_gt_cases 0 (3 * date (fst f1))) as [Hpos|Hneg].
    + pose proof (Z.rem_nonneg (3 * date (fst f1)) 2 ltac:(lia) Hpos). lia.
    + lia.
Qed.

Lemma zero_date_reads_as_unset_witness :
  last_date (filter_state DEINTERLACE_BOB true 0) = 0
  /\ (exists r1,
        Render (sample_bob 40000) (fst (sample_ready 100)) (snd (sample_ready 100))
        = Done r1 /\
        displayed_dates (events r1) = [100; -19850])
  /\ (exists sys evs,
        Render_frames (sample_bob 40000) [sample_ready 0; sample_ready 100]
        = Done (sys, evs) /\
        displayed_dates evs = [0; -20000; 100; 20100])
  /\ 100 + 20000 <> Z.quot (3 * 100 - 0) 2.
Proof.
  destruct (zero_date_reads_as_unset (sample_bob 40000)
              (sample_ready 0) (sample_ready 100) eq_refl
              (sample_frame_ready 40000 0) (sample_frame_ready 40000 100)
              eq_refl)
    as (Hcreate & (r1 & E1 & _ & Hset) & _ & Hrun & Hdiff).
  - cbn. unfold is_mtime. lia.
  - split; [|split; [|split]].
    + exact (Hcreate true (Some "bob"%string) 0
               (filter_state DEINTERLACE_BOB true 0) [] eq_refl).
    + exists r1. split; [exact E1|].
      apply Hset; [discriminate | |]; cbn; unfold is_mtime; lia.
    + exact Hrun.
    + apply Hdiff; cbn; lia.
Defined.

(** ** Cancellation *)

Lemma no_display_in_sleeps (k : nat) (pic : picture_t) :
  ~ In (vout_DisplayPicture pic) (repeat msleep_OUTMEM k).
Proof. intros H. apply repeat_spec in H. discriminate. Qed.

(** C9. In double-rate mode, when [b_die] or [b_error] is found set while
    [Render] polls for the second picture, the first having been acquired,
    [Render] hands the first picture to [vout_DestroyPicture] and returns:
    no picture is displayed and the state is unchanged. In every mode the
    flags are read at each iteration of an acquisition loop: whatever the
    number of polls already made, [Render] returns at the first one that
    finds a flag set, having only slept. *)
Theorem Render_cancelled (p_vout : vout_thread_t) (p_pic : picture_t)
        (b_die b_error : bool) (rest : list poll) :
  b_die || b_error = true ->
  (forall k0 out0 k1,
      b_double_rate (p_sys p_vout) = true ->
      exists r,
        Render p_vout p_pic
               (repeat (no_picture false false) k0 ++ picture_ready out0
                  :: repeat (no_picture false false) k1
                  ++ no_picture b_die b_error :: rest)
        = Done r /\
        r = {| sys_after := p_sys p_vout;
               events := repeat msleep_OUTMEM k0 ++ repeat msleep_OUTMEM k1
                           ++ [vout_DestroyPicture
                                 (vout_DatePicture out0 (date p_pic))];
               polls_left := rest |} /\
        forall pic, ~ In (vout_DisplayPicture pic) (events r))
  /\ (forall k,
        Render p_vout p_pic
               (repeat (no_picture false false) k
                  ++ no_picture b_die b_error :: rest)
        = Done {| sys_after := p_sys p_vout;
                  events := repeat msleep_OUTMEM k;
                  polls_left := rest |}).
Proof.
  intros Hflag. split.
  - intros k0 out0 k1 Hd. eexists. split; [|split; [reflexivity|]].
    + unfold Render. rewrite wait_picture_ready. cbn [bind]. rewrite Hd.
      rewrite wait_picture_cancelled by assumption. reflexivity.
    + cbn [events]. intros pic H.
      apply in_app_or in H. destruct H as [H|H];
        [exact (no_display_in_sleeps _ _ H)|].
      apply in_app_or in H. destruct H as [H|H];
        [exact (no_display_in_sleeps _ _ H)|].
      destruct H as [H|[]]. discriminate.
  - intros k. unfold Render.
    rewrite wait_picture_cancelled by assumption. reflexivity.
Qed.

Lemma Render_cancelled_witness :
  (exists r,
     Render (sample_bob 0) (sample_frame 7)
            (repeat (no_picture false false) 1 ++ picture_ready sample_half
               :: repeat (no_picture false false) 2
               ++ no_picture false true :: [])
     = Done r /\
     events r = repeat msleep_OUTMEM 1 ++ repeat msleep_OUTMEM 2
                  ++ [vout_DestroyPicture (vout_DatePicture sample_half 7)])
  /\ Render (sample_bob 0) (sample_frame 7)
            (repeat (no_picture false false) 3 ++ no_picture true false :: [])
     = Done {| sys_after := filter_state DEINTERLACE_BOB true 0;
               events := repeat msleep_OUTMEM 3;
               polls_left := [] |}.
Proof.
  split.
  - destruct (proj1 (Render_cancelled (sample_bob 0) (sample_frame 7) false true []
                       eq_refl) 1%nat sample_half 2%nat eq_refl)
      as (r & E & Hr & _).
    exists r. split; [exact E|]. rewrite Hr. reflexivity.
  - exact (proj2 (Render_cancelled (sample_bob 0) (sample_frame 7) true false []
                    eq_refl) 3%nat).
Defined.

(** ** Create and Init *)

Lemma eqb_other (m n : String.string) : m <> n -> String.eqb m n = false.
Proof. intros H. apply String.eqb_neq. assumption. Qed.

(** C5. [Create] maps "discard" to Discard, "mean" to Mean, "blend",
    "average" and "combine-fields" to Blend, "bob" and "progressive-scan"
    to Bob and "linear" to Linear. Any other string, and the absence of a
    string, give Discard: [Create] then logs a message and still returns 0,
    the value of success. The double-rate flag it sets is true exactly
    when the mode is Bob or Linear. *)
Theorem Create_selects_mode :
  Create true (Some "discard"%string)
  = (0, Some (filter_state DEINTERLACE_DISCARD false 0), [])
  /\ Create true (Some "mean"%string)
     = (0, Some (filter_state DEINTERLACE_MEAN false 0), [])
  /\ Create true (Some "blend"%string)
     = (0, Some (filter_state DEINTERLACE_BLEND false 0), [])
  /\ Create true (Some "average"%string)
     = (0, Some (filter_state DEINTERLACE_BLEND false 0), [])
  /\ Create true (Some "combine-fields"%string)
     = (0, Some (filter_state DEINTERLACE_BLEND false 0), [])
  /\ Create true (Some "bob"%string)
     = (0, Some (filter_state DEINTERLACE_BOB true 0), [])
  /\ Create true (Some "progressive-scan"%string)
     = (0, Some (filter_state DEINTERLACE_BOB true 0), [])
  /\ Create true (Some "linear"%string)
     = (0, Some (filter_state DEINTERLACE_LINEAR true 0), [])
  /\ (forall m, ~ In m mode_names ->
        Create true (Some m)
        = (0, Some (filter_state DEINTERLACE_DISCARD false 0),
           [msg_Err ("no valid deinterlace mode provided, using "
                       ++ quoted "discard")%string]))
  /\ Create true None
     = (0, Some (filter_state DEINTERLACE_DISCARD false 0),
        [msg_Err "configuration variable deinterlace-mode empty";
         msg_Err ("no deinterlace mode provided, using "
                    ++ quoted "discard")%string])
  /\ (forall cfg code sys log,
        Create true cfg = (code, Some sys, log) ->
        code = 0 /\
        (b_double_rate sys = true <->
         i_mode sys = DEINTERLACE_BOB \/ i_mode sys = DEINTERLACE_LINEAR)).
Proof.
  repeat (split; [reflexivity|]). split; [|split; [reflexivity|]].
  - intros m Hm. unfold Create. cbn [negb].
    unfold mode_names in Hm. cbn [In] in Hm.
    rewrite !eqb_other by (intros ->; tauto). reflexivity.
  - intros cfg code sys log. unfold Create. cbn [negb].
    destruct cfg as [m|].
    + repeat match goal with
             | |- context [if ?b then _ else _] => destruct b
             end; intros [= <- <- _]; cbn;
        (split; [reflexivity|]); split; intros H;
        try discriminate; try (destruct H; discriminate); auto.
    + intros [= <- <- _]. cbn. split; [reflexivity|].
      split; intros H; try discriminate; destruct H; discriminate.
Qed.

Lemma Create_selects_mode_witness :
  Create true (Some "bobby"%string)
  = (0, Some (filter_state DEINTERLACE_DISCARD false 0),
     [msg_Err ("no valid deinterlace mode provided, using "
                 ++ quoted "discard")%string])
  /\ (b_double_rate (filter_state DEINTERLACE_LINEAR true 0) = true <->
      i_mode (filter_state DEINTERLACE_LINEAR true 0) = DEINTERLACE_BOB \/
      i_mode (filter_state DEINTERLACE_LINEAR true 0) = DEINTERLACE_LINEAR).
Proof.
  destruct Create_selects_mode
    as (_ & _ & _ & _ & _ & _ & _ & _ & Hother & _ & Hflag).
  split.
  - apply Hother. unfold mode_names. cbn [In].
    intros H. repeat (destruct H as [H|H]; [discriminate H|]). exact H.
  - exact (proj2 (Hflag (Some "linear"%string) 0
                    (filter_state DEINTERLACE_LINEAR true 0) [] eq_refl)).
Defined.

(** C8 (amended). For the 4:2:0 pictures (I420, IYUV, YV12) [Init] asks the
    real output for half the input height when the mode is Discard, Bob or
    Mean, and for the full input height when it is Blend or Linear. For
    I422 pictures it asks for the full input height, and the chroma I420,
    whatever the mode. The request is made by [Init]; [Render] leaves the
    mode and the double-rate flag as they are. *)
Theorem Init_output_height (p_vout : vout_thread_t) (created : bool) :
  (is_420 (render_i_chroma p_vout) = true ->
   i_mode (p_sys p_vout) = DEINTERLACE_DISCARD \/
   i_mode (p_sys p_vout) = DEINTERLACE_BOB \/
   i_mode (p_sys p_vout) = DEINTERLACE_MEAN ->
   Init_requests p_vout created
   = [{| req_width := render_i_width p_vout;
         req_height := Z.quot (render_i_height p_vout) 2;
         req_chroma := render_i_chroma p_vout;
         req_aspect := render_i_aspect p_vout |}] /\
   (0 <= render_i_height p_vout ->
    Z.quot (render_i_height p_vout) 2 = render_i_height p_vout / 2))
  /\ (is_420 (render_i_chroma p_vout) = true ->
      i_mode (p_sys p_vout) = DEINTERLACE_BLEND \/
      i_mode (p_sys p_vout) = DEINTERLACE_LINEAR ->
      Init_requests p_vout created
      = [{| req_width := render_i_width p_vout;
            req_height := render_i_height p_vout;
            req_chroma := render_i_chroma p_vout;
            req_aspect := render_i_aspect p_vout |}])
  /\ (render_i_chroma p_vout = I422 ->
      Init_requests p_vout created
      = [{| req_width := render_i_width p_vout;
            req_height := render_i_height p_vout;
            req_chroma := I420;
            req_aspect := render_i_aspect p_vout |}])
  /\ (forall p_pic env r,
        Render p_vout p_pic env = Done r ->
        i_mode (sys_after r) = i_mode (p_sys p_vout) /\
        b_double_rate (sys_after r) = b_double_rate (p_sys p_vout)).
Proof.
  split; [|split; [|split]].
  - intros Hc Hm. split; [|intros Hh; apply Z.quot_div_nonneg; lia].
    unfold Init_requests, Init, Init_request, with_pictures.
    cbn [p_sys render_i_chroma output_i_height output_i_width output_i_chroma
         output_i_aspect]. rewrite Hc. cbn [orb].
    destruct Hm as [-> | [-> | ->]]; cbn; destruct created; reflexivity.
  - intros Hc Hm.
    unfold Init_requests, Init, Init_request, with_pictures.
    cbn [p_sys render_i_chroma output_i_height output_i_width output_i_chroma
         output_i_aspect]. rewrite Hc. cbn [orb].
    destruct Hm as [-> | ->]; cbn; destruct created; reflexivity.
  - intros Hc.
    unfold Init_requests, Init, Init_request, with_pictures.
    cbn [p_sys render_i_chroma output_i_height output_i_width output_i_chroma
         output_i_aspect]. rewrite Hc.
    change (is_420 I422) with false. change (String.eqb I422 I422) with true.
    cbn [orb]. destruct created; reflexivity.
  - intros p_pic env r. unfold Render.
    destruct (wait_picture env) as [[[got0 evs0] env1]| |]; cbn [bind];
      try discriminate.
    destruct got0 as [out0|]; [|intros [= <-]; split; reflexivity].
    destruct (b_double_rate (p_sys p_vout)) eqn:Hd.
    + destruct (wait_picture env1) as [[[got1 evs1] env2]| |]; cbn [bind];
        try discriminate.
      destruct got1 as [out1|]; [|intros [= <-]; cbn; auto].
      destruct (Render_switch _ _ _ _); cbn [bind]; try discriminate.
      intros [= <-]. cbn. auto.
    + destruct (Render_switch _ _ _ _); cbn [bind]; try discriminate.
      intros [= <-]. cbn. auto.
Qed.

Lemma Init_output_height_witness :
  Init_requests (sample_vout (filter_state DEINTERLACE_MEAN false 0)) true
  = [{| req_width := 2; req_height := 2; req_chroma := I420; req_aspect := 1 |}]
  /\ Init_requests (sample_vout (filter_state DEINTERLACE_LINEAR true 0)) true
     = [{| req_width := 2; req_height := 4; req_chroma := I420; req_aspect := 1 |}]
  /\ Init_requests (sample_422 DEINTERLACE_BOB) true
     = [{| req_width := 2; req_height := 4; req_chroma := I420; req_aspect := 1 |}]
  /\ (exists r,
        Render (sample_vout (filter_state DEINTERLACE_MEAN false 0))
               (sample_frame 7) [picture_ready sample_half] = Done r /\
        i_mode (sys_after r) = DEINTERLACE_MEAN).
Proof.
  split; [|split; [|split]].
  - exact (proj1 (proj1 (Init_output_height
                           (sample_vout (filter_state DEINTERLACE_MEAN false 0)) true)
                        eq_refl (or_intror (or_intror eq_refl)))).
  - exact (proj1 (proj2 (Init_output_height
                           (sample_vout (filter_state DEINTERLACE_LINEAR true 0)) true))
                 eq_refl (or_intror eq_refl)).
  - exact (proj1 (proj2 (proj2 (Init_output_height
                                  (sample_422 DEINTERLACE_BOB) true)))
                 eq_refl).
  - assert (E : exists r,
               Render (sample_vout (filter_state DEINTERLACE_MEAN false 0))
                      (sample_frame 7) [picture_ready sample_half] = Done r)
      by (eexists; reflexivity).
    destruct E as (r & E). exists r. split; [exact E|].
    exact (proj1 (proj2 (proj2 (proj2 (Init_output_height
                    (sample_vout (filter_state DEINTERLACE_MEAN false 0)) true)))
                        (sample_frame 7) [picture_ready sample_half] r E)).
Defined.

(** C8, as stated, fails on I422, a pixel format [Init] supports: in
    Discard mode the height asked for is the full input height, 4, not its
    half. *)
Lemma Init_I422_full_height :
  exists r,
    Init (sample_422 DEINTERLACE_DISCARD) true
    = (0, sample_422 DEINTERLACE_DISCARD, [r],
       [msg_Dbg "spawning the real video output"]) /\
    req_height r = render_i_height (sample_422 DEINTERLACE_DISCARD) /\
    req_height r <> render_i_height (sample_422 DEINTERLACE_DISCARD) / 2.
Proof.
  eexists. split; [reflexivity|]. split; [reflexivity | discriminate].
Qed.

(** ** Sample runs *)

(** The sample frame has the rows [0 1], [4 9], [16 25], [36 49]. *)
Example sample_frame_rows :
  map rows (p (sample_frame 7)) = [[[0; 1]; [4; 9]; [16; 25]; [36; 49]]].
Proof. reflexivity. Qed.

Example RenderBob_top_sample :
  rendered_rows (RenderBob (sample_bob 0) sample_half (sample_frame 7) 0)
  = [[[0; 1]; [16; 25]]].
Proof. reflexivity. Qed.

Example RenderBob_bottom_sample :
  rendered_rows (RenderBob (sample_bob 0) sample_half (sample_frame 7) 1)
  = [[[4; 9]; [36; 49]]].
Proof. reflexivity. Qed.

Example RenderMean_sample :
  rendered_rows (RenderMean (sample_bob 0) sample_half (sample_frame 7))
  = [[[2; 5]; [26; 37]]].
Proof. reflexivity. Qed.

Example RenderBlend_sample :
  rendered_rows (RenderBlend (sample_bob 0) sample_full (sample_frame 7))
  = [[[0; 1]; [2; 5]; [10; 17]; [26; 37]]].
Proof. reflexivity. Qed.

Example RenderLinear_top_sample :
  rendered_rows (RenderLinear (sample_bob 0) sample_full (sample_frame 7) 0)
  = [[[0; 1]; [8; 13]; [16; 25]; [36; 49]]].
Proof. reflexivity. Qed.

Example RenderLinear_bottom_sample :
  rendered_rows (RenderLinear (sample_bob 0) sample_full (sample_frame 7) 1)
  = [[[0; 1]; [4; 9]; [20; 29]; [36; 49]]].
Proof. reflexivity. Qed.

(** On the luma plane of an I422 picture [RenderBob] writes each row of the
    field twice. *)
Example RenderBob_422_luma_sample :
  rendered_rows (RenderBob (sample_422 DEINTERLACE_BOB) sample_full
                           (sample_frame 7) 1)
  = [[[4; 9]; [4; 9]; [36; 49]; [36; 49]]].
Proof. reflexivity. Qed.

(** A wait that the sink never answers does not return. *)
Example wait_picture_starved :
  wait_picture (repeat (no_picture false false) 5) = Starved.
Proof. reflexivity. Qed.

(** * Further properties *)

(** ** Merge as its callers see it *)

Lemma get_merge_bytes (a b : list Z) (i : Z) :
  len a = len b -> 0 <= i < len a ->
  get (merge_bytes a b) i = merge_byte (get a i) (get b i).
Proof.
  unfold len, get. intros Hl Hi.
  assert (Hnat : (Z.to_nat i < List.length a)%nat) by lia.
  clear Hi. revert b Hl Hnat. generalize (Z.to_nat i) as k.
  induction a as [|x a IH]; intros k [|y b] Hl Hk; simpl in *; try lia.
  destruct k as [|k]; [reflexivity|]. apply IH; lia.
Qed.

Lemma Merge_run_get (dest : list Z) (pd : Z) (s1 : list Z) (p1 : Z)
      (s2 : list Z) (p2 : Z) (n i : Z) :
  0 <= pd -> pd + n <= len dest ->
  0 <= p1 -> p1 + n <= len s1 ->
  0 <= p2 -> p2 + n <= len s2 ->
  0 <= i < n ->
  get (blit dest pd (merge_bytes (sub s1 p1 n) (sub s2 p2 n))) (pd + i)
  = merge_byte (get s1 (p1 + i)) (get s2 (p2 + i)).
Proof.
  intros Hd0 Hd1 H10 H11 H20 H21 Hi.
  assert (Hl : len (merge_bytes (sub s1 p1 n) (sub s2 p2 n)) = n)
    by (rewrite len_merge_bytes; rewrite !len_sub; lia).
  rewrite get_blit by lia. rewrite Hl.
  destruct (Z.leb_spec pd (pd + i)); [|lia].
  destruct (Z.ltb_spec (pd + i) (pd + n)); [|lia]. cbn [andb].
  replace (pd + i - pd) with i by lia.
  rewrite get_merge_bytes by (rewrite !len_sub; lia).
  rewrite !get_sub by lia. reflexivity.
Qed.

(** [Merge] on runs inside larger buffers: it returns, the [i_bytes] bytes
    at [p_dest] hold the merged bytes of the runs at [p_s1] and [p_s2], and
    every other byte of the destination is as it was. *)
Theorem Merge_writes_only_its_run (dest : list Z) (pd : Z) (s1 : list Z)
        (p1 : Z) (s2 : list Z) (p2 : Z) (n : Z) :
  0 <= n ->
  0 <= pd -> pd + n <= len dest ->
  0 <= p1 -> p1 + n <= len s1 ->
  0 <= p2 -> p2 + n <= len s2 ->
  exists r,
    Merge dest pd s1 p1 s2 p2 n = Done r /\
    len r = len dest /\
    (forall i, 0 <= i < n ->
       get r (pd + i) = merge_byte (get s1 (p1 + i)) (get s2 (p2 + i))) /\
    (forall i, 0 <= i < len dest -> i < pd \/ pd + n <= i ->
       get r i = get dest i).
Proof.
  intros Hn Hd0 Hd1 H10 H11 H20 H21.
  assert (Hl : len (merge_bytes (sub s1 p1 n) (sub s2 p2 n)) = n)
    by (rewrite len_merge_bytes; rewrite !len_sub; lia).
  eexists. split; [apply Merge_spec; lia|].
  split; [apply len_blit; lia|]. split.
  - intros i Hi. apply Merge_run_get; assumption.
  - intros i Hi Hout. rewrite get_blit by lia. rewrite Hl.
    destruct (Z.leb_spec pd i); [|reflexivity].
    destruct (Z.ltb_spec i (pd + n)); [lia | reflexivity].
Qed.

Lemma Merge_writes_only_its_run_witness :
  exists r,
    Merge [1; 2; 3; 4; 5] 1 [10; 20; 30; 40] 2 [7; 8; 9] 0 2 = Done r /\
    len r = 5.
Proof.
  destruct (Merge_writes_only_its_run [1; 2; 3; 4; 5] 1 [10; 20; 30; 40] 2
              [7; 8; 9] 0 2)
    as (r & E & Hl & _); try (unfold len; cbn; lia).
  exists r. split; assumption.
Defined.

(** ** Merge is symmetric *)

Lemma while_simulation {S T : Type} (f : S -> T)
      (cond1 : S -> bool) (body1 : S -> outcome S)
      (cond2 : T -> bool) (body2 : T -> outcome T) :
  (forall s, cond2 (f s) = cond1 s) ->
  (forall s, body2 (f s) = omap f (body1 s)) ->
  forall fuel s,
    while fuel cond2 body2 (f s) = omap f (while fuel cond1 body1 s).
Proof.
  intros Hc Hb. induction fuel as [|fuel IH]; intros s; simpl; rewrite Hc.
  - destruct (cond1 s); reflexivity.
  - destruct (cond1 s); [|reflexivity].
    rewrite Hb. destruct (body1 s) as [s'| |]; simpl; auto.
Qed.

Lemma load_returns (buf : list Z) (i : Z) : load buf i <> Starved.
Proof. unfold load. destruct (in_range buf i 1); discriminate. Qed.

Lemma merge_one_swap (s1 s2 : list Z) (st : merge_state) :
  merge_one s2 s1 (swap_sources st) = omap swap_sources (merge_one s1 s2 st).
Proof.
  unfold merge_one, swap_sources. cbn [p_dest p_s1 p_s2 dest_mem].
  pose proof (load_returns s1 (p_s1 st)) as N1.
  pose proof (load_returns s2 (p_s2 st)) as N2.
  destruct (load s1 (p_s1 st)) as [a| |];
    destruct (load s2 (p_s2 st)) as [b| |]; cbn [bind omap];
    try reflexivity; try (exfalso; congruence).
  rewrite (Z.add_comm (u16 b) (u16 a)).
  destruct (store _ _ _); reflexivity.
Qed.

Lemma bind_omap {A B : Type} (f : A -> A) (m : outcome A) (k : A -> outcome B) :
  bind (omap f m) k = bind m (fun a => k (f a)).
Proof. destruct m; reflexivity. Qed.

Lemma merge_eight_swap (s1 s2 : list Z) (st : merge_state) :
  merge_eight s2 s1 (swap_sources st) = omap swap_sources (merge_eight s1 s2 st).
Proof.
  unfold merge_eight.
  repeat (rewrite merge_one_swap, bind_omap;
          destruct (merge_one s1 s2 _) as [?st| |]; cbn [bind omap];
          try reflexivity).
  apply merge_one_swap.
Qed.

(** Exchanging the two sources of [Merge] changes nothing, whatever the
    buffers and pointers: the same bytes are written, and an access outside
    a buffer with one order is one with the other. *)
Theorem Merge_symmetric (dest : list Z) (pd : Z) (s1 : list Z) (p1 : Z)
        (s2 : list Z) (p2 : Z) (n : Z) :
  Merge dest pd s2 p2 s1 p1 n = Merge dest pd s1 p1 s2 p2 n.
Proof.
  unfold Merge, Merge_unrolled, Merge_tail.
  change {| p_dest := pd; p_s1 := p2; p_s2 := p1; dest_mem := dest |}
    with (swap_sources {| p_dest := pd; p_s1 := p1; p_s2 := p2; dest_mem := dest |}).
  rewrite (while_simulation swap_sources (below (pd + n - 8)) (merge_eight s1 s2)
             (below (pd + n - 8)) (merge_eight s2 s1)
             (fun _ => eq_refl) (merge_eight_swap s1 s2)).
  destruct (while _ _ (merge_eight s1 s2) _) as [st1| |]; cbn [bind omap];
    try reflexivity.
  rewrite (while_simulation swap_sources (below (pd + n - 8 + 8)) (merge_one s1 s2)
             (below (pd + n - 8 + 8)) (merge_one s2 s1)
             (fun _ => eq_refl) (merge_one_swap s1 s2)).
  destruct (while _ _ (merge_one s1 s2) _) as [st2| |]; reflexivity.
Qed.

(** ** Merge stays between its sources *)

Lemma merge_byte_between (x y : Z) :
  is_byte x -> is_byte y ->
  Z.min x y <= merge_byte x y <= Z.max x y /\ is_byte (merge_byte x y).
Proof.
  intros Hx Hy. destruct (merge_byte_mean x y Hx Hy) as (_ & _ & ->).
  unfold is_byte in *.
  pose proof (Z.div_mod (x + y) 2 ltac:(lia)) as Hdm.
  pose proof (Z.mod_pos_bound (x + y) 2 ltac:(lia)) as Hm. lia.
Qed.

Lemma mean_bytes_same (a : list Z) : mean_bytes a a = a.
Proof.
  induction a as [|x a IH]; [reflexivity|]. cbn [mean_bytes].
  rewrite IH. f_equal. replace (x + x) with (x * 2) by lia.
  apply Z.div_mul. lia.
Qed.

(** On byte runs of the length of the destination, every byte [Merge]
    writes is a byte value between the two source bytes it comes from, and
    merging a run with itself gives the run back. *)
Theorem Merge_between_sources (dest a b : list Z) (n : Z) :
  len a = n -> len b = n -> len dest = n ->
  Forall is_byte a -> Forall is_byte b ->
  exists r,
    Merge dest 0 a 0 b 0 n = Done r /\
    len r = n /\
    (forall i, 0 <= i < n ->
       Z.min (get a i) (get b i) <= get r i <= Z.max (get a i) (get b i) /\
       is_byte (get r i)) /\
    (a = b -> r = a).
Proof.
  intros Ha Hb Hd Fa Fb.
  assert (Hn : 0 <= n) by (unfold len in Ha; lia).
  eexists. split; [apply Merge_spec; lia|].
  assert (Hl : len (merge_bytes (sub a 0 n) (sub b 0 n)) = n)
    by (rewrite len_merge_bytes; rewrite !len_sub; lia).
  split; [rewrite len_blit; lia|]. split.
  - intros i Hi.
    pose proof (Merge_run_get dest 0 a 0 b 0 n i) as Hin.
    cbn [Z.add] in Hin. rewrite Hin by lia.
    apply merge_byte_between; apply Forall_get; try assumption; lia.
  - intros <-.
    rewrite <- Ha at 1 2. rewrite !sub_all.
    rewrite blit_all by (rewrite len_merge_bytes; congruence).
    rewrite merge_bytes_mean by assumption. apply mean_bytes_same.
Qed.

Lemma Merge_between_sources_witness :
  exists r,
    Merge [0; 0; 0] 0 [255; 3; 7] 0 [255; 3; 7] 0 3 = Done r /\ r = [255; 3; 7].
Proof.
  destruct (Merge_between_sources [0; 0; 0] [255; 3; 7] [255; 3; 7] 3
              eq_refl eq_refl eq_refl
              (bytes_checked [255; 3; 7] eq_refl)
              (bytes_checked [255; 3; 7] eq_refl))
    as (r & E & _ & _ & Hsame).
  exists r. split; [exact E | exact (Hsame eq_refl)].
Defined.

(** ** RenderMean *)

Section MeanPlane.
Variables (out src : plane_t).
Hypothesis Hgeom : half_height out src.

Let pitch := i_pitch src.

Lemma mean_loop :
  exists st,
    while (Z.to_nat (0 + i_pitch out * i_lines out))
          (out_before (0 + i_pitch out * i_lines out))
          (mean_body src)
          {| p_in := 0; p_out := 0; out_mem := p_pixels out |} = Done st /\
    rows_written (p_pixels out) (out_mem st) pitch (i_lines out) (mean_row src).
Proof.
  destruct Hgeom as ((Hp & Hlo & Hfo) & (_ & Hli & Hfi) & Epitch & Hhalf).
  rewrite Epitch in *. fold pitch in Hp, Hfo, Hfi |- *.
  destruct (while_rule (out_before (0 + pitch * i_lines out))
              (mean_body src)
              (fun s => exists j, 0 <= j <= i_lines out /\
                                  p_out s = j * pitch /\
                                  p_in s = (2 * j) * pitch /\
                                  rows_written (p_pixels out) (out_mem s) pitch j
                                               (mean_row src))
              (fun s => Z.to_nat (pitch * i_lines out - p_out s)))
    with (fuel := Z.to_nat (0 + pitch * i_lines out))
         (s := {| p_in := 0; p_out := 0; out_mem := p_pixels out |})
    as (st & E & (j & Hj & Eo & Ei & Hw) & Hcond).
  - intros s (j & Hj & Eo & Ei & Hw) Hb.
    unfold out_before in Hb. apply Z.ltb_lt in Hb. rewrite Eo in Hb.
    assert (Hjl : j < i_lines out) by nia.
    pose proof Hw as (Hl & _).
    unfold mean_body. fold pitch. rewrite Eo, Ei.
    replace (2 * j * pitch + pitch) with ((2 * j + 1) * pitch) by lia.
    rewrite Merge_rows by nia. cbn [bind].
    eexists. split; [reflexivity|]. split.
    + exists (j + 1). cbn [p_in p_out out_mem].
      split; [lia|]. split; [lia|]. split; [lia|].
      apply rows_written_next;
        [assumption | lia | nia | apply len_merged_rows; nia | reflexivity
         | assumption].
    + cbn [p_in p_out out_mem]. nia.
  - exists 0. cbn [p_in p_out out_mem]. split; [lia|]. split; [lia|].
    split; [lia|]. apply rows_written_start.
  - cbn [p_in p_out out_mem]. lia.
  - exists st. split; [assumption|].
    unfold out_before in Hcond. apply Z.ltb_ge in Hcond. rewrite Eo in Hcond.
    assert (j = i_lines out) by nia. subst j. assumption.
Qed.

Lemma RenderMean_plane_rows (i_plane : Z) :
  exists r, RenderMean_plane i_plane out src = Done r /\ mean_plane out src r.
Proof.
  unfold RenderMean_plane.
  destruct mean_loop as (st & E & Hl & Hrows & Hsuf).
  rewrite E. cbn [bind]. eexists. split; [reflexivity|].
  destruct Hgeom as ((Hp & _ & _) & (_ & _ & Hfi) & Epitch & Hhalf).
  rewrite Epitch in *. fold pitch in Hp, Hfi.
  unfold mean_plane; cbn [with_pixels p_pixels i_pitch i_lines].
  rewrite Epitch. fold pitch.
  split; [reflexivity|]. split; [reflexivity|]. split; [exact Hl|]. split.
  - intros k Hk. rewrite Hrows by lia. unfold mean_row. fold pitch.
    apply merge_bytes_is_Merge. rewrite !len_row; try assumption; nia.
  - exact Hsuf.
Qed.
End MeanPlane.

Lemma RenderMean_each (p_vout : vout_thread_t) (p_outpic p_pic : picture_t) :
  Forall2 half_height (p p_outpic) (p p_pic) ->
  exists shown,
    RenderMean p_vout p_outpic p_pic = Done shown /\
    date shown = date p_outpic /\
    List.length (p shown) = List.length (p p_pic) /\
    forall (n : nat) (out src : plane_t),
      nth_error (p p_outpic) n = Some out ->
      nth_error (p p_pic) n = Some src ->
      exists r, nth_error (p shown) n = Some r /\ mean_plane out src r.
Proof.
  intros Hg. unfold RenderMean.
  destruct (for_planes_each RenderMean_plane half_height mean_plane) with
    (outs := p p_outpic) (ins := p p_pic) (i := 0)
    as (rs & E & Hlen & Hrs).
  - intros i out src Hh. apply RenderMean_plane_rows; assumption.
  - assumption.
  - rewrite E. cbn [bind]. eexists. split; [reflexivity|].
    cbn [date p]. split; [reflexivity|]. split; [assumption|]. exact Hrs.
Qed.

(** On every plane whose destination has the source's pitch and at most
    half its rows, [RenderMean] leaves in each destination row [k] what
    [Merge] makes of source rows [2k] and [2k+1]; it keeps the
    destination's geometry and date and leaves the bytes after its last row
    as they were. *)
Theorem RenderMean_rows (p_vout : vout_thread_t) (p_outpic p_pic : picture_t) :
  Forall2 half_height (p p_outpic) (p p_pic) ->
  exists shown,
    RenderMean p_vout p_outpic p_pic = Done shown /\
    date shown = date p_outpic /\
    List.length (p shown) = List.length (p p_pic) /\
    forall (n : nat) (out src : plane_t),
      nth_error (p p_outpic) n = Some out ->
      nth_error (p p_pic) n = Some src ->
      exists r, nth_error (p shown) n = Some r /\
                i_pitch r = i_pitch out /\ i_lines r = i_lines out /\
                len (p_pixels r) = len (p_pixels out) /\
                (forall k, 0 <= k < i_lines out ->
                   is_Merge_of (row (p_pixels r) (i_pitch r) k)
                               (row (p_pixels src) (i_pitch src) (2 * k))
                               (row (p_pixels src) (i_pitch src) (2 * k + 1))) /\
                from (p_pixels r) (i_lines out * i_pitch out) =
                from (p_pixels out) (i_lines out * i_pitch out).
Proof.
  intros Hg.
  destruct (RenderMean_each p_vout p_outpic p_pic Hg)
    as (shown & E & Hd & Hlen & Hrs).
  exists shown. split; [exact E|]. split; [exact Hd|]. split; [exact Hlen|].
  intros n out src Eo Ei. destruct (Hrs n out src Eo Ei) as (r & Er & Hr).
  exists r. split; [assumption|]. exact Hr.
Qed.

Lemma RenderMean_rows_witness :
  exists shown,
    RenderMean (sample_bob 0) sample_half (sample_frame 7) = Done shown /\
    date shown = 0.
Proof.
  destruct (RenderMean_rows (sample_bob 0) sample_half (sample_frame 7)
              sample_half_height) as (shown & E & Hd & _).
  exists shown. split; assumption.
Defined.

(** ** RenderBob on I422 pictures *)

Lemma for_planes_each_from (body : Z -> plane_t -> plane_t -> outcome plane_t)
      (R : plane_t -> plane_t -> Prop) (Q : plane_t -> plane_t -> plane_t -> Prop)
      (first : Z) :
  (forall i out src, first <= i -> R out src ->
     exists r, body i out src = Done r /\ Q out src r) ->
  forall outs ins i, first <= i -> Forall2 R outs ins ->
  exists rs, for_planes body i outs ins = Done rs /\
             List.length rs = List.length ins /\
             forall (n : nat) out src,
               nth_error outs n = Some out -> nth_error ins n = Some src ->
               exists r, nth_error rs n = Some r /\ Q out src r.
Proof.
  intros Hbody outs ins i Hi H. revert i Hi.
  induction H as [|out src outs ins HR _ IH]; intros i Hi; simpl.
  - exists []. split; [reflexivity|]. split; [reflexivity|].
    intros [|n] out src E; discriminate.
  - destruct (Hbody i out src Hi HR) as (r & Er & Qr). rewrite Er. simpl.
    destruct (IH (i + 1) ltac:(lia)) as (rs & Ers & Hlen & Hrs).
    rewrite Ers. simpl.
    exists (r :: rs). split; [reflexivity|]. split; [simpl; congruence|].
    intros [|n] out' src' Eo Ei; simpl in *.
    + injection Eo as <-. injection Ei as <-. eauto.
    + eauto.
Qed.

Lemma half_double (j : Z) : (2 * j) / 2 = j.
Proof. rewrite Z.mul_comm. apply Z.div_mul. lia. Qed.

Lemma half_double_succ (j : Z) : (2 * j + 1) / 2 = j.
Proof.
  rewrite Z.mul_comm, Z.div_add_l by lia. change (1 / 2) with 0. lia.
Qed.

Section Bob422.
Variables (out src : plane_t) (i_field : Z).
Hypothesis Hfield : i_field = 0 \/ i_field = 1.

Let pitch := i_pitch src.

Lemma bob_422_luma_loop :
  doubled_height out src ->
  exists st,
    while (Z.to_nat (0 + i_pitch out * i_lines out))
          (out_before (0 + i_pitch out * i_lines out))
          (bob_body_422_luma src (2 * i_pitch src))
          {| p_in := i_field * i_pitch src; p_out := 0;
             out_mem := p_pixels out |} = Done st /\
    rows_written (p_pixels out) (out_mem st) pitch (i_lines out)
                 (doubled_row i_field src).
Proof.
  intros ((Hp & Hlo & Hfo) & (_ & Hli & Hfi) & Epitch & Hev & Hle).
  rewrite Epitch in *. fold pitch in Hp, Hfo, Hfi |- *.
  apply Z.even_spec in Hev. destruct Hev as (h & Hh).
  destruct (while_rule (out_before (0 + pitch * i_lines out))
              (bob_body_422_luma src (2 * pitch))
              (fun s => exists j, 0 <= j <= h /\
                                  p_out s = (2 * j) * pitch /\
                                  p_in s = (2 * j + i_field) * pitch /\
                                  rows_written (p_pixels out) (out_mem s) pitch
                                               (2 * j) (doubled_row i_field src))
              (fun s => Z.to_nat (pitch * i_lines out - p_out s)))
    with (fuel := Z.to_nat (0 + pitch * i_lines out))
         (s := {| p_in := i_field * pitch; p_out := 0; out_mem := p_pixels out |})
    as (st & E & (j & Hj & Eo & Ei & Hw) & Hcond).
  - intros s (j & Hj & Eo & Ei & Hw) Hb.
    unfold out_before in Hb. apply Z.ltb_lt in Hb. rewrite Eo in Hb.
    assert (Hjl : j < h) by nia.
    pose proof Hw as (Hl & _).
    unfold bob_body_422_luma. fold pitch. rewrite Eo, Ei.
    rewrite memcpy_row by nia. cbn [bind].
    assert (Hlb : len (blit (out_mem s) (2 * j * pitch)
                            (row (p_pixels src) pitch (2 * j + i_field)))
                  = len (p_pixels out))
      by (rewrite len_blit; rewrite ?len_row; nia).
    replace (2 * j * pitch + pitch) with ((2 * j + 1) * pitch) by lia.
    rewrite memcpy_row by nia. cbn [bind].
    eexists. split; [reflexivity|]. split.
    + exists (j + 1). cbn [p_in p_out out_mem].
      split; [lia|]. split; [lia|]. split; [lia|].
      apply rows_written_upto with (j := 2 * j + 1);
        [assumption | lia | lia | nia | apply len_row; nia | | ].
      * unfold doubled_row. fold pitch. rewrite half_double_succ. reflexivity.
      * apply rows_written_next;
          [assumption | lia | nia | apply len_row; nia | | assumption].
        unfold doubled_row. fold pitch. rewrite half_double. reflexivity.
    + cbn [p_in p_out out_mem]. nia.
  - exists 0. cbn [p_in p_out out_mem]. split; [lia|]. split; [lia|].
    split; [lia|]. apply rows_written_start.
  - cbn [p_in p_out out_mem]. lia.
  - exists st. split; [assumption|].
    unfold out_before in Hcond. apply Z.ltb_ge in Hcond. rewrite Eo in Hcond.
    assert (j = h) by nia. subst j. rewrite Hh. assumption.
Qed.

(** The luma plane of an I422 picture through [RenderBob]. *)
Lemma RenderBob_plane_422_luma :
  doubled_height out src ->
  exists r, RenderBob_plane I422 i_field Y_PLANE out src = Done r /\
            doubled_plane i_field out src r.
Proof.
  intros Hg. unfold RenderBob_plane.
  change (is_420 I422) with false. change (String.eqb I422 I422) with true.
  cbn [Z.eqb Y_PLANE].
  destruct (bob_422_luma_loop Hg) as (st & E & Hl & Hrows & Hsuf).
  rewrite E. cbn [bind]. eexists. split; [reflexivity|].
  destruct Hg as (_ & _ & Epitch & _).
  unfold doubled_plane; cbn [with_pixels p_pixels i_pitch i_lines].
  rewrite Epitch. fold pitch.
  split; [reflexivity|]. split; [reflexivity|]. split; [exact Hl|]. split.
  - intros j Hj Hj1. rewrite !Hrows by lia. unfold doubled_row. fold pitch.
    rewrite half_double, half_double_succ. split; reflexivity.
  - exact Hsuf.
Qed.

(** A chroma plane of an I422 picture through [RenderBob]. *)
Lemma RenderBob_plane_422_chroma (i_plane : Z) :
  Y_PLANE < i_plane -> half_height out src ->
  exists r, RenderBob_plane I422 i_field i_plane out src = Done r /\
            bob_plane i_field out src r.
Proof.
  intros Hi Hg. unfold RenderBob_plane.
  change (is_420 I422) with false. change (String.eqb I422 I422) with true.
  cbn beta iota.
  destruct (Z.eqb_spec i_plane Y_PLANE); [lia|].
  destruct (bob_loop out src i_field Hg Hfield) as (st & E & Hl & Hrows & Hsuf).
  rewrite E. cbn [bind]. eexists. split; [reflexivity|].
  destruct Hg as (_ & _ & Epitch & _).
  unfold bob_plane; cbn [with_pixels p_pixels i_pitch i_lines].
  split; [reflexivity|]. split; [reflexivity|]. split.
  - intros k Hk. rewrite Epitch. apply Hrows. assumption.
  - rewrite Epitch. exact Hsuf.
Qed.
End Bob422.

(** On an I422 picture [RenderBob] writes each row of the chosen field of
    the luma plane twice, in rows [2j] and [2j+1] of the destination, and
    on the other planes once, in consecutive rows. The luma destination
    has an even number of rows, none beyond the source's; the other
    destinations have at most half the rows of their sources. *)
Theorem RenderBob_422_rows (p_vout : vout_thread_t) (p_outpic p_pic : picture_t)
        (i_field : Z) (y_out y_src : plane_t) (c_outs c_srcs : list plane_t) :
  render_i_chroma p_vout = I422 ->
  i_field = 0 \/ i_field = 1 ->
  p p_outpic = y_out :: c_outs -> p p_pic = y_src :: c_srcs ->
  doubled_height y_out y_src ->
  Forall2 half_height c_outs c_srcs ->
  exists y_r c_rs,
    RenderBob p_vout p_outpic p_pic i_field
    = Done {| date := date p_outpic; p := y_r :: c_rs |} /\
    i_pitch y_r = i_pitch y_out /\ i_lines y_r = i_lines y_out /\
    (forall j, 0 <= j -> 2 * j + 1 < i_lines y_out ->
       row (p_pixels y_r) (i_pitch y_r) (2 * j) =
       row (p_pixels y_src) (i_pitch y_src) (2 * j + i_field) /\
       row (p_pixels y_r) (i_pitch y_r) (2 * j + 1) =
       row (p_pixels y_src) (i_pitch y_src) (2 * j + i_field)) /\
    List.length c_rs = List.length c_srcs /\
    forall (n : nat) (out src : plane_t),
      nth_error c_outs n = Some out -> nth_error c_srcs n = Some src ->
      exists r, nth_error c_rs n = Some r /\
                i_pitch r = i_pitch out /\ i_lines r = i_lines out /\
                forall k, 0 <= k < i_lines out ->
                  row (p_pixels r) (i_pitch r) k =
                  row (p_pixels src) (i_pitch src) (2 * k + i_field).
Proof.
  intros Hc Hf Eout Epic Hy Hcs. unfold RenderBob. rewrite Hc, Eout, Epic.
  cbn [for_planes].
  destruct (RenderBob_plane_422_luma y_out y_src i_field Hf Hy)
    as (y_r & Ey & Hp & Hl & _ & Hrows & _).
  change 0 with Y_PLANE at 1. rewrite Ey. cbn [bind].
  destruct (for_planes_each_from (RenderBob_plane I422 i_field)
              half_height (bob_plane i_field) 1) with
    (outs := c_outs) (ins := c_srcs) (i := 0 + 1)
    as (c_rs & E & Hlen & Hrs).
  - intros i out src Hi Hh.
    apply RenderBob_plane_422_chroma; [assumption | unfold Y_PLANE; lia | assumption].
  - lia.
  - assumption.
  - rewrite E. cbn [bind]. exists y_r, c_rs.
    split; [reflexivity|]. split; [assumption|]. split; [assumption|].
    split; [assumption|]. split; [assumption|].
    intros n out src Eo Ei.
    destruct (Hrs n out src Eo Ei) as (r & Er & H1 & H2 & H3 & _).
    exists r. auto.
Qed.

(** ** Render in the other modes *)

(** In Mean and in Blend mode [Render] waits for one picture, dates it with
    the frame's date, renders the frame into it with [RenderMean] or
    [RenderBlend] and displays it; it leaves the state, stored date
    included, and the polls after that picture as they were. *)
Theorem Render_single_rate (p_vout : vout_thread_t) (p_pic : picture_t)
        (k : nat) (out0 : picture_t) (rest : list poll) :
  b_double_rate (p_sys p_vout) = false ->
  renderable_single p_vout out0 p_pic ->
  exists o0,
    Render p_vout p_pic
           (repeat (no_picture false false) k ++ picture_ready out0 :: rest)
    = Done {| sys_after := p_sys p_vout;
              events := repeat msleep_OUTMEM k ++ [vout_DisplayPicture o0];
              polls_left := rest |} /\
    date o0 = date p_pic /\
    (i_mode (p_sys p_vout) = DEINTERLACE_MEAN ->
     RenderMean p_vout (vout_DatePicture out0 (date p_pic)) p_pic = Done o0) /\
    (i_mode (p_sys p_vout) = DEINTERLACE_BLEND ->
     RenderBlend p_vout (vout_DatePicture out0 (date p_pic)) p_pic = Done o0).
Proof.
  intros Hd [(Hm & Hg)|(Hm & Hg)].
  - destruct (RenderMean_each p_vout (vout_DatePicture out0 (date p_pic)) p_pic Hg)
      as (o0 & E & Hdate & _).
    exists o0. split; [|split; [exact Hdate|split]].
    + unfold Render. rewrite wait_picture_ready. cbn [bind]. rewrite Hd.
      unfold Render_switch. rewrite Hm.
      cbn [Z.eqb Pos.eqb DEINTERLACE_DISCARD DEINTERLACE_BOB DEINTERLACE_LINEAR
           DEINTERLACE_MEAN].
      rewrite E. reflexivity.
    + intros _. exact E.
    + intros Hb. rewrite Hm in Hb. discriminate.
  - destruct (RenderBlend_each p_vout (vout_DatePicture out0 (date p_pic)) p_pic Hg)
      as (o0 & E & Hdate & _).
    exists o0. split; [|split; [exact Hdate|split]].
    + unfold Render. rewrite wait_picture_ready. cbn [bind]. rewrite Hd.
      unfold Render_switch. rewrite Hm.
      cbn [Z.eqb Pos.eqb DEINTERLACE_DISCARD DEINTERLACE_BOB DEINTERLACE_LINEAR
           DEINTERLACE_MEAN DEINTERLACE_BLEND].
      rewrite E. reflexivity.
    + intros Hb. rewrite Hm in Hb. discriminate.
    + intros _. exact E.
Qed.

Lemma Render_single_rate_witness :
  exists o0,
    Render (sample_vout (filter_state DEINTERLACE_MEAN false 0)) (sample_frame 7)
           (repeat (no_picture false false) 2 ++ picture_ready sample_half :: [])
    = Done {| sys_after := filter_state DEINTERLACE_MEAN false 0;
              events := repeat msleep_OUTMEM 2 ++ [vout_DisplayPicture o0];
              polls_left := [] |} /\
    date o0 = 7.
Proof.
  destruct (Render_single_rate
              (sample_vout (filter_state DEINTERLACE_MEAN false 0))
              (sample_frame 7) 2 sample_half [] eq_refl
              (or_introl (conj eq_refl sample_half_height)))
    as (o0 & E & Hd & _).
  exists o0. split; assumption.
Defined.

(** In Linear mode [Render] displays two pictures, in this order: the
    frame rendered by [RenderLinear] with field 0 into the first picture it
    acquired, dated with the frame's date, and with field 1 into the
    second, dated with the second date; it stores the frame's date. *)
Theorem Render_linear (p_vout : vout_thread_t) (p_pic : picture_t)
        (k0 : nat) (out0 : picture_t) (k1 : nat) (out1 : picture_t)
        (rest : list poll) :
  i_mode (p_sys p_vout) = DEINTERLACE_LINEAR ->
  b_double_rate (p_sys p_vout) = true ->
  Forall2 frame_height (p out0) (p p_pic) ->
  Forall2 frame_height (p out1) (p p_pic) ->
  exists o0 o1,
    Render p_vout p_pic (two_pictures k0 out0 k1 out1 rest)
    = Done {| sys_after := {| i_mode := DEINTERLACE_LINEAR;
                              b_double_rate := true;
                              last_date := date p_pic |};
              events := repeat msleep_OUTMEM k0 ++ repeat msleep_OUTMEM k1
                          ++ [vout_DisplayPicture o0; vout_DisplayPicture o1];
              polls_left := rest |} /\
    RenderLinear p_vout (vout_DatePicture out0 (date p_pic)) p_pic 0 = Done o0 /\
    RenderLinear p_vout
                 (vout_DatePicture out1 (second_date (p_sys p_vout) p_pic))
                 p_pic 1 = Done o1 /\
    each_plane linear_top (vout_DatePicture out0 (date p_pic)) p_pic o0 /\
    each_plane linear_bottom
               (vout_DatePicture out1 (second_date (p_sys p_vout) p_pic))
               p_pic o1.
Proof.
  intros Hm Hd Hg0 Hg1.
  destruct (RenderLinear_top p_vout (vout_DatePicture out0 (date p_pic)) p_pic Hg0)
    as (o0 & E0 & Hp0).
  destruct (RenderLinear_bottom p_vout
              (vout_DatePicture out1 (second_date (p_sys p_vout) p_pic)) p_pic Hg1)
    as (o1 & E1 & Hp1).
  exists o0, o1.
  split; [|split; [assumption|split; [assumption|split; assumption]]].
  unfold Render, two_pictures. rewrite wait_picture_ready. cbn [bind]. rewrite Hd.
  rewrite wait_picture_ready. cbn [bind].
  unfold Render_switch. cbn [p_sys with_sys i_mode]. rewrite Hm.
  cbn [Z.eqb Pos.eqb DEINTERLACE_DISCARD DEINTERLACE_BOB DEINTERLACE_LINEAR].
  change (RenderLinear (with_sys p_vout ?s)) with (RenderLinear p_vout).
  rewrite E0. cbn [bind on_second].
  change (RenderLinear (with_sys p_vout ?s)) with (RenderLinear p_vout).
  rewrite E1. cbn [bind]. reflexivity.
Qed.

Lemma Render_linear_witness :
  exists o0 o1,
    Render (sample_vout (filter_state DEINTERLACE_LINEAR true 0)) (sample_frame 7)
           (two_pictures 0 sample_full 1 sample_full [])
    = Done {| sys_after := filter_state DEINTERLACE_LINEAR true 7;
              events := repeat msleep_OUTMEM 0 ++ repeat msleep_OUTMEM 1
                          ++ [vout_DisplayPicture o0; vout_DisplayPicture o1];
              polls_left := [] |}.
Proof.
  destruct (Render_linear (sample_vout (filter_state DEINTERLACE_LINEAR true 0))
              (sample_frame 7) 0 sample_full 1 sample_full [] eq_refl eq_refl
              sample_frame_height sample_frame_height)
    as (o0 & o1 & E & _).
  exists o0, o1. exact E.
Defined.

(** ** Waiting *)

(** As long as no picture comes and no flag is set, [Render] stays in its
    acquisition loop: polls that are all unanswered never make it return,
    be it for the first picture or, in double-rate mode, for the second. *)
Theorem Render_keeps_waiting (p_vout : vout_thread_t) (p_pic : picture_t)
        (k : nat) :
  Render p_vout p_pic (repeat (no_picture false false) k) = Starved
  /\ (forall k0 out0,
        b_double_rate (p_sys p_vout) = true ->
        Render p_vout p_pic
               (repeat (no_picture false false) k0 ++ picture_ready out0
                  :: repeat (no_picture false false) k)
        = Starved).
Proof.
  assert (Hw : wait_picture (repeat (no_picture false false) k) = Starved).
  { induction k as [|k IH]; [reflexivity|]. simpl. rewrite IH. reflexivity. }
  split.
  - unfold Render. rewrite Hw. reflexivity.
  - intros k0 out0 Hd. unfold Render. rewrite wait_picture_ready. cbn [bind].
    rewrite Hd, Hw. reflexivity.
Qed.

Lemma Render_keeps_waiting_witness :
  Render (sample_bob 0) (sample_frame 7)
         (repeat (no_picture false false) 1 ++ picture_ready sample_half
            :: repeat (no_picture false false) 4)
  = Starved.
Proof.
  exact (proj2 (Render_keeps_waiting (sample_bob 0) (sample_frame 7) 4)
               1%nat sample_half eq_refl).
Defined.

(** ** Pictures acquired are handed back *)







(** ** The state across frames *)

Lemma Render_state_after (p_vout : vout_thread_t) (p_pic : picture_t)
      (env : list poll) (r : rendered) :
  Render p_vout p_pic env = Done r ->
  sys_after r = p_sys p_vout
  \/ (b_double_rate (p_sys p_vout) = true /\
      sys_after r = {| i_mode := i_mode (p_sys p_vout);
                       b_double_rate := b_double_rate (p_sys p_vout);
                       last_date := date p_pic |}).
Proof.
  unfold Render.
  destruct (wait_picture env) as [[[got0 evs0] env1]| |]; cbn [bind];
    try discriminate.
  destruct got0 as [out0|]; [|intros [= <-]; left; reflexivity].
  destruct (b_double_rate (p_sys p_vout)) eqn:Hd.
  - destruct (wait_picture env1) as [[[got1 evs1] env2]| |]; cbn [bind];
      try discriminate.
    destruct got1 as [out1|]; [|intros [= <-]; left; reflexivity].
    destruct (Render_switch _ _ _ _); cbn [bind]; try discriminate.
    intros [= <-]. right. split; reflexivity.
  - destruct (Render_switch _ _ _ _); cbn [bind]; try discriminate.
    intros [= <-]. left. reflexivity.
Qed.

(** Over any run of frames, whatever the polls bring, [Render] never
    changes the mode or the double-rate flag; the stored date is the one
    it started with or the date of one of the frames; and in a
    single-rate mode the stored date is never written. *)
Theorem Render_frames_keep_mode (frames : list (picture_t * list poll)) :
  forall (p_vout : vout_thread_t) (sys : vout_sys_t) (evs : list event),
    Render_frames p_vout frames = Done (sys, evs) ->
    i_mode sys = i_mode (p_sys p_vout) /\
    b_double_rate sys = b_double_rate (p_sys p_vout) /\
    (last_date sys = last_date (p_sys p_vout) \/
     In (last_date sys) (frame_dates frames)) /\
    (b_double_rate (p_sys p_vout) = false ->
     last_date sys = last_date (p_sys p_vout)).
Proof.
  induction frames as [|[p_pic env] frames IH]; intros p_vout sys evs H.
  - injection H as <- <-. auto.
  - cbn [Render_frames] in H.
    destruct (Render p_vout p_pic env) as [r| |] eqn:Er; cbn [bind] in H;
      try discriminate.
    destruct (Render_frames (with_sys p_vout (sys_after r)) frames)
      as [[sys' evs']| |] eqn:Ef; cbn [bind fst snd] in H; try discriminate.
    injection H as <- <-.
    destruct (IH _ _ _ Ef) as (Hm & Hd & Hl & Hs).
    cbn [with_sys p_sys] in Hm, Hd, Hl, Hs. cbn [frame_dates map fst In].
    destruct (Render_state_after _ _ _ _ Er) as [E | (Hdbl & E)];
      rewrite E in Hm, Hd, Hl, Hs; cbn [i_mode b_double_rate last_date] in *.
    + repeat split; try assumption.
      destruct Hl as [Hl|Hl]; [left; assumption | right; right; exact Hl].
    + repeat split; try assumption.
      * destruct Hl as [Hl|Hl]; [right; left; symmetry; exact Hl
                               | right; right; exact Hl].
      * intros Hf. rewrite Hf in Hdbl. discriminate.
Qed.

Lemma Render_frames_keep_mode_witness :
  exists sys evs,
    Render_frames (sample_vout (filter_state DEINTERLACE_MEAN false 0))
                  [(sample_frame 5, [picture_ready sample_half]);
                   (sample_frame 9, [no_picture true false])]
    = Done (sys, evs) /\
    last_date sys = 0.
Proof.
  assert (E : exists sys evs,
             Render_frames (sample_vout (filter_state DEINTERLACE_MEAN false 0))
                           [(sample_frame 5, [picture_ready sample_half]);
                            (sample_frame 9, [no_picture true false])]
             = Done (sys, evs))
    by (eexists; eexists; reflexivity).
  destruct E as (sys & evs & E). exists sys, evs. split; [exact E|].
  exact (proj2 (proj2 (proj2 (Render_frames_keep_mode _ _ _ _ E))) eq_refl).
Defined.

(** ** The second date against the stored date *)

(** With a positive stored date [P] and a positive frame date [C], both
    far from the end of the range of [mtime_t], the second picture of a
    double-rate frame is dated after the first, and less than [C - P]
    after it, only if [C] is at least 2 after [P]. If [C] is [P] or
    [P + 1] the two pictures have the same date, and if the frame is dated
    before the stored date, the second picture is dated before the
    first. *)
Theorem Render_second_date_order (p_vout : vout_thread_t) (p_pic : picture_t)
        (k0 : nat) (out0 : picture_t) (k1 : nat) (out1 : picture_t)
        (rest : list poll) :
  b_double_rate (p_sys p_vout) = true ->
  renderable p_vout out0 p_pic -> renderable p_vout out1 p_pic ->
  0 < last_date (p_sys p_vout) -> 0 < date p_pic ->
  3 * date p_pic < 2 ^ 63 -> last_date (p_sys p_vout) < 2 ^ 63 ->
  exists r o0 o1,
    Render p_vout p_pic (two_pictures k0 out0 k1 out1 rest) = Done r /\
    events r = repeat msleep_OUTMEM k0 ++ repeat msleep_OUTMEM k1
                 ++ [vout_DisplayPicture o0; vout_DisplayPicture o1] /\
    date o0 = date p_pic /\
    (last_date (p_sys p_vout) + 2 <= date p_pic ->
     date o0 < date o1 < date o0 + (date p_pic - last_date (p_sys p_vout))) /\
    (date p_pic = last_date (p_sys p_vout) \/
     date p_pic = last_date (p_sys p_vout) + 1 ->
     date o1 = date o0) /\
    (date p_pic < last_date (p_sys p_vout) -> date o1 < date o0).
Proof.
  intros Hd H0 H1 HP HC HrC HrP.
  destruct (Render_double p_vout p_pic k0 out0 k1 out1 rest Hd H0 H1)
    as (o0 & o1 & E & Hd0 & Hd1).
  eexists. exists o0, o1. split; [exact E|]. cbn [events].
  split; [reflexivity|]. split; [exact Hd0|].
  rewrite Hd0, Hd1.
  rewrite second_date_set by (unfold is_mtime; lia).
  set (C := date p_pic) in *. set (P := last_date (p_sys p_vout)) in *.
  pose proof (Z.quot_rem' (3 * C - P) 2) as Hq.
  pose proof (Z.rem_bound_abs (3 * C - P) 2 ltac:(lia)) as Habs.
  split; [|split].
  - intros Hgap.
    pose proof (Z.rem_nonneg (3 * C - P) 2 ltac:(lia) ltac:(lia)). lia.
  - intros Hsame.
    pose proof (Z.rem_nonneg (3 * C - P) 2 ltac:(lia) ltac:(lia)). lia.
  - intros Hback.
    destruct (Z.le_gt_cases 0 (3 * C - P)) as [Hpos|Hneg].
    + pose proof (Z.rem_nonneg (3 * C - P) 2 ltac:(lia) Hpos). lia.
    + pose proof (Z.rem_nonpos (3 * C - P) 2 ltac:(lia) ltac:(lia)). lia.
Qed.

Lemma Render_second_date_order_witness :
  exists r o0 o1,
    Render (sample_bob 90000) (sample_frame 50000)
           (two_pictures 0 sample_half 0 sample_half []) = Done r /\
    events r = repeat msleep_OUTMEM 0 ++ repeat msleep_OUTMEM 0
                 ++ [vout_DisplayPicture o0; vout_DisplayPicture o1] /\
    date o1 < date o0.
Proof.
  destruct (Render_second_date_order (sample_bob 90000) (sample_frame 50000)
              0 sample_half 0 sample_half [] eq_refl
              (sample_renderable 90000 50000) (sample_renderable 90000 50000))
    as (r & o0 & o1 & E & Hev & _ & _ & _ & Hback); try (cbn; lia).
  exists r, o0, o1. split; [exact E|]. split; [exact Hev|].
  apply Hback. cbn. lia.
Defined.

(** ** Init and Create, outside the selection of the mode *)

(** [Init] returns 0 on every path and, before anything else, sets
    [I_OUTPUTPICTURES] to 0: the count is 0 when the direct buffers are
    about to be allocated and on every path that returns before that, so
    that [End] after an [Init] that opened no output frees nothing. For a
    chroma other than I420, IYUV, YV12 and I422 [Init] asks for no output,
    logs nothing and changes nothing else in [p_vout]. For those four it
    copies the render geometry to the output geometry and makes at most
    one request, with the render width and aspect; it logs that the output
    cannot be opened exactly when [p_sys->p_vout] holds no output after
    the requests, and still returns 0. *)
Theorem Init_paths (p_vout : vout_thread_t) (created : bool) :
  fst (fst (fst (Init p_vout created))) = 0
  /\ I_OUTPUTPICTURES (snd (fst (fst (Init p_vout created)))) = 0
  /\ (supported (render_i_chroma p_vout) = false ->
      Init p_vout created = (0, with_pictures p_vout 0, [], []))
  /\ (supported (render_i_chroma p_vout) = true ->
      snd (fst (fst (Init p_vout created)))
      = with_output_of_render (with_pictures p_vout 0) /\
      (List.length (Init_requests p_vout created) <= 1)%nat /\
      (forall r, In r (Init_requests p_vout created) ->
         req_width r = render_i_width p_vout /\
         req_aspect r = render_i_aspect p_vout) /\
      (created = false <->
       In (msg_Err "cannot open vout, aborting") (snd (Init p_vout created))))
  /\ (supported (render_i_chroma p_vout) = false \/ created = false ->
      End (I_OUTPUTPICTURES (snd (fst (fst (Init p_vout created))))) = Done []).
Proof.
  assert (Hcount : I_OUTPUTPICTURES (snd (fst (fst (Init p_vout created)))) = 0).
  { unfold Init. cbn [with_pictures render_i_chroma].
    destruct (is_420 (render_i_chroma p_vout)
              || String.eqb (render_i_chroma p_vout) I422); [|reflexivity].
    destruct (Init_request _); destruct created; reflexivity. }
  split; [|split; [exact Hcount|split; [|split]]].
  - unfold Init. cbn [with_pictures render_i_chroma].
    destruct (is_420 (render_i_chroma p_vout)
              || String.eqb (render_i_chroma p_vout) I422); [|reflexivity].
    destruct (Init_request _); destruct created; reflexivity.
  - unfold Init, supported. cbn [with_pictures render_i_chroma].
    intros ->. reflexivity.
  - unfold Init_requests, Init, supported.
    cbn [with_pictures render_i_chroma render_i_width render_i_height
         render_i_aspect I_OUTPUTPICTURES p_sys].
    intros ->.
    change {| render_i_chroma := render_i_chroma p_vout;
              render_i_width := render_i_width p_vout;
              render_i_height := render_i_height p_vout;
              render_i_aspect := render_i_aspect p_vout;
              output_i_chroma := render_i_chroma p_vout;
              output_i_width := render_i_width p_vout;
              output_i_height := render_i_height p_vout;
              output_i_aspect := render_i_aspect p_vout;
              I_OUTPUTPICTURES := 0;
              p_sys := p_sys p_vout |}
      with (with_output_of_render (with_pictures p_vout 0)).
    destruct (Init_request (with_output_of_render (with_pictures p_vout 0)))
      as [r|] eqn:Er;
      destruct created; cbn [fst snd];
      (split; [reflexivity|]); (split; [cbn; lia|]);
      (split; [|split; intros H; try discriminate; try reflexivity;
                cbn [In] in H |- *;
                try (right; left; reflexivity);
                repeat (destruct H as [H|H]; try discriminate;
                        try contradiction)]);
      intros r' Hin; cbn [In] in Hin; try contradiction;
      destruct Hin as [<-|[]];
      unfold Init_request in Er;
      cbn [with_output_of_render with_pictures render_i_chroma p_sys
           output_i_width output_i_height output_i_chroma output_i_aspect] in Er;
      repeat match type of Er with
             | (if ?b then _ else _) = _ => destruct b
             end;
      try discriminate; injection Er as <-; cbn [req_width req_aspect];
      split; reflexivity.
  - intros _. rewrite Hcount. reflexivity.
Qed.

Lemma Init_paths_witness :
  Init sample_rv16 true = (0, with_pictures sample_rv16 0, [], [])
  /\ I_OUTPUTPICTURES sample_rv16 = 3
  /\ (false = false <->
      In (msg_Err "cannot open vout, aborting")
         (snd (Init (sample_422 DEINTERLACE_MEAN) false)))
  /\ End (I_OUTPUTPICTURES
            (snd (fst (fst (Init (sample_422 DEINTERLACE_MEAN) false)))))
     = Done [].
Proof.
  split; [|split; [reflexivity|split]].
  - exact (proj1 (proj2 (proj2 (Init_paths sample_rv16 true))) eq_refl).
  - exact (proj2 (proj2 (proj2
             (proj1 (proj2 (proj2 (proj2
                (Init_paths (sample_422 DEINTERLACE_MEAN) false)))) eq_refl)))).
  - exact (proj2 (proj2 (proj2 (proj2
             (Init_paths (sample_422 DEINTERLACE_MEAN) false)))) (or_intror eq_refl)).
Defined.

Lemma Create_builds (malloc_ok : bool) (cfg : option String.string)
      (code : Z) (sys : vout_sys_t) (log : list message) :
  Create malloc_ok cfg = (code, Some sys, log) ->
  malloc_ok = true /\ code = 0 /\ created_state sys /\ last_date sys = 0.
Proof.
  unfold Create, created_state. destruct malloc_ok; cbn [negb]; [|discriminate].
  destruct cfg as [m|].
  - repeat match goal with
           | |- context [if ?b then _ else _] => destruct b
           end; intros [= <- <- _]; cbn; repeat split; auto 7.
  - intros [= <- <- _]. cbn. repeat split; auto 7.
Qed.

(** When [malloc] fails [Create] returns 1 with an error logged and no
    state. Otherwise it returns 0 with a state whose stored date is 0 and
    whose mode is one of the five with the matching double-rate flag, so
    that, whatever the configuration string, [Init] on a supported chroma
    makes exactly one request, for the full input height or for its
    half. *)
Theorem Create_then_Init (cfg : option String.string) :
  Create false cfg = (1, None, [msg_Err "out of memory"])
  /\ exists sys log,
       Create true cfg = (0, Some sys, log) /\
       created_state sys /\ last_date sys = 0 /\
       forall p_vout created,
         p_sys p_vout = sys ->
         supported (render_i_chroma p_vout) = true ->
         exists r,
           Init_requests p_vout created = [r] /\
           (req_height r = render_i_height p_vout \/
            req_height r = Z.quot (render_i_height p_vout) 2).
Proof.
  split; [reflexivity|].
  destruct (Create true cfg) as [[code [sys|]] log] eqn:E.
  - destruct (Create_builds true cfg code sys log E) as (_ & -> & Hc & Hl).
    exists sys, log. split; [reflexivity|]. split; [assumption|].
    split; [assumption|].
    intros p_vout created Hsys Hsup.
    unfold Init_requests, Init, with_pictures. cbn [render_i_chroma].
    unfold supported in Hsup. rewrite Hsup.
    unfold Init_request.
    cbn [render_i_chroma p_sys output_i_width output_i_height output_i_chroma
         output_i_aspect]. rewrite Hsys.
    destruct (is_420 (render_i_chroma p_vout)) eqn:H420.
    + destruct Hc as [(_ & [-> | [-> | ->]]) | (_ & [-> | ->])];
        cbn [Z.eqb Pos.eqb orb DEINTERLACE_DISCARD DEINTERLACE_BOB
             DEINTERLACE_LINEAR DEINTERLACE_MEAN DEINTERLACE_BLEND];
        destruct created; cbn [fst snd]; eexists; (split; [reflexivity|]);
        cbn [req_height]; auto.
    + cbn [orb] in Hsup. rewrite Hsup.
      destruct created; cbn [fst snd]; eexists; (split; [reflexivity|]);
        cbn [req_height]; auto.
  - exfalso. unfold Create in E. cbn [negb] in E.
    destruct cfg as [m|];
      repeat match type of E with
             | context [if ?b then _ else _] => destruct b
             end; discriminate.
Qed.

Lemma Create_then_Init_witness :
  exists sys log r,
    Create true (Some "average"%string) = (0, Some sys, log) /\
    Init_requests (sample_vout sys) true = [r].
Proof.
  destruct (Create_then_Init (Some "average"%string))
    as (_ & sys & log & E & _ & _ & Hinit).
  destruct (Hinit (sample_vout sys) true eq_refl eq_refl) as (r & Er & _).
  exists sys, log, r. split; assumption.
Defined.

(** ** End *)

Lemma End_loop (n : nat) :
  forall (done : list Z) (fuel : nat),
    (n <= fuel)%nat ->
    while fuel (fun st => negb (i_index st =? 0))
          (fun st =>
             let i := i_index st - 1 in
             Done {| i_index := i; freed := freed st ++ [i] |})
          {| i_index := Z.of_nat n; freed := done |}
    = Done {| i_index := 0; freed := done ++ countdown n |}.
Proof.
  induction n as [|n IH]; intros done fuel Hf.
  - destruct fuel; cbn; rewrite app_nil_r; reflexivity.
  - destruct fuel as [|fuel]; [lia|].
    cbn [while i_index freed].
    destruct (Z.eqb_spec (Z.of_nat (Datatypes.S n)) 0) as [H0|_]; [lia|].
    cbn [negb bind].
    replace (Z.of_nat (Datatypes.S n) - 1) with (Z.of_nat n) by lia.
    rewrite IH by lia. cbn [countdown]. rewrite <- app_assoc. reflexivity.
Qed.

Lemma countdown_spec (n : nat) (i : Z) :
  In i (countdown n) <-> 0 <= i < Z.of_nat n.
Proof.
  induction n as [|n IH]; cbn [countdown In]; [lia|]. rewrite IH. lia.
Qed.

Lemma countdown_NoDup (n : nat) : NoDup (countdown n).
Proof.
  induction n as [|n IH]; cbn [countdown]; constructor; [|assumption].
  rewrite countdown_spec. lia.
Qed.

(** With [n >= 0] output pictures [End] returns after freeing the buffer of
    each of them exactly once, from the last, [n - 1], down to the first;
    with none it frees nothing. *)
Theorem End_frees_each_once (n : Z) :
  0 <= n ->
  exists l,
    End n = Done l /\
    l = countdown (Z.to_nat n) /\
    NoDup l /\
    (forall i, In i l <-> 0 <= i < n) /\
    len l = n /\
    (n = 0 -> l = []).
Proof.
  intros Hn. exists (countdown (Z.to_nat n)).
  split; [|split; [reflexivity|split; [apply countdown_NoDup|split; [|split]]]].
  - unfold End. rewrite <- (Z2Nat.id n Hn) at 2.
    rewrite End_loop by lia. reflexivity.
  - intros i. rewrite countdown_spec. lia.
  - unfold len.
    assert (H : forall k, List.length (countdown k) = k)
      by (induction k; cbn; congruence).
    rewrite H. lia.
  - intros ->. reflexivity.
Qed.

Lemma End_frees_each_once_witness :
  exists l, End 3 = Done l /\ l = [2; 1; 0].
Proof.
  destruct (End_frees_each_once 3 ltac:(lia)) as (l & E & Hl & _).
  exists l. split; [exact E | exact Hl].
Defined.

(** ** RenderLinear on planes with an odd number of rows *)

Section LinearAnyHeight.
Variables (out src : plane_t).
Hypothesis Hgeom : same_height out src.

Let pitch := i_pitch src.
Let lines := i_lines src.

Lemma same_height_facts :
  0 < pitch /\ 0 <= lines /\ i_pitch out = pitch /\ i_lines out = lines /\
  pitch * lines <= len (p_pixels out) /\ pitch * lines <= len (p_pixels src).
Proof.
  destruct Hgeom as ((Hp & Hlo & Hfo) & (_ & Hli & Hfi) & Epitch & Elines).
  rewrite Epitch, Elines in *. fold pitch lines in Hp, Hfo, Hfi, Hli |- *.
  repeat split; assumption.
Qed.

Lemma linear_pair (F : Z -> list Z) (s : row_state) (j : Z) :
  0 <= j -> j + 2 < lines ->
  p_out s = j * pitch -> p_in s = j * pitch ->
  F j = row (p_pixels src) pitch j ->
  F (j + 1) = merge_bytes (row (p_pixels src) pitch j)
                          (row (p_pixels src) pitch (j + 2)) ->
  rows_written (p_pixels out) (out_mem s) pitch j F ->
  exists s', linear_body src s = Done s' /\
             p_out s' = (j + 2) * pitch /\ p_in s' = (j + 2) * pitch /\
             rows_written (p_pixels out) (out_mem s') pitch (j + 2) F.
Proof.
  intros Hj Hj2 Eo Ei HFj HFj1 Hw.
  destruct same_height_facts as (Hp & _ & _ & _ & Hfo & Hfi).
  pose proof Hw as (Hl & _).
  unfold linear_body. fold pitch. rewrite Eo, Ei.
  rewrite memcpy_row by nia. cbn [bind].
  assert (Hlb : len (blit (out_mem s) (j * pitch) (row (p_pixels src) pitch j))
                = len (p_pixels out))
    by (rewrite len_blit; rewrite ?len_row; nia).
  replace (j * pitch + pitch) with ((j + 1) * pitch) by lia.
  replace (j * pitch + 2 * pitch) with ((j + 2) * pitch) by lia.
  rewrite Merge_rows by nia. cbn [bind].
  eexists. split; [reflexivity|]. cbn [p_in p_out out_mem].
  split; [lia|]. split; [lia|].
  apply rows_written_upto with (j := j + 1);
    [assumption | lia | lia | nia | apply len_merged_rows; nia | | ].
  - rewrite HFj1. reflexivity.
  - apply rows_written_next;
      [assumption | lia | nia | apply len_row; nia | | assumption].
    symmetry. exact HFj.
Qed.

Lemma linear_pairs (F : Z -> list Z) (j0 j1 : Z) (s : row_state) :
  0 <= j0 <= j1 -> j1 = lines - 2 \/ j1 = lines - 1 ->
  (exists d, j1 - j0 = 2 * d) ->
  (forall j, j0 <= j -> j + 2 < lines -> (exists d, j - j0 = 2 * d) ->
     F j = row (p_pixels src) pitch j /\
     F (j + 1) = merge_bytes (row (p_pixels src) pitch j)
                             (row (p_pixels src) pitch (j + 2))) ->
  p_out s = j0 * pitch -> p_in s = j0 * pitch ->
  rows_written (p_pixels out) (out_mem s) pitch j0 F ->
  exists s', while (Z.to_nat (0 + i_pitch out * i_lines out))
               (out_before (0 + i_pitch out * i_lines out - 2 * i_pitch out))
               (linear_body src) s = Done s' /\
             p_out s' = j1 * pitch /\ p_in s' = j1 * pitch /\
             rows_written (p_pixels out) (out_mem s') pitch j1 F.
Proof.
  intros Hj Hend Hpar HF Eo Ei Hw.
  destruct same_height_facts as (Hp & Hl0 & Epitch & Elines & Hfo & Hfi).
  rewrite Epitch, Elines.
  destruct (while_rule (out_before (0 + pitch * lines - 2 * pitch))
              (linear_body src)
              (fun t => exists j, j0 <= j <= j1 /\ (exists d, j - j0 = 2 * d) /\
                                  p_out t = j * pitch /\ p_in t = j * pitch /\
                                  rows_written (p_pixels out) (out_mem t) pitch j F)
              (fun t => Z.to_nat (pitch * lines - p_out t)))
    with (fuel := Z.to_nat (0 + pitch * lines)) (s := s)
    as (s' & E & (j & Hjr & Hjp & Eo' & Ei' & Hw') & Hcond).
  - intros t (j & Hjr & (d & Hd) & Eo' & Ei' & Hw') Hb.
    unfold out_before in Hb. apply Z.ltb_lt in Hb. rewrite Eo' in Hb.
    assert (Hj2 : j + 2 < lines) by nia.
    destruct (HF j ltac:(lia) Hj2 (ex_intro _ d Hd)) as (HFj & HFj1).
    destruct (linear_pair F t j ltac:(lia) Hj2 Eo' Ei' HFj HFj1 Hw')
      as (t' & Et & Eo2 & Ei2 & Hw2).
    exists t'. split; [assumption|]. split.
    + exists (j + 2). split.
      * destruct Hpar as (d1 & Hd1). lia.
      * split; [exists (d + 1); lia|]. auto.
    + rewrite Eo2, Eo'. nia.
  - exists j0. split; [lia|]. split; [exists 0; lia|]. auto.
  - rewrite Eo. nia.
  - exists s'. split; [assumption|].
    unfold out_before in Hcond. apply Z.ltb_ge in Hcond. rewrite Eo' in Hcond.
    assert (Hge : lines - 2 <= j) by nia.
    destruct Hjp as (d & Hd). destruct Hpar as (d1 & Hd1).
    assert (j = j1) by lia. subst j. auto.
Qed.

(** Top field, odd number of rows: the state before the last step. *)
Lemma linear_top_odd_before_last :
  Z.odd lines = true ->
  exists s,
    while (Z.to_nat (0 + i_pitch out * i_lines out))
          (out_before (0 + i_pitch out * i_lines out - 2 * i_pitch out))
          (linear_body src)
          {| p_in := 0; p_out := 0; out_mem := p_pixels out |} = Done s /\
    p_out s = (lines - 1) * pitch /\ p_in s = (lines - 1) * pitch /\
    rows_written (p_pixels out) (out_mem s) pitch (lines - 1) (linear_top_row src).
Proof.
  intros Hodd.
  destruct same_height_facts as (Hp & Hl0 & Epitch & Elines & Hfo & Hfi).
  apply Z.odd_spec in Hodd. destruct Hodd as (h & Hh).
  apply (linear_pairs (linear_top_row src) 0 (lines - 1)).
  - lia.
  - right; reflexivity.
  - exists h. lia.
  - intros j Hj0 Hj2 (d & Hd). unfold linear_top_row. fold pitch lines.
    replace j with (2 * d) by lia. rewrite even_double, orb_true_r.
    rewrite even_double_succ.
    destruct (Z.eqb_spec (2 * d + 1) (lines - 1)); [lia|]. cbn [orb].
    replace (2 * d + 1 - 1) with (2 * d) by lia.
    replace (2 * d + 1 + 1) with (2 * d + 2) by lia. split; reflexivity.
  - reflexivity.
  - reflexivity.
  - apply rows_written_start.
Qed.
End LinearAnyHeight.

(** With an odd number of rows the last step of the top field of
    [RenderLinear] is on the row after the last of both planes: when one
    of the two buffers ends with the plane the step is outside it, and
    when both have room for one more row of [pitch] bytes that row of the
    destination buffer is overwritten with that row of the source buffer,
    after the rows of the plane were written: the even rows copied, the
    odd rows merged from their two neighbours in the source. *)
Theorem RenderLinear_top_odd (out src : plane_t) (i_plane : Z) :
  same_height out src -> Z.odd (i_lines src) = true ->
  (len (p_pixels out) < i_pitch src * (i_lines src + 1) \/
   len (p_pixels src) < i_pitch src * (i_lines src + 1) ->
   RenderLinear_plane 0 i_plane out src = Fault)
  /\ (i_pitch src * (i_lines src + 1) <= len (p_pixels out) ->
      i_pitch src * (i_lines src + 1) <= len (p_pixels src) ->
      exists r,
        RenderLinear_plane 0 i_plane out src = Done r /\
        i_lines r = i_lines src /\ len (p_pixels r) = len (p_pixels out) /\
        (forall k, 0 <= k < i_lines src ->
           row (p_pixels r) (i_pitch src) k = linear_top_row src k) /\
        row (p_pixels r) (i_pitch src) (i_lines src) =
        row (p_pixels src) (i_pitch src) (i_lines src)).
Proof.
  intros Hgeom Hodd.
  pose proof (same_height_facts out src Hgeom) as Hfacts.
  pose proof (linear_top_odd_before_last out src Hgeom Hodd) as Hbefore.
  cbv zeta in Hfacts, Hbefore.
  set (pitch := i_pitch src) in *. set (lines := i_lines src) in *.
  destruct Hfacts as (Hp & Hl0 & Epitch & Elines & Hfo & Hfi).
  destruct Hbefore as (s & E & Eo & Ei & Hw).
  pose proof Hw as (Hl & _).
  assert (Hl1 : 1 <= lines).
  { apply Z.odd_spec in Hodd. destruct Hodd as (h & Hh). lia. }
  assert (Hlb : len (blit (out_mem s) ((lines - 1) * pitch)
                          (row (p_pixels src) pitch (lines - 1)))
                = len (p_pixels out))
    by (rewrite len_blit; rewrite ?len_row; nia).
  assert (Hlast : rows_written (p_pixels out)
                    (blit (out_mem s) ((lines - 1) * pitch)
                          (row (p_pixels src) pitch (lines - 1)))
                    pitch lines (linear_top_row src)).
  { apply rows_written_upto with (j := lines - 1);
      [assumption | lia | lia | nia | apply len_row; nia | | assumption].
    unfold linear_top_row. fold pitch lines. rewrite Z.eqb_refl. reflexivity. }
  split.
  - intros Hshort. unfold RenderLinear_plane. cbn [Z.eqb bind].
    rewrite E. cbn [bind]. fold pitch. rewrite Eo, Ei.
    rewrite memcpy_row by nia. cbn [bind].
    unfold memcpy.
    replace ((lines - 1) * pitch + pitch) with (lines * pitch) by lia.
    destruct (in_range _ (lines * pitch) pitch) eqn:R1;
      [|reflexivity].
    destruct (in_range (p_pixels src) (lines * pitch) pitch) eqn:R2;
      [|reflexivity].
    apply in_range_iff in R1. apply in_range_iff in R2. rewrite Hlb in R1. nia.
  - intros Ro Rs. unfold RenderLinear_plane. cbn [Z.eqb bind].
    rewrite E. cbn [bind]. fold pitch. rewrite Eo, Ei.
    rewrite memcpy_row by nia. cbn [bind].
    replace ((lines - 1) * pitch + pitch) with (lines * pitch) by lia.
    rewrite memcpy_row by nia. cbn [bind].
    eexists. split; [reflexivity|].
    cbn [with_pixels p_pixels i_pitch i_lines].
    split; [assumption|]. split; [rewrite len_blit; rewrite ?len_row; nia|].
    split.
    + intros k Hk. unfold row at 1. rewrite sub_blit_other
        by (rewrite ?len_row; nia).
      destruct Hlast as (_ & Hrows & _). apply Hrows. assumption.
    + unfold row at 1. apply sub_blit_same_len; [apply len_row; nia | nia | nia].
Qed.

(** With an odd number of rows, three at least, the bottom field of
    [RenderLinear] writes every row but the last, which keeps what the
    destination held: row 0 and the odd rows are copies of the source's,
    the even rows between are merges of their two neighbours in the
    source. *)
Theorem RenderLinear_bottom_odd (out src : plane_t) (i_plane : Z) :
  same_height out src -> Z.odd (i_lines src) = true -> 3 <= i_lines src ->
  exists r,
    RenderLinear_plane 1 i_plane out src = Done r /\
    i_lines r = i_lines src /\ len (p_pixels r) = len (p_pixels out) /\
    (forall k, 0 <= k < i_lines src - 1 ->
       row (p_pixels r) (i_pitch src) k = linear_bottom_row src k) /\
    row (p_pixels r) (i_pitch src) (i_lines src - 1) =
    row (p_pixels out) (i_pitch src) (i_lines src - 1).
Proof.
  intros Hgeom Hodd H3.
  pose proof (same_height_facts out src Hgeom) as Hfacts.
  pose proof (linear_pairs out src Hgeom) as Hpairs.
  cbv zeta in Hfacts, Hpairs.
  set (pitch := i_pitch src) in *. set (lines := i_lines src) in *.
  destruct Hfacts as (Hp & Hl0 & Epitch & Elines & Hfo & Hfi).
  apply Z.odd_spec in Hodd. destruct Hodd as (h & Hh).
  assert (Hodd2 : Z.odd (lines - 2) = true)
    by (replace (lines - 2) with (2 * (h - 1) + 1) by lia; apply odd_double_succ).
  unfold RenderLinear_plane. cbn [Z.eqb Pos.eqb bind p_in p_out out_mem].
  fold pitch.
  pose proof (memcpy_row pitch Hp (p_pixels out) (p_pixels src) 0 0
                ltac:(lia) ltac:(nia) ltac:(lia) ltac:(nia)) as Hm.
  pose proof (rows_written_next pitch Hp (p_pixels out) (p_pixels out) 0
                (linear_bottom_row src) (row (p_pixels src) pitch 0)
                ltac:(lia) ltac:(nia) ltac:(apply len_row; nia) eq_refl
                (rows_written_start pitch _ _)) as Hw0.
  rewrite Z.mul_0_l in Hm, Hw0. rewrite Hm. cbn [bind].
  destruct (Hpairs (linear_bottom_row src) 1 (lines - 2)
              {| p_in := 0 + pitch; p_out := 0 + pitch;
                 out_mem := blit (p_pixels out) 0 (row (p_pixels src) pitch 0) |})
    as (s & E & Eo & Ei & Hw).
  - lia.
  - left; reflexivity.
  - exists (h - 1). lia.
  - intros j Hj0 Hj2 (d & Hd). unfold linear_bottom_row. fold pitch lines.
    replace j with (2 * d + 1) by lia. rewrite odd_double_succ, orb_true_r.
    replace (2 * d + 1 + 1) with (2 * (d + 1)) by lia. rewrite odd_double.
    destruct (Z.eqb_spec (2 * (d + 1)) 0); [lia|]. cbn [orb].
    replace (2 * (d + 1) - 1) with (2 * d + 1) by lia.
    replace (2 * (d + 1) + 1) with (2 * d + 1 + 2) by lia. split; reflexivity.
  - cbn [p_out]. lia.
  - cbn [p_in]. lia.
  - exact Hw0.
  - rewrite E. cbn [bind]. rewrite Eo, Ei.
    pose proof Hw as (Hl & _).
    rewrite memcpy_row by nia. cbn [bind].
    eexists. split; [reflexivity|].
    assert (Hall : rows_written (p_pixels out)
                     (blit (out_mem s) ((lines - 2) * pitch)
                           (row (p_pixels src) pitch (lines - 2)))
                     pitch (lines - 1) (linear_bottom_row src)).
    { apply rows_written_upto with (j := lines - 2);
        [assumption | lia | lia | nia | apply len_row; nia | | assumption].
      unfold linear_bottom_row. fold pitch lines.
      rewrite Hodd2, orb_true_r. reflexivity. }
    destruct Hall as (Hlen & Hrows & Hsuf).
    cbn [with_pixels p_pixels i_pitch i_lines].
    split; [assumption|]. split; [assumption|]. split; [exact Hrows|].
    unfold from in Hsuf. rewrite Hlen in Hsuf. unfold row in Hlen, Hsuf |- *.
    apply (sub_inside _ _ ((lines - 1) * pitch)
             (len (p_pixels out) - (lines - 1) * pitch));
      try assumption; rewrite ?Hlen; try nia.
Qed.

Lemma sample_odd_same_height (f g : nat -> Z) :
  same_height (sample_plane 2 3 f) (sample_plane 2 3 g).
Proof.
  unfold same_height, plane_ok, len; cbn. repeat split; try lia; reflexivity.
Qed.

Lemma sample_odd_roomy_same_height (f g : nat -> Z) :
  same_height (sample_odd_roomy f) (sample_odd_roomy g).
Proof.
  unfold same_height, plane_ok, len; cbn. repeat split; try lia; reflexivity.
Qed.

Lemma RenderLinear_top_odd_witness :
  RenderLinear_plane 0 0 (sample_plane 2 3 (fun _ => 0))
                     (sample_plane 2 3 (fun i => Z.of_nat (i * i))) = Fault
  /\ exists r,
       RenderLinear_plane 0 0 (sample_odd_roomy (fun _ => 0))
                          (sample_odd_roomy (fun i => Z.of_nat (i * i)))
       = Done r /\
       row (p_pixels r) 2 3 = [36; 49].
Proof.
  split.
  - apply (proj1 (RenderLinear_top_odd _ _ 0
                    (sample_odd_same_height _ _) eq_refl)).
    left. vm_compute. reflexivity.
  - destruct (proj2 (RenderLinear_top_odd _ _ 0
                       (sample_odd_roomy_same_height
                          (fun _ => 0) (fun i => Z.of_nat (i * i))) eq_refl))
      as (r & E & _ & _ & _ & Hrow); try (vm_compute; discriminate).
    exists r. split; [exact E | exact Hrow].
Defined.

Lemma RenderLinear_bottom_odd_witness :
  exists r,
    RenderLinear_plane 1 0 (sample_plane 2 3 (fun _ => 5))
                       (sample_plane 2 3 (fun i => Z.of_nat (i * i))) = Done r /\
    row (p_pixels r) 2 2 = [5; 5].
Proof.
  destruct (RenderLinear_bottom_odd _ _ 0
              (sample_odd_same_height (fun _ => 5) (fun i => Z.of_nat (i * i)))
              eq_refl ltac:(vm_compute; discriminate))
    as (r & E & _ & _ & _ & Hrow).
  exists r. split; [exact E | exact Hrow].
Defined.

(** ** Nothing is written after the last row *)

Lemma from_get (a b : list Z) (o i : Z) :
  from a o = from b o -> len a = len b -> 0 <= o <= i -> i < len a ->
  get a i = get b i.
Proof.
  unfold from. intros E Hl Ho Hi.
  replace i with (o + (i - o)) by lia.
  rewrite <- (get_sub a o (len a - o)) by lia.
  rewrite <- (get_sub b o (len b - o)) by lia.
  unfold len in *. rewrite E. reflexivity.
Qed.

Lemma RenderBob_plane_420_stays (i_chroma : String.string) (i_field i_plane : Z)
      (out src : plane_t) :
  is_420 i_chroma = true -> i_field = 0 \/ i_field = 1 ->
  half_height out src ->
  exists r, RenderBob_plane i_chroma i_field i_plane out src = Done r /\
            stays_in_plane out r.
Proof.
  intros Hc Hf Hg. unfold RenderBob_plane. rewrite Hc.
  destruct (bob_loop out src i_field Hg Hf) as (st & E & Hl & _ & Hsuf).
  rewrite E. cbn [bind]. eexists. split; [reflexivity|].
  destruct Hg as ((Hp & Hlo & _) & _ & Epitch & _).
  unfold stays_in_plane. cbn [with_pixels p_pixels].
  split; [exact Hl|]. intros i Hi. rewrite Epitch in Hi.
  apply (from_get _ _ (i_lines out * i_pitch src)); try assumption; nia.
Qed.

Lemma RenderBlend_plane_stays (i_plane : Z) (out src : plane_t) :
  full_height out src ->
  exists r, RenderBlend_plane i_plane out src = Done r /\ stays_in_plane out r.
Proof.
  intros Hg. unfold RenderBlend_plane.
  destruct (blend_loop out src Hg) as (m & st & Em & E & Hl & _ & Hsuf).
  rewrite Em. cbn [bind]. rewrite E. cbn [bind].
  eexists. split; [reflexivity|].
  destruct Hg as ((Hp & Hlo & _) & _ & Epitch & _).
  unfold stays_in_plane. cbn [with_pixels p_pixels].
  split; [exact Hl|]. intros i Hi. rewrite Epitch in Hi.
  apply (from_get _ _ (i_lines out * i_pitch src)); try assumption; nia.
Qed.

(** [RenderBob] on a 4:2:0 picture and [RenderBlend] keep the length of the
    buffer of every destination plane and write no byte after the plane's
    last row, also when the buffer is longer than the plane or the source
    has more rows than the destination has room for. *)
Theorem Render_rows_stay_in_plane (p_vout : vout_thread_t)
        (p_outpic p_pic : picture_t) :
  (is_420 (render_i_chroma p_vout) = true ->
   Forall2 half_height (p p_outpic) (p p_pic) ->
   forall i_field, i_field = 0 \/ i_field = 1 ->
   exists shown,
     RenderBob p_vout p_outpic p_pic i_field = Done shown /\
     forall (n : nat) (out src : plane_t),
       nth_error (p p_outpic) n = Some out ->
       nth_error (p p_pic) n = Some src ->
       exists r, nth_error (p shown) n = Some r /\ stays_in_plane out r)
  /\ (Forall2 full_height (p p_outpic) (p p_pic) ->
      exists shown,
        RenderBlend p_vout p_outpic p_pic = Done shown /\
        forall (n : nat) (out src : plane_t),
          nth_error (p p_outpic) n = Some out ->
          nth_error (p p_pic) n = Some src ->
          exists r, nth_error (p shown) n = Some r /\ stays_in_plane out r).
Proof.
  split.
  - intros Hc Hg i_field Hf. unfold RenderBob.
    destruct (for_planes_each
                (RenderBob_plane (render_i_chroma p_vout) i_field)
                half_height (fun out _ r => stays_in_plane out r)) with
      (outs := p p_outpic) (ins := p p_pic) (i := 0)
      as (rs & E & _ & Hrs).
    + intros i out src Hh. apply RenderBob_plane_420_stays; assumption.
    + assumption.
    + rewrite E. cbn [bind]. eexists. split; [reflexivity|]. exact Hrs.
  - intros Hg. unfold RenderBlend.
    destruct (for_planes_each RenderBlend_plane full_height
                (fun out _ r => stays_in_plane out r)) with
      (outs := p p_outpic) (ins := p p_pic) (i := 0)
      as (rs & E & _ & Hrs).
    + intros i out src Hh. apply RenderBlend_plane_stays; assumption.
    + assumption.
    + rewrite E. cbn [bind]. eexists. split; [reflexivity|]. exact Hrs.
Qed.

Lemma Render_rows_stay_in_plane_witness :
  (exists shown,
     RenderBob (sample_bob 0) sample_half (sample_frame 7) 1 = Done shown)
  /\ (exists shown,
        RenderBlend (sample_bob 0) sample_full (sample_frame 7) = Done shown).
Proof.
  destruct (Render_rows_stay_in_plane (sample_bob 0) sample_half (sample_frame 7))
    as (Hbob & _).
  destruct (Render_rows_stay_in_plane (sample_bob 0) sample_full (sample_frame 7))
    as (_ & Hblend).
  split.
  - destruct (Hbob eq_refl sample_half_height 1 (or_intror eq_refl))
      as (shown & E & _).
    exists shown. exact E.
  - destruct (Hblend sample_full_height) as (shown & E & _).
    exists shown. exact E.
Defined.

Lemma sample_422_geometry :
  doubled_height (sample_plane 2 4 (fun _ => 0))
                 (sample_plane 2 4 (fun i => Z.of_nat (i * i)))
  /\ Forall2 half_height [sample_plane 1 2 (fun _ => 0)]
                         [sample_plane 1 4 (fun i => 100 + Z.of_nat i)].
Proof.
  split.
  - unfold doubled_height, plane_ok, len; cbn. repeat split; try lia; reflexivity.
  - constructor; [|constructor].
    unfold half_height, plane_ok, len; cbn. repeat split; try lia; reflexivity.
Qed.

Lemma RenderBob_422_rows_witness :
  exists y_r c_rs,
    RenderBob (sample_422 DEINTERLACE_BOB) sample_422_out sample_422_frame 1
    = Done {| date := 0; p := y_r :: c_rs |} /\
    List.length c_rs = 1%nat.
Proof.
  destruct (RenderBob_422_rows (sample_422 DEINTERLACE_BOB) sample_422_out
              sample_422_frame 1 _ _ _ _ eq_refl (or_intror eq_refl)
              eq_refl eq_refl (proj1 sample_422_geometry)
              (proj2 sample_422_geometry))
    as (y_r & c_rs & E & _ & _ & _ & Hlen & _).
  exists y_r, c_rs. split; [exact E | exact Hlen].
Defined.

(** The I422 sample through [RenderBob], field 1: luma rows written twice,
    chroma rows once. *)
Example RenderBob_422_sample :
  rendered_rows (RenderBob (sample_422 DEINTERLACE_BOB) sample_422_out
                           sample_422_frame 1)
  = [[[4; 9]; [4; 9]; [36; 49]; [36; 49]]; [[101]; [103]]].
Proof. reflexivity. Qed.
